(** * Appointment scheduling back end: ledger, availability and chat turn

    A shallow embedding of
      - backend/api/calendly_integration.py  (class CalendlyIntegration),
      - backend/models/schemas.py            (PatientInfo, TimeSlot, BookingRequest),
      - backend/agent/scheduling_agent.py    (SchedulingAgent: chat and sessions),
      - backend/tools/availability_tool.py   (check_availability),
      - backend/tools/booking_tool.py        (book_appointment),
      - backend/main.py, backend/api/chat.py (the HTTP endpoints),
    together with the properties of the ledger, of slot generation, of the
    booking validation order, of the tools, of the endpoints and of the
    chat turn.

    Conventions.  Python exceptions are values of [PyError]; a function that
    may raise returns a [result].  The wall clock, the random generator and
    the language model are explicit arguments.  Strings are byte strings:
    the digit classes of the regular expressions and of [int] are the ASCII
    digits. *)

From Stdlib Require Import ZArith String Ascii List Bool Lia.
From Stdlib Require Import Decimal DecimalString DecimalZ.
From stdpp Require Import base option list gmap strings.
Import ListNotations.

Local Open Scope string_scope.
Local Open Scope Z_scope.

(* ===================================================================== *)
(** ** Exceptions and the result monad *)
(* ===================================================================== *)

(** Every exception the modelled code can raise.  All but [KeyError] are
    [ValueError]s in Python (pydantic's [ValidationError] is a subclass);
    they are told apart by the statement that raises them. *)
Inductive PyError : Type :=
  | InvalidDate            (* ValueError("Invalid date format: ...") *)
  | StrptimeError          (* ValueError of an uncaught datetime.strptime *)
  | PastDateError          (* ValueError("Cannot book appointments in the past") *)
  | ClosedDayError         (* ValueError("Clinic is closed on ...") *)
  | SlotUnavailableError   (* ValueError("Time slot ... is not available") *)
  | OutsideHoursError      (* ValueError("Time slot ... is outside working hours") *)
  | IntValueError          (* ValueError of int() or of the unpacking in _time_to_minutes *)
  | KeyError               (* missing dictionary key *)
  | ValidationError.       (* pydantic.ValidationError *)

(** [Timeout] is not a Python outcome: it is what a [while] loop of the
    model returns when its fuel is spent. *)
Inductive result (A : Type) : Type :=
  | Ok (a : A)
  | Raise (e : PyError)
  | Timeout.
Arguments Ok {A} a.
Arguments Raise {A} e.
Arguments Timeout {A}.

Definition rbind {A B : Type} (r : result A) (k : A -> result B) : result B :=
  match r with
  | Ok a => k a
  | Raise e => Raise e
  | Timeout => Timeout
  end.

Notation "'do' x <~ r ; k" := (rbind r (fun x => k))
  (at level 10, x name, r at level 100, k at level 200).
Notation "'do' ' p <~ r ; k" := (rbind r (fun x => match x with p => k end))
  (at level 10, p pattern, r at level 100, k at level 200).

Definition of_option {A : Type} (e : PyError) (o : option A) : result A :=
  match o with
  | Some a => Ok a
  | None => Raise e
  end.

(* ===================================================================== *)
(** ** Characters, [int] and string formatting *)
(* ===================================================================== *)

Definition is_digit (c : ascii) : bool :=
  ((48 <=? nat_of_ascii c) && (nat_of_ascii c <=? 57))%nat.

Definition digit_val (c : ascii) : Z := Z.of_nat (nat_of_ascii c) - 48.

Definition is_upper (c : ascii) : bool :=
  ((65 <=? nat_of_ascii c) && (nat_of_ascii c <=? 90))%nat.

(** ASCII white space, the class [\s]. *)
Definition is_space (c : ascii) : bool :=
  let n := nat_of_ascii c in
  ((n =? 32) || ((9 <=? n) && (n <=? 13)))%nat.

(** [int(s)] on a decimal literal: an optional sign and at least one digit.
    (Python also strips surrounding white space and admits single
    underscores between digits; no string built or validated by the
    modelled code has either.) *)
Definition py_int (s : string) : option Z :=
  match s with
  | String "+"%char s' =>
      match s' with
      | String "-"%char _ => None
      | _ => option_map Z.of_int (NilZero.int_of_string s')
      end
  | _ => option_map Z.of_int (NilZero.int_of_string s)
  end.

(** [str(z)]: the decimal digits, with a leading minus sign below zero. *)
Definition py_str (z : Z) : string := NilZero.string_of_int (Z.to_int z).

(** [f"{z:02d}"]: sign-aware zero padding to width two. *)
Definition fmt02 (z : Z) : string :=
  let s := py_str z in
  if (String.length s <? 2)%nat then String "0"%char s else s.

(** [s.split(sep)] for a one-character separator. *)
Fixpoint split_on (sep : ascii) (s : string) : list string :=
  match s with
  | EmptyString => [EmptyString]
  | String c s' =>
      if Ascii.eqb c sep then EmptyString :: split_on sep s'
      else match split_on sep s' with
           | [] => [String c EmptyString]
           | w :: ws => String c w :: ws
           end
  end.

(** The pattern [^\d{2}:\d{2}$] of TimeSlot and BookingRequest. *)
Definition matches_hhmm (s : string) : bool :=
  match s with
  | String h1 (String h2 (String ":"%char (String m1 (String m2 EmptyString)))) =>
      is_digit h1 && is_digit h2 && is_digit m1 && is_digit m2
  | _ => false
  end.

(* ===================================================================== *)
(** ** Minutes since midnight *)
(* ===================================================================== *)

(** [_time_to_minutes]: [hours, minutes = map(int, time_str.split(':'))]. *)
Definition _time_to_minutes (time_str : string) : result Z :=
  match split_on ":"%char time_str with
  | [h; m] =>
      do hours <~ of_option IntValueError (py_int h);
      do minutes <~ of_option IntValueError (py_int m);
      Ok (hours * 60 + minutes)
  | _ => Raise IntValueError
  end.

(** [_minutes_to_time]: floor division and non-negative remainder, as
    Python's [//] and [%] by a positive divisor. *)
Definition _minutes_to_time (minutes : Z) : string :=
  let hours := minutes / 60 in
  let mins := minutes mod 60 in
  fmt02 hours ++ ":" ++ fmt02 mins.

(* ===================================================================== *)
(** ** Calendar dates: [datetime.date] (imported as [dt_date]), [strptime], [strftime] *)
(* ===================================================================== *)

Record dt_date : Type := mkdate { year : Z; month : Z; day : Z }.

Definition is_leap (y : Z) : bool :=
  (y mod 4 =? 0) && (negb (y mod 100 =? 0) || (y mod 400 =? 0)).

Definition days_in_month (y m : Z) : Z :=
  if m =? 2 then (if is_leap y then 29 else 28)
  else if (m =? 4) || (m =? 6) || (m =? 9) || (m =? 11) then 30
  else 31.

(** The range check of the [date] constructor (MINYEAR = 1, MAXYEAR = 9999). *)
Definition date_valid (d : dt_date) : bool :=
  (1 <=? year d) && (year d <=? 9999) &&
  (1 <=? month d) && (month d <=? 12) &&
  (1 <=? day d) && (day d <=? days_in_month (year d) (month d)).

(** [a < b] on dates. *)
Definition date_lt (a b : dt_date) : bool :=
  (year a <? year b) ||
  ((year a =? year b) &&
   ((month a <? month b) || ((month a =? month b) && (day a <? day b)))).

Definition days_before_year (y : Z) : Z :=
  let p := y - 1 in p * 365 + p / 4 - p / 100 + p / 400.

Fixpoint days_before_month_aux (y : Z) (n : nat) : Z :=
  match n with
  | O => 0
  | S k => days_before_month_aux y k + days_in_month y (Z.of_nat (S k))
  end.

Definition days_before_month (y m : Z) : Z :=
  days_before_month_aux y (Z.to_nat (m - 1)).

(** [date.toordinal()]: 0001-01-01 is day 1. *)
Definition toordinal (d : dt_date) : Z :=
  days_before_year (year d) + days_before_month (year d) (month d) + day d.

(** [date.weekday()]: Monday is 0. *)
Definition weekday (d : dt_date) : Z := (toordinal d + 6) mod 7.

Definition day_names : list string :=
  ["monday"; "tuesday"; "wednesday"; "thursday"; "friday"; "saturday"; "sunday"].

(** [strftime("%A").lower()] in the C locale. *)
Definition strftime_A_lower (d : dt_date) : string :=
  nth (Z.to_nat (weekday d)) day_names EmptyString.

(** The month field of [strptime]: the group [1[0-2]|0[1-9]|[1-9]] followed
    by the literal dash. *)
Definition parse_month (s : string) : option (Z * string) :=
  match s with
  | String m1 (String "-"%char r) =>
      if is_digit m1 && negb (Ascii.eqb m1 "0") then Some (digit_val m1, r) else None
  | String m1 (String m2 (String "-"%char r)) =>
      if (Ascii.eqb m1 "1" && is_digit m2 && (digit_val m2 <=? 2)) ||
         (Ascii.eqb m1 "0" && is_digit m2 && negb (Ascii.eqb m2 "0"))
      then Some (10 * digit_val m1 + digit_val m2, r) else None
  | _ => None
  end.

(** The day field: the group [3[0-1]|[1-2]\d|0[1-9]|[1-9]| [1-9]], which
    has to reach the end of the string. *)
Definition parse_day (s : string) : option Z :=
  match s with
  | String d1 EmptyString =>
      if is_digit d1 && negb (Ascii.eqb d1 "0") then Some (digit_val d1) else None
  | String d1 (String d2 EmptyString) =>
      if (Ascii.eqb d1 "3" && is_digit d2 && (digit_val d2 <=? 1)) ||
         ((Ascii.eqb d1 "1" || Ascii.eqb d1 "2") && is_digit d2) ||
         (Ascii.eqb d1 "0" && is_digit d2 && negb (Ascii.eqb d2 "0"))
      then Some (10 * digit_val d1 + digit_val d2)
      else if Ascii.eqb d1 " " && is_digit d2 && negb (Ascii.eqb d2 "0")
      then Some (digit_val d2)
      else None
  | _ => None
  end.

(** [datetime.strptime(s, "%Y-%m-%d").date()]; [None] is its ValueError
    (no match, unconverted data, or a day outside the month). *)
Definition strptime_ymd (s : string) : option dt_date :=
  match s with
  | String y1 (String y2 (String y3 (String y4 (String "-"%char r)))) =>
      if is_digit y1 && is_digit y2 && is_digit y3 && is_digit y4 then
        match parse_month r with
        | Some (m, r') =>
            match parse_day r' with
            | Some d =>
                let dt := mkdate (1000 * digit_val y1 + 100 * digit_val y2 +
                                  10 * digit_val y3 + digit_val y4) m d in
                if date_valid dt then Some dt else None
            | None => None
            end
        | None => None
        end
      else None
  | _ => None
  end.

(** Left padding with zeros, for the non-negative fields of [strftime]. *)
Fixpoint zeros (n : nat) : string :=
  match n with
  | O => EmptyString
  | S k => String "0"%char (zeros k)
  end.

Definition zero_pad (w : nat) (s : string) : string :=
  zeros (w - String.length s) ++ s.

(** [strftime("%Y%m%d")]. *)
Definition strftime_Ymd (d : dt_date) : string :=
  zero_pad 4 (py_str (year d)) ++ zero_pad 2 (py_str (month d)) ++
  zero_pad 2 (py_str (day d)).

(** [str.capitalize()] on a lower-case ASCII word. *)
Definition capitalize (s : string) : string :=
  match s with
  | EmptyString => EmptyString
  | String c r =>
      let n := nat_of_ascii c in
      String (if ((97 <=? n) && (n <=? 122))%nat then ascii_of_nat (n - 32) else c) r
  end.

(** [datetime.now()]: the calendar date and the time of day. *)
Record datetime : Type := mkdatetime {
  date_part : dt_date;
  dt_hour : Z;
  dt_minute : Z;
  dt_second : Z;
  dt_microsecond : Z
}.

(** Minutes elapsed since midnight on the wall clock. *)
Definition dt_minutes (n : datetime) : Z := dt_hour n * 60 + dt_minute n.

(* ===================================================================== *)
(** ** Data model: schemas.py and the two JSON documents *)
(* ===================================================================== *)

(** One working session of data/doctor_schedule.json (keys "start", "end"). *)
Module Session.
Record t : Type := mk { start : string; end_ : string }.
End Session.

(** One entry of schedule["appointment_types"]. *)
Module TypeInfo.
Record t : Type := mk { name : string; duration_minutes : Z }.
End TypeInfo.

(** data/doctor_schedule.json.  The file is configuration, not code: it is
    an argument of the model.  [working_hours] maps a lower-case day name
    to its "sessions" list, [blocked_dates] lists the "date" of each block. *)
Module Schedule.
Record t : Type := mk {
  working_hours : gmap string (list Session.t);
  holidays : list string;
  blocked_dates : list string;
  appointment_types : gmap string TypeInfo.t;
  buffer_minutes : Z
}.
End Schedule.

Inductive AppointmentType : Type :=
  | CONSULTATION | FOLLOWUP | PHYSICAL | SPECIALIST.

(** [AppointmentType.value]. *)
Definition AppointmentType_value (a : AppointmentType) : string :=
  match a with
  | CONSULTATION => "consultation"
  | FOLLOWUP => "followup"
  | PHYSICAL => "physical"
  | SPECIALIST => "specialist"
  end.

Module PatientInfo.
Record t : Type := mk { name : string; email : string; phone : string }.
End PatientInfo.

Module TimeSlot.
Record t : Type := mk {
  start_time : string;
  end_time : string;
  available : bool;
  appointment_id : option string
}.

(** The constructor call [TimeSlot(...)]: both times have to match
    [^\d{2}:\d{2}$]. *)
Definition new (start_time end_time : string) (available : bool)
    (appointment_id : option string) : result t :=
  if matches_hhmm start_time && matches_hhmm end_time
  then Ok (mk start_time end_time available appointment_id)
  else Raise ValidationError.
End TimeSlot.

Module AvailabilityResponse.
Record t : Type := mk {
  date : string;
  day_of_week : string;
  available_slots : list TimeSlot.t;
  total_slots : nat;
  available_count : nat
}.
End AvailabilityResponse.

Module BookingRequest.
Record t : Type := mk {
  appointment_type : AppointmentType;
  date : string;
  start_time : string;
  patient : PatientInfo.t;
  reason : string
}.
End BookingRequest.

(** The "details" dictionary of a booking response. *)
Module BookingDetails.
Record t : Type := mk {
  date : string;
  day : string;
  time : string;
  duration : string;
  appointment_type : string;
  patient_name : string;
  patient_email : string;
  patient_phone : string;
  reason : string;
  doctor : string;
  clinic : string;
  address : string;
  clinic_phone : string
}.
End BookingDetails.

Module BookingResponse.
Record t : Type := mk {
  booking_id : string;
  status : string;
  confirmation_code : string;
  details : BookingDetails.t;
  message : string
}.
End BookingResponse.

(** One record of bookings["appointments"].  The two time stamps are kept
    as [datetime] values (the file stores their [isoformat()]);
    [cancelled_at] is absent until the record is cancelled. *)
Module Appointment.
Record t : Type := mk {
  booking_id : string;
  confirmation_code : string;
  status : string;
  appointment_type : string;
  date : string;
  start_time : string;
  end_time : string;
  patient : PatientInfo.t;
  reason : string;
  created_at : datetime;
  cancelled_at : option datetime;
  clinic : string;
  doctor : string
}.
End Appointment.

(** The element type of [_get_booked_slots]. *)
Module BookedSlot.
Record t : Type := mk {
  start_time : string;
  end_time : string;
  appointment_id : string
}.
End BookedSlot.

(** The object [calendly_api]: the schedule, the in-memory ledger
    [bookings["appointments"]] and the contents of data/bookings.json. *)
Module Calendly.
Record t : Type := mk {
  schedule : Schedule.t;
  bookings : list Appointment.t;
  bookings_file : list Appointment.t
}.
End Calendly.

(* ===================================================================== *)
(** ** calendly_integration.py : class CalendlyIntegration *)
(* ===================================================================== *)

(** [_save_bookings]: the file receives the in-memory ledger. *)
Definition _save_bookings (c : Calendly.t) : Calendly.t :=
  Calendly.mk (Calendly.schedule c) (Calendly.bookings c) (Calendly.bookings c).

Definition _get_day_name (date_str : string) : result string :=
  do date_obj <~ of_option StrptimeError (strptime_ymd date_str);
  Ok (strftime_A_lower date_obj).

Definition _is_working_day (sch : Schedule.t) (date_str : string) : result bool :=
  do day_name <~ _get_day_name date_str;
  if existsb (String.eqb date_str) (Schedule.holidays sch) then Ok false
  else if existsb (fun block => String.eqb block date_str) (Schedule.blocked_dates sch)
  then Ok false
  else
    let working_hours := default [] (Schedule.working_hours sch !! day_name) in
    Ok (0 <? length working_hours)%nat.

Definition _get_working_sessions (sch : Schedule.t) (date_str : string)
    : result (list Session.t) :=
  do working <~ _is_working_day sch date_str;
  if negb working then Ok []
  else
    do day_name <~ _get_day_name date_str;
    of_option KeyError (Schedule.working_hours sch !! day_name).

Definition _get_appointment_duration (sch : Schedule.t) (appointment_type : string)
    : result Z :=
  do info <~ of_option KeyError (Schedule.appointment_types sch !! appointment_type);
  Ok (TypeInfo.duration_minutes info).

Fixpoint _get_booked_slots (appointments : list Appointment.t) (date_str : string)
    : list BookedSlot.t :=
  match appointments with
  | [] => []
  | appt :: rest =>
      if String.eqb (Appointment.date appt) date_str &&
         String.eqb (Appointment.status appt) "confirmed"
      then BookedSlot.mk (Appointment.start_time appt) (Appointment.end_time appt)
                         (Appointment.booking_id appt)
           :: _get_booked_slots rest date_str
      else _get_booked_slots rest date_str
  end.

(** The loop of [_is_slot_available] over the booked slots. *)
Fixpoint no_overlap (start_mins end_mins : Z) (booked_slots : list BookedSlot.t)
    : result bool :=
  match booked_slots with
  | [] => Ok true
  | slot :: rest =>
      do slot_start <~ _time_to_minutes (BookedSlot.start_time slot);
      do slot_end <~ _time_to_minutes (BookedSlot.end_time slot);
      if negb ((end_mins <=? slot_start) || (start_mins >=? slot_end))
      then Ok false
      else no_overlap start_mins end_mins rest
  end.

Definition _is_slot_available (appointments : list Appointment.t)
    (date_str start_time end_time : string) : result bool :=
  do start_mins <~ _time_to_minutes start_time;
  do end_mins <~ _time_to_minutes end_time;
  no_overlap start_mins end_mins (_get_booked_slots appointments date_str).

(** [try: body except ValueError: handler]. *)
Definition is_ValueError (e : PyError) : bool :=
  match e with
  | KeyError => false
  | _ => true
  end.

Definition except_ValueError {A : Type} (body handler : result A) : result A :=
  match body with
  | Raise e => if is_ValueError e then handler else Raise e
  | r => r
  end.

(** The [while current + duration <= session_end] loop of one session;
    [fuel] bounds the number of iterations. *)
Fixpoint session_slots (fuel : nat) (appointments : list Appointment.t)
    (date_str : string) (duration slot_duration session_end current : Z)
    : result (list TimeSlot.t) :=
  if current + duration <=? session_end then
    match fuel with
    | O => Timeout
    | S fuel' =>
        let start_time := _minutes_to_time current in
        let end_time := _minutes_to_time (current + duration) in
        do is_available <~ _is_slot_available appointments date_str start_time end_time;
        do slot <~ TimeSlot.new start_time end_time is_available None;
        do more <~ session_slots fuel' appointments date_str duration slot_duration
                     session_end (current + slot_duration);
        Ok (slot :: more)
    end
  else Ok [].

(** The [for session in sessions] loop. *)
Fixpoint all_session_slots (fuel : nat) (appointments : list Appointment.t)
    (date_str : string) (duration slot_duration : Z) (sessions : list Session.t)
    : result (list TimeSlot.t) :=
  match sessions with
  | [] => Ok []
  | session :: rest =>
      do session_start <~ _time_to_minutes (Session.start session);
      do session_end <~ _time_to_minutes (Session.end_ session);
      do here <~ session_slots fuel appointments date_str duration slot_duration
                   session_end session_start;
      do more <~ all_session_slots fuel appointments date_str duration slot_duration rest;
      Ok (here ++ more)%list
  end.

Definition empty_response (date_str day_name : string) : AvailabilityResponse.t :=
  AvailabilityResponse.mk date_str (capitalize day_name) [] 0 0.

(** [sum(1 for slot in all_slots if slot.available)]. *)
Definition count_available (all_slots : list TimeSlot.t) : nat :=
  length (List.filter TimeSlot.available all_slots).

(** [get_availability]; [now] is the wall clock read by [dt_date.today()]. *)
Definition get_availability (fuel : nat) (c : Calendly.t) (now : datetime)
    (date_str appointment_type : string) : result AvailabilityResponse.t :=
  let sch := Calendly.schedule c in
  do early <~ except_ValueError
      (do date_obj <~ of_option StrptimeError (strptime_ymd date_str);
       let today := date_part now in
       if date_lt date_obj today then
         do day_name <~ _get_day_name date_str;
         Ok (Some (empty_response date_str day_name))
       else Ok None)
      (Raise InvalidDate);
  match early with
  | Some response => Ok response
  | None =>
      do working <~ _is_working_day sch date_str;
      if negb working then
        do day_name <~ _get_day_name date_str;
        Ok (empty_response date_str day_name)
      else
        do duration <~ _get_appointment_duration sch appointment_type;
        let buffer := Schedule.buffer_minutes sch in
        let slot_duration := duration + buffer in
        do sessions <~ _get_working_sessions sch date_str;
        do all_slots <~ all_session_slots fuel (Calendly.bookings c) date_str
                          duration slot_duration sessions;
        let available_count := count_available all_slots in
        do day_name <~ _get_day_name date_str;
        Ok (AvailabilityResponse.mk date_str (capitalize day_name) all_slots
              (length all_slots) available_count)
  end.

(** [random.choices(population, k=k)] joined into a string.  [draws i] is
    what the generator yields for the i-th pick; a pick is an index into
    the population. *)
Definition choice (population : string) (r : nat) : ascii :=
  default "0"%char (String.get (r mod String.length population)%nat population).

Definition random_choices (draws : nat -> nat) (population : string) (k : nat)
    : string :=
  string_of_list_ascii (map (fun i => choice population (draws i)) (seq 0 k)).

Definition digits : string := "0123456789".
Definition ascii_uppercase : string := "ABCDEFGHIJKLMNOPQRSTUVWXYZ".

Definition _generate_booking_id (now : datetime) (draws : nat -> nat) : string :=
  let date_part_ := strftime_Ymd (date_part now) in
  let random_part := random_choices draws digits 4 in
  "APPT-" ++ date_part_ ++ "-" ++ random_part.

Definition _generate_confirmation_code (draws : nat -> nat) : string :=
  random_choices draws (ascii_uppercase ++ digits) 6.

(** The [for session in sessions] loop of [book_appointment]: is the
    interval inside one session? *)
Fixpoint in_some_session (start_mins : Z) (end_time : string)
    (sessions : list Session.t) : result bool :=
  match sessions with
  | [] => Ok false
  | session :: rest =>
      do session_start <~ _time_to_minutes (Session.start session);
      do session_end <~ _time_to_minutes (Session.end_ session);
      do end_mins <~ _time_to_minutes end_time;
      if (session_start <=? start_mins) && (end_mins <=? session_end)
      then Ok true
      else in_some_session start_mins end_time rest
  end.

(** [book_appointment].  [draws] feeds the two calls of [random.choices]:
    picks 0..3 make the booking id, picks 4..9 the confirmation code. *)
Definition book_appointment (c : Calendly.t) (now : datetime) (draws : nat -> nat)
    (booking_request : BookingRequest.t) : result (BookingResponse.t * Calendly.t) :=
  let sch := Calendly.schedule c in
  let date_str := BookingRequest.date booking_request in
  let start_time := BookingRequest.start_time booking_request in
  let appointment_type :=
    AppointmentType_value (BookingRequest.appointment_type booking_request) in
  do date_obj <~ of_option StrptimeError (strptime_ymd date_str);
  if date_lt date_obj (date_part now) then Raise PastDateError
  else
    do working <~ _is_working_day sch date_str;
    if negb working then Raise ClosedDayError
    else
      do duration <~ _get_appointment_duration sch appointment_type;
      do start_mins <~ _time_to_minutes start_time;
      let end_time := _minutes_to_time (start_mins + duration) in
      do free <~ _is_slot_available (Calendly.bookings c) date_str start_time end_time;
      if negb free then Raise SlotUnavailableError
      else
        do sessions <~ _get_working_sessions sch date_str;
        do in_session <~ in_some_session start_mins end_time sessions;
        if negb in_session then Raise OutsideHoursError
        else
          let booking_id := _generate_booking_id now draws in
          let confirmation_code :=
            _generate_confirmation_code (fun i => draws (4 + i)%nat) in
          let patient := BookingRequest.patient booking_request in
          let appointment :=
            Appointment.mk booking_id confirmation_code "confirmed" appointment_type
              date_str start_time end_time patient
              (BookingRequest.reason booking_request) now None
              "HealthCare Plus Clinic" "Dr. Rajendra Kumar Gupta" in
          let c' := _save_bookings
                      (Calendly.mk sch (Calendly.bookings c ++ [appointment])%list
                         (Calendly.bookings_file c)) in
          do type_info <~ of_option KeyError
                            (Schedule.appointment_types sch !! appointment_type);
          do day_name <~ _get_day_name date_str;
          Ok (BookingResponse.mk booking_id "confirmed" confirmation_code
                (BookingDetails.mk date_str (capitalize day_name) start_time
                   (py_str (TypeInfo.duration_minutes type_info) ++ " minutes")
                   (TypeInfo.name type_info)
                   (PatientInfo.name patient) (PatientInfo.email patient)
                   (PatientInfo.phone patient)
                   (BookingRequest.reason booking_request)
                   "Dr. Rajendra Kumar Gupta" "HealthCare Plus Clinic"
                   "302 Old Palasia, Indore, MP 452001" "+91-731-555-0100")
                ("Your appointment has been confirmed for " ++ date_str ++ " at " ++
                 start_time ++ ". Confirmation code: " ++ confirmation_code),
              c').

(** [get_booking_by_id]: the first record with that id. *)
Fixpoint find_booking (appointments : list Appointment.t) (booking_id : string)
    : option Appointment.t :=
  match appointments with
  | [] => None
  | appt :: rest =>
      if String.eqb (Appointment.booking_id appt) booking_id then Some appt
      else find_booking rest booking_id
  end.

Definition get_booking_by_id (c : Calendly.t) (booking_id : string)
    : option Appointment.t :=
  find_booking (Calendly.bookings c) booking_id.

(** The two assignments of [cancel_booking] on the record found. *)
Definition mark_cancelled (now : datetime) (appt : Appointment.t) : Appointment.t :=
  Appointment.mk (Appointment.booking_id appt) (Appointment.confirmation_code appt)
    "cancelled" (Appointment.appointment_type appt) (Appointment.date appt)
    (Appointment.start_time appt) (Appointment.end_time appt)
    (Appointment.patient appt) (Appointment.reason appt)
    (Appointment.created_at appt) (Some now)
    (Appointment.clinic appt) (Appointment.doctor appt).

(** The loop of [cancel_booking]: the ledger with the first record of that
    id cancelled in place, or [None] when the loop falls through. *)
Fixpoint cancel_first (now : datetime) (booking_id : string)
    (appointments : list Appointment.t) : option (list Appointment.t) :=
  match appointments with
  | [] => None
  | appt :: rest =>
      if String.eqb (Appointment.booking_id appt) booking_id
      then Some (mark_cancelled now appt :: rest)
      else option_map (cons appt) (cancel_first now booking_id rest)
  end.

Definition cancel_booking (c : Calendly.t) (now : datetime) (booking_id : string)
    : bool * Calendly.t :=
  match cancel_first now booking_id (Calendly.bookings c) with
  | Some appointments =>
      (true, _save_bookings
               (Calendly.mk (Calendly.schedule c) appointments (Calendly.bookings_file c)))
  | None => (false, c)
  end.

(* ===================================================================== *)
(** ** schemas.py : field validation *)
(* ===================================================================== *)

Fixpoint all_chars (p : ascii -> bool) (s : string) : bool :=
  match s with
  | EmptyString => true
  | String c r => p c && all_chars p r
  end.

Fixpoint count_chars (p : ascii -> bool) (s : string) : nat :=
  match s with
  | EmptyString => O
  | String c r => ((if p c then 1 else 0) + count_chars p r)%nat
  end.

(** The character class [[\d\s\-()]]. *)
Definition phone_char (c : ascii) : bool :=
  is_digit c || is_space c || Ascii.eqb c "-" || Ascii.eqb c "(" || Ascii.eqb c ")".

Definition nonempty (s : string) : bool :=
  match s with
  | EmptyString => false
  | _ => true
  end.

(** The field pattern [^\+?[\d\s\-()]+$]. *)
Definition phone_pattern (v : string) : bool :=
  match v with
  | String "+"%char r => nonempty r && all_chars phone_char r
  | _ => nonempty v && all_chars phone_char v
  end.

(** [PatientInfo.validate_phone]:
    [cleaned = ''.join(c for c in v if c.isdigit() or c == '+')],
    rejected when [len(cleaned) < 10]. *)
Definition validate_phone (v : string) : result string :=
  let cleaned := count_chars (fun c => is_digit c || Ascii.eqb c "+") v in
  if (cleaned <? 10)%nat then Raise ValidationError else Ok v.

(** The pattern [^\d{4}-\d{2}-\d{2}$] of BookingRequest.date. *)
Definition matches_ymd (s : string) : bool :=
  match s with
  | String y1 (String y2 (String y3 (String y4 (String "-"%char
      (String m1 (String m2 (String "-"%char (String d1 (String d2 EmptyString))))))))) =>
      is_digit y1 && is_digit y2 && is_digit y3 && is_digit y4 &&
      is_digit m1 && is_digit m2 && is_digit d1 && is_digit d2
  | _ => false
  end.

Section Schemas.

(** [EmailStr] is checked by the email-validator package. *)
Variable email_ok : string -> bool.

(** The constructor call [PatientInfo(name=..., email=..., phone=...)]:
    the field constraints, then the [phone] validator. *)
Definition PatientInfo_new (name email phone : string) : result PatientInfo.t :=
  let name_ok := (2 <=? String.length name)%nat && (String.length name <=? 100)%nat in
  let phone_ok :=
    phone_pattern phone &&
    match validate_phone phone with Ok _ => true | _ => false end in
  if name_ok && email_ok email && phone_ok
  then Ok (PatientInfo.mk name email phone)
  else Raise ValidationError.

(** The constructor call [BookingRequest(...)] on an already built patient. *)
Definition BookingRequest_new (appointment_type : AppointmentType)
    (date start_time : string) (patient : PatientInfo.t) (reason : string)
    : result BookingRequest.t :=
  if matches_ymd date && matches_hhmm start_time &&
     (5 <=? String.length reason)%nat && (String.length reason <=? 500)%nat
  then Ok (BookingRequest.mk appointment_type date start_time patient reason)
  else Raise ValidationError.

End Schemas.

(** Whether the [phone] field is accepted (pattern and validator). *)
Definition phone_accepted (v : string) : bool :=
  phone_pattern v && match validate_phone v with Ok _ => true | _ => false end.

(* ===================================================================== *)
(** ** scheduling_agent.py : class SchedulingAgent *)
(* ===================================================================== *)

(** An entry of a session history: the dictionary with keys "role" and
    "content".  The content is [None] when the model returned no text. *)
Module Message.
Record t : Type := mk { role : string; content : option string }.
End Message.

(** One element of [assistant_message.tool_calls]. *)
Module ToolCall.
Record t : Type := mk { id : string; name : string; arguments : string }.
End ToolCall.

(** [response.choices[0].message] of the first model call. *)
Module AssistantMessage.
Record t : Type := mk { content : option string; tool_calls : list ToolCall.t }.
End AssistantMessage.

(** The three shapes of a message sent to the model. *)
Inductive ApiMessage : Type :=
  | Plain (m : Message.t)
  | WithToolCalls (content : option string) (tool_calls : list ToolCall.t)
  | ToolResult (tool_call_id name content : string).

(** What a call into a collaborator does: return, or raise an exception
    (of which only [str(e)] is kept). *)
Inductive outcome (A : Type) : Type :=
  | Returned (a : A)
  | Raised (msg : string).
Arguments Returned {A} a.
Arguments Raised {A} msg.

(** The dictionary returned by [chat]; the keys "tool_calls" and "error"
    are each present on one path only. *)
Module ChatReply.
Record t : Type := mk {
  response : option string;
  session_id : string;
  tool_calls : option (list string);
  error : option string
}.
End ChatReply.

Definition APOLOGY : string :=
  "I apologize, but I'm having trouble processing your request right now. Please try again or call us at +91-731-555-0100 for immediate assistance.".

Definition CLINIC_PHONE : string := "+91-731-555-0100".

(** [l[-n:]] for a positive [n]. *)
Definition last_n {A : Type} (n : nat) (l : list A) : list A :=
  drop (length l - n) l.

(** [_get_session_history]: a missing session is created empty. *)
Definition _get_session_history (sessions : gmap string (list Message.t))
    (session_id : string) : list Message.t * gmap string (list Message.t) :=
  match sessions !! session_id with
  | Some history => (history, sessions)
  | None => ([], <[session_id := []]> sessions)
  end.

(** [_add_to_session]: create if missing, append, keep the last 20. *)
Definition _add_to_session (sessions : gmap string (list Message.t))
    (session_id role : string) (content : option string)
    : gmap string (list Message.t) :=
  let sessions1 :=
    match sessions !! session_id with
    | Some _ => sessions
    | None => <[session_id := []]> sessions
    end in
  let history := (default [] (sessions1 !! session_id) ++ [Message.mk role content])%list in
  let sessions2 := <[session_id := history]> sessions1 in
  if (20 <? length history)%nat
  then <[session_id := last_n 20 history]> sessions2
  else sessions2.

(** The history a later turn of [session_id] will read. *)
Definition history_of (sessions : gmap string (list Message.t))
    (session_id : string) : list Message.t :=
  default [] (sessions !! session_id).

(** [x or ''] on an optional string. *)
Definition or_empty (content : option string) : string :=
  match content with
  | Some s => s
  | None => EmptyString
  end.

Section Agent.

(** The collaborators of a chat turn.  [create_with_tools] is the first
    call of [client.chat.completions.create] up to
    [response.choices[0].message]; [create_final] is the second call up
    to [message.content]; [run_tool] is [json.loads] of the arguments,
    [_execute_tool] and [json.dumps] of its result. *)
Variable SYSTEM_PROMPT : string.
Variable create_with_tools : list ApiMessage -> outcome AssistantMessage.t.
Variable create_final : list ApiMessage -> outcome (option string).
Variable run_tool : ToolCall.t -> outcome string.

(** The [for tool_call in assistant_message.tool_calls] loop. *)
Fixpoint run_tools (calls : list ToolCall.t) : outcome (list ApiMessage) :=
  match calls with
  | [] => Returned []
  | tool_call :: rest =>
      match run_tool tool_call with
      | Raised e => Raised e
      | Returned content =>
          match run_tools rest with
          | Raised e => Raised e
          | Returned tool_results =>
              Returned (ToolResult (ToolCall.id tool_call) (ToolCall.name tool_call)
                          content :: tool_results)
          end
      end
  end.

(** The body of the [try] block of [chat], with the session map as it
    stands when the block returns or raises. *)
Definition chat_body (sessions : gmap string (list Message.t))
    (message session_id : string)
    : outcome ChatReply.t * gmap string (list Message.t) :=
  let '(history, sessions) := _get_session_history sessions session_id in
  let messages :=
    (Plain (Message.mk "system" (Some SYSTEM_PROMPT)) :: map Plain history
     ++ [Plain (Message.mk "user" (Some message))])%list in
  match create_with_tools messages with
  | Raised e => (Raised e, sessions)
  | Returned assistant_message =>
      let calls := AssistantMessage.tool_calls assistant_message in
      match calls with
      | _ :: _ =>
          let sessions :=
            _add_to_session sessions session_id "assistant"
              (Some (or_empty (AssistantMessage.content assistant_message))) in
          match run_tools calls with
          | Raised e => (Raised e, sessions)
          | Returned tool_results =>
              let messages :=
                (messages
                 ++ [WithToolCalls (AssistantMessage.content assistant_message) calls]
                 ++ tool_results)%list in
              match create_final messages with
              | Raised e => (Raised e, sessions)
              | Returned final_message =>
                  let sessions :=
                    _add_to_session sessions session_id "user" (Some message) in
                  let sessions :=
                    _add_to_session sessions session_id "assistant" final_message in
                  (Returned (ChatReply.mk final_message session_id
                               (Some (map ToolCall.name calls)) None),
                   sessions)
              end
          end
      | [] =>
          let response_text := AssistantMessage.content assistant_message in
          let sessions := _add_to_session sessions session_id "user" (Some message) in
          let sessions :=
            _add_to_session sessions session_id "assistant" response_text in
          (Returned (ChatReply.mk response_text session_id (Some []) None), sessions)
      end
  end.

(** [chat]: the body under [except Exception]. *)
Definition chat (sessions : gmap string (list Message.t))
    (message session_id : string)
    : ChatReply.t * gmap string (list Message.t) :=
  match chat_body sessions message session_id with
  | (Returned reply, sessions') => (reply, sessions')
  | (Raised e, sessions') =>
      (ChatReply.mk (Some APOLOGY) session_id None (Some e), sessions')
  end.

End Agent.

(* ===================================================================== *)
(** ** calendly_integration.py : loading the ledger *)
(* ===================================================================== *)

(** [_load_bookings], given what data/bookings.json holds when it exists
    (the JSON document is taken as the list of records it encodes).  With
    no file the ledger starts empty and is written out at once. *)
Definition _load_bookings (sch : Schedule.t) (file : option (list Appointment.t))
    : Calendly.t :=
  match file with
  | Some appointments => Calendly.mk sch appointments appointments
  | None => _save_bookings (Calendly.mk sch [] [])
  end.

(* ===================================================================== *)
(** ** tools/availability_tool.py *)
(* ===================================================================== *)

(** The hour field of [strptime(s, "%H:%M")]: the group
    [2[0-3]|[0-1]\d|\d] followed by the literal colon. *)
Definition parse_hour (s : string) : option (Z * string) :=
  match s with
  | String h1 (String ":"%char r) =>
      if is_digit h1 then Some (digit_val h1, r) else None
  | String h1 (String h2 (String ":"%char r)) =>
      if (Ascii.eqb h1 "2" && is_digit h2 && (digit_val h2 <=? 3)) ||
         ((Ascii.eqb h1 "0" || Ascii.eqb h1 "1") && is_digit h2)
      then Some (10 * digit_val h1 + digit_val h2, r) else None
  | _ => None
  end.

(** The minute field: the group [[0-5]\d|\d], which has to reach the end
    of the string. *)
Definition parse_minute (s : string) : option Z :=
  match s with
  | String m1 EmptyString => if is_digit m1 then Some (digit_val m1) else None
  | String m1 (String m2 EmptyString) =>
      if is_digit m1 && (digit_val m1 <=? 5) && is_digit m2
      then Some (10 * digit_val m1 + digit_val m2) else None
  | _ => None
  end.

(** [datetime.strptime(s, "%H:%M")]: the hour and the minute, or [None]
    for its ValueError. *)
Definition strptime_HM (s : string) : option (Z * Z) :=
  match parse_hour s with
  | Some (h, r) =>
      match parse_minute r with
      | Some m => Some (h, m)
      | None => None
      end
  | None => None
  end.

(** [strftime("%I:%M %p")] in the C locale. *)
Definition strftime_I_M_p (h m : Z) : string :=
  fmt02 (if h mod 12 =? 0 then 12 else h mod 12) ++ ":" ++ fmt02 m ++ " " ++
  (if h <? 12 then "AM" else "PM").

(** [s.lstrip('0')]. *)
Fixpoint lstrip_zeros (s : string) : string :=
  match s with
  | String c r => if Ascii.eqb c "0" then lstrip_zeros r else s
  | EmptyString => EmptyString
  end.

(** [_format_time_12hr]: the bare [except] hands the input back. *)
Definition _format_time_12hr (time_24hr : string) : string :=
  match strptime_HM time_24hr with
  | Some (h, m) => lstrip_zeros (strftime_I_M_p h m)
  | None => time_24hr
  end.

(** One entry of "available_slots" in the tool's answer. *)
Module SlotView.
Record t : Type := mk {
  start_time : string;
  end_time : string;
  display_time : string
}.
End SlotView.

(** The dictionary [check_availability] returns: the listing, or the error
    form (whose "available_slots" is empty and "available_count" is 0).
    [unexpected] tells the two [except] branches apart: it is set when the
    text is prefixed with "Failed to check availability". *)
Module AvailabilityAnswer.
Inductive t : Type :=
  | Found (date day_of_week : string) (total_slots available_count : nat)
          (available_slots : list SlotView.t) (message : string)
  | Failed (unexpected : bool) (error : PyError) (date : string).
End AvailabilityAnswer.

Module availability_tool.

Definition check_availability (fuel : nat) (c : Calendly.t) (now : datetime)
    (date appointment_type : string) : result AvailabilityAnswer.t :=
  match get_availability fuel c now date appointment_type with
  | Ok availability =>
      let available_slots :=
        List.filter TimeSlot.available
          (AvailabilityResponse.available_slots availability) in
      let n := length available_slots in
      let day := AvailabilityResponse.day_of_week availability in
      Ok (AvailabilityAnswer.Found
            (AvailabilityResponse.date availability) day
            (AvailabilityResponse.total_slots availability) n
            (map (fun slot =>
                    SlotView.mk (TimeSlot.start_time slot) (TimeSlot.end_time slot)
                      (_format_time_12hr (TimeSlot.start_time slot)))
                 available_slots)
            (if (n =? 0)%nat
             then "No available slots on " ++ day ++ ", " ++ date
             else "Found " ++ py_str (Z.of_nat n) ++ " available slots on " ++
                  day ++ ", " ++ date))
  | Raise e => Ok (AvailabilityAnswer.Failed (negb (is_ValueError e)) e date)
  | Timeout => Timeout
  end.

End availability_tool.

(* ===================================================================== *)
(** ** tools/booking_tool.py *)
(* ===================================================================== *)

(** The call [AppointmentType(value)]; [None] is its ValueError. *)
Definition AppointmentType_of_value (value : string) : option AppointmentType :=
  if String.eqb value "consultation" then Some CONSULTATION
  else if String.eqb value "followup" then Some FOLLOWUP
  else if String.eqb value "physical" then Some PHYSICAL
  else if String.eqb value "specialist" then Some SPECIALIST
  else None.

(** What the tool caught: the ValueError of the enumeration, or an
    exception of the modelled code. *)
Inductive BookingToolError : Type :=
  | NotAnAppointmentType
  | Raised_by_booking (e : PyError).

(** The dictionary the booking tool returns.  [unexpected] is set in the
    second [except] branch, whose message is the apology. *)
Module BookingAnswer.
Inductive t : Type :=
  | Success (booking_id confirmation_code status : string)
            (details : BookingDetails.t) (message : string)
  | Failure (unexpected : bool) (error : BookingToolError).
End BookingAnswer.

Module booking_tool.
Section Tool.

Variable email_ok : string -> bool.

(** [book_appointment] of the tool: build the patient, the request, book,
    and turn every exception into an answer. *)
Definition book_appointment (c : Calendly.t) (now : datetime) (draws : nat -> nat)
    (date start_time appointment_type patient_name patient_email patient_phone
     reason : string) : result (BookingAnswer.t * Calendly.t) :=
  let failed (e : PyError) :=
    Ok (BookingAnswer.Failure (negb (is_ValueError e)) (Raised_by_booking e), c) in
  match PatientInfo_new email_ok patient_name patient_email patient_phone with
  | Ok patient =>
      match AppointmentType_of_value appointment_type with
      | Some ty =>
          match BookingRequest_new ty date start_time patient reason with
          | Ok booking_req =>
              match book_appointment c now draws booking_req with
              | Ok (booking_response, c') =>
                  Ok (BookingAnswer.Success
                        (BookingResponse.booking_id booking_response)
                        (BookingResponse.confirmation_code booking_response)
                        (BookingResponse.status booking_response)
                        (BookingResponse.details booking_response)
                        (BookingResponse.message booking_response), c')
              | Raise e => failed e
              | Timeout => Timeout
              end
          | Raise e => failed e
          | Timeout => Timeout
          end
      | None => Ok (BookingAnswer.Failure false NotAnAppointmentType, c)
      end
  | Raise e => failed e
  | Timeout => Timeout
  end.

End Tool.
End booking_tool.

(* ===================================================================== *)
(** ** main.py and api/chat.py : the HTTP endpoints *)
(* ===================================================================== *)

(** What a route function does: return a body (sent with status 200), or
    raise [HTTPException(status_code, ...)]; the detail keeps the
    exception it was built from, when there is one.  What the handlers
    registered with [app.exception_handler] make of the exception
    afterwards is the framework's business and is not modelled. *)
Module Http.
Inductive response (A : Type) : Type :=
  | Returns (body : A)
  | HTTPException (status_code : Z) (cause : option PyError).
Arguments Returns {A} body.
Arguments HTTPException {A} status_code cause.
End Http.

(** The two [except] clauses of the calendly endpoints. *)
Definition http_error_of {A : Type} (e : PyError) : Http.response A :=
  Http.HTTPException (if is_ValueError e then 400 else 500) (Some e).

Module main.

(** GET /api/calendly/availability *)
Definition get_availability (fuel : nat) (c : Calendly.t) (now : datetime)
    (date appointment_type : string) : result (Http.response AvailabilityResponse.t) :=
  match get_availability fuel c now date appointment_type with
  | Ok availability => Ok (Http.Returns availability)
  | Raise e => Ok (http_error_of e)
  | Timeout => Timeout
  end.

(** POST /api/calendly/book, on a request body that passed validation. *)
Definition book_appointment_endpoint (c : Calendly.t) (now : datetime)
    (draws : nat -> nat) (request : BookingRequest.t)
    : result (Http.response BookingResponse.t * Calendly.t) :=
  match book_appointment c now draws request with
  | Ok (booking, c') => Ok (Http.Returns booking, c')
  | Raise e => Ok (http_error_of e, c)
  | Timeout => Timeout
  end.

(** GET /api/calendly/booking/{booking_id} *)
Definition get_booking (c : Calendly.t) (booking_id : string)
    : Http.response Appointment.t :=
  match get_booking_by_id c booking_id with
  | Some booking => Http.Returns booking
  | None => Http.HTTPException 404 None
  end.

(** DELETE /api/calendly/booking/{booking_id}; the body names the id. *)
Definition cancel_booking (c : Calendly.t) (now : datetime) (booking_id : string)
    : Http.response string * Calendly.t :=
  let '(success, c') := cancel_booking c now booking_id in
  if negb success then (Http.HTTPException 404 None, c')
  else (Http.Returns booking_id, c').

End main.

(* ===================================================================== *)
(** ** scheduling_agent.py : session bookkeeping *)
(* ===================================================================== *)

(** [reset_session]: [del self.sessions[session_id]] when the key is there. *)
Definition reset_session (sessions : gmap string (list Message.t))
    (session_id : string) : gmap string (list Message.t) :=
  match sessions !! session_id with
  | Some _ => delete session_id sessions
  | None => sessions
  end.

(** The dictionary returned by [get_session_info]. *)
Module SessionInfo.
Record t : Type := mk {
  session_id : string;
  message_count : nat;
  last_messages : list Message.t
}.
End SessionInfo.

(** [get_session_info]; reading the history registers a missing session. *)
Definition get_session_info (sessions : gmap string (list Message.t))
    (session_id : string) : SessionInfo.t * gmap string (list Message.t) :=
  let '(history, sessions) := _get_session_history sessions session_id in
  (SessionInfo.mk session_id (length history)
     (match history with
      | [] => []
      | _ => last_n 5 history
      end),
   sessions).

(* ===================================================================== *)
(** ** api/chat.py : the chat endpoint *)
(* ===================================================================== *)

(** [ChatResponse]; [context] holds the one key "tool_calls". *)
Module ChatResponse.
Record t : Type := mk {
  response : string;
  session_id : string;
  timestamp : datetime;
  context_tool_calls : list string
}.
End ChatResponse.

Section ChatEndpoint.

Variable SYSTEM_PROMPT : string.
Variable create_with_tools : list ApiMessage -> outcome AssistantMessage.t.
Variable create_final : list ApiMessage -> outcome (option string).
Variable run_tool : ToolCall.t -> outcome string.

(** POST /chat on a validated request.  [ChatResponse.response] is a
    required [str]: a turn whose text is [None] fails the constructor, and
    the [except Exception] turns that into status 500. *)
Definition chat_endpoint (sessions : gmap string (list Message.t))
    (now : datetime) (message session_id : string)
    : Http.response ChatResponse.t * gmap string (list Message.t) :=
  let '(result, sessions') :=
    chat SYSTEM_PROMPT create_with_tools create_final run_tool
      sessions message session_id in
  match ChatReply.response result with
  | Some text =>
      (Http.Returns
         (ChatResponse.mk text (ChatReply.session_id result) now
            (default [] (ChatReply.tool_calls result))),
       sessions')
  | None => (Http.HTTPException 500 (Some ValidationError), sessions')
  end.

End ChatEndpoint.

(* ===================================================================== *)
(** ** Notions used in the statements *)
(* ===================================================================== *)

(** The half-open interval of minutes an appointment occupies, when both
    of its times can be read. *)
Definition appt_interval (a : Appointment.t) : option (Z * Z) :=
  match _time_to_minutes (Appointment.start_time a),
        _time_to_minutes (Appointment.end_time a) with
  | Ok s, Ok e => Some (s, e)
  | _, _ => None
  end.


Definition is_confirmed (a : Appointment.t) : bool :=
  String.eqb (Appointment.status a) "confirmed".

Definition confirmed_on (date_str : string) (a : Appointment.t) : bool :=
  String.eqb (Appointment.date a) date_str && is_confirmed a.

(** The overlap test of the specification:
    A and B overlap iff A.start < B.end and B.start < A.end. *)
Definition overlaps (a b : Z * Z) : bool :=
  (fst a <? snd b) && (fst b <? snd a).

(** Two half-open intervals share a minute. *)
Definition intersects (a b : Z * Z) : Prop :=
  exists t : Z, (fst a <= t < snd a) /\ (fst b <= t < snd b).

(** No two distinct confirmed records of one date are in [conflict]. *)
Definition pairwise_free (conflict : Z * Z -> Z * Z -> Prop)
    (ledger : list Appointment.t) : Prop :=
  forall (i j : nat) (a b : Appointment.t) (ia ib : Z * Z),
    i <> j ->
    ledger !! i = Some a -> ledger !! j = Some b ->
    is_confirmed a = true -> is_confirmed b = true ->
    Appointment.date a = Appointment.date b ->
    appt_interval a = Some ia -> appt_interval b = Some ib ->
    ~ conflict ia ib.


(** ... and with the overlap test. *)
Definition overlap_free (ledger : list Appointment.t) : Prop :=
  pairwise_free (fun a b => overlaps a b = true) ledger.


(** The times of every confirmed appointment of [date_str] can be read. *)
Definition times_parse (ledger : list Appointment.t) (date_str : string) : Prop :=
  Forall (fun a => confirmed_on date_str a = true -> is_Some (appt_interval a)) ledger.


(** The operations on the ledger, and a run of them.  An operation that
    fails leaves the ledger as it is. *)
Inductive Op : Type :=
  | Book (now : datetime) (draws : nat -> nat) (request : BookingRequest.t)
  | Cancel (now : datetime) (booking_id : string).

Definition apply_op (c : Calendly.t) (op : Op) : Calendly.t :=
  match op with
  | Book now draws request =>
      match book_appointment c now draws request with
      | Ok (_, c') => c'
      | _ => c
      end
  | Cancel now booking_id => snd (cancel_booking c now booking_id)
  end.

Definition run (ops : list Op) (c : Calendly.t) : Calendly.t :=
  fold_left apply_op ops c.

(** *** Slot generation as the specification words it *)








(** *** The validation order of a booking as the specification words it *)


(** *** Phone numbers as the specification words them *)

Definition is_separator (c : ascii) : bool :=
  is_space c || Ascii.eqb c "-" || Ascii.eqb c "(" || Ascii.eqb c ")".

(** What is left of [v] once the separators are stripped. *)
Fixpoint strip_separators (v : string) : string :=
  match v with
  | EmptyString => EmptyString
  | String c r => if is_separator c then strip_separators r
                  else String c (strip_separators r)
  end.

(** The stripped number is an optional leading plus sign and at least ten
    digits, and nothing else. *)
Definition spec_phone_ok (v : string) : bool :=
  let body := match v with String "+"%char r => r | _ => v end in
  let stripped := strip_separators body in
  nonempty body && all_chars is_digit stripped && (10 <=? String.length stripped)%nat.

(** *** The record a successful booking stores *)

Definition booked_record (now : datetime) (draws : nat -> nat)
    (request : BookingRequest.t) (end_time : string) : Appointment.t :=
  Appointment.mk (_generate_booking_id now draws)
    (_generate_confirmation_code (fun i => draws (4 + i)%nat)) "confirmed"
    (AppointmentType_value (BookingRequest.appointment_type request))
    (BookingRequest.date request) (BookingRequest.start_time request) end_time
    (BookingRequest.patient request) (BookingRequest.reason request) now None
    "HealthCare Plus Clinic" "Dr. Rajendra Kumar Gupta".

(** *** Example data

    A schedule in the shape of data/doctor_schedule.json: two sessions on
    Monday to Saturday, none on Sunday, the four appointment types with
    the durations 30, 15, 45 and 60 and a buffer of 10 minutes. *)

Definition day_sessions : list Session.t :=
  [Session.mk "09:00" "13:00"; Session.mk "14:00" "18:00"].

Definition sample_schedule : Schedule.t :=
  Schedule.mk
    (list_to_map [("monday", day_sessions); ("tuesday", day_sessions);
                  ("wednesday", day_sessions); ("thursday", day_sessions);
                  ("friday", day_sessions); ("saturday", day_sessions);
                  ("sunday", [])])
    ["2025-01-26"; "2025-01-14"]
    ["2025-01-15"]
    (list_to_map [("consultation", TypeInfo.mk "General Consultation" 30);
                  ("followup", TypeInfo.mk "Follow-up" 15);
                  ("physical", TypeInfo.mk "Physical Exam" 45);
                  ("specialist", TypeInfo.mk "Specialist Consultation" 60)])
    10.

(** Monday 6 January 2025, half past three in the afternoon. *)
Definition sample_now : datetime := mkdatetime (mkdate 2025 1 6) 15 30 0 0.

Definition sample_patient : PatientInfo.t :=
  PatientInfo.mk "Test Patient" "test@example.com" "+91-9876543210".

Definition sample_request (date start_time : string) : BookingRequest.t :=
  BookingRequest.mk CONSULTATION date start_time sample_patient "Test appointment".

Definition empty_calendly : Calendly.t := Calendly.mk sample_schedule [] [].

(** A generator that always picks index 0, and one that counts up. *)
Definition zero_draws : nat -> nat := fun _ => O.
Definition count_draws : nat -> nat := fun i => i.

(** A ledger with two confirmed consultations on that Monday, and a run
    of four operations on it: a booking at 10:00, a booking at 10:15 that
    is refused, the cancellation of the first one, and the booking at
    10:15 again. *)
Definition sample_ledger : list Appointment.t :=
  [booked_record sample_now zero_draws (sample_request "2025-01-06" "09:00") "09:30";
   booked_record sample_now count_draws (sample_request "2025-01-06" "11:00") "11:30"].

Definition sample_calendly : Calendly.t :=
  Calendly.mk sample_schedule sample_ledger sample_ledger.

Definition sample_ops : list Op :=
  [Book sample_now (fun i => 7%nat) (sample_request "2025-01-06" "10:00");
   Book sample_now (fun i => 8%nat) (sample_request "2025-01-06" "10:15");
   Cancel sample_now "APPT-20250106-7777";
   Book sample_now (fun i => 9%nat) (sample_request "2025-01-06" "10:15")].

(** *** Outcomes other than the invalid-date error *)


(** *** Formats of the generated identifiers *)

(** [n] digits and nothing else. *)
Definition is_digits (n : nat) (s : string) : bool :=
  (String.length s =? n)%nat && all_chars is_digit s.

(** The format APPT-<YYYYMMDD>-<4 digits>. *)
Definition matches_booking_id (s : string) : bool :=
  match s with
  | String "A"%char (String "P"%char (String "P"%char (String "T"%char
      (String "-"%char r)))) =>
      is_digits 8 (substring 0 8 r) &&
      match String.get 8 r with Some c => Ascii.eqb c "-" | None => false end &&
      is_digits 4 (substring 9 4 r) &&
      (String.length r =? 13)%nat
  | _ => false
  end.

(** Six characters, each an upper-case letter or a digit. *)
Definition matches_confirmation_code (s : string) : bool :=
  (String.length s =? 6)%nat && all_chars (fun c => is_upper c || is_digit c) s.

(** A ledger in which the id APPT-20250106-0000 is already taken by a
    cancelled booking of 16:00 ... *)
Definition taken_cancelled_ledger : list Appointment.t :=
  [mark_cancelled sample_now
     (booked_record sample_now zero_draws (sample_request "2025-01-06" "16:00") "16:30")].

Definition taken_cancelled : Calendly.t :=
  Calendly.mk sample_schedule taken_cancelled_ledger taken_cancelled_ledger.

(** ... and the state after booking 09:40 on the sample ledger with a
    generator that repeats the id of its 09:00 record, then cancelling
    the booking id that was returned. *)
Definition collision_ops : list Op :=
  [Book sample_now zero_draws (sample_request "2025-01-06" "09:40");
   Cancel sample_now "APPT-20250106-0000"].

(** *** A chat turn whose second model call fails

    The first call asks for one tool, the tool returns, the second call
    raises. *)
Definition sample_tool_call : ToolCall.t :=
  ToolCall.mk "call_1" "check_availability"
    "{'date': '2025-01-06', 'appointment_type': 'consultation'}".

Definition first_call_asks_tool : list ApiMessage -> outcome AssistantMessage.t :=
  fun _ => Returned (AssistantMessage.mk None [sample_tool_call]).

Definition second_call_down : list ApiMessage -> outcome (option string) :=
  fun _ => Raised "Connection error.".

Definition tool_returns : ToolCall.t -> outcome string :=
  fun _ => Returned "{}".

(** The history after [m] was appended and the window of 20 applied. *)
Definition appended (history : list Message.t) (m : Message.t) : list Message.t :=
  let h := (history ++ [m])%list in
  if (20 <? length h)%nat then last_n 20 h else h.

(** *** Character classes of the formatted numbers *)

Definition not_colon (c : ascii) : bool := negb (Ascii.eqb c ":").

Definition sign_or_digit (c : ascii) : bool := is_digit c || Ascii.eqb c "-".

(** *** Further notions: what a cancellation may change *)

(** A stored record [a'] is what became of [a]: the record itself, or the
    record with the two fields that [cancel_booking] assigns. *)
Definition kept_or_cancelled (a a' : Appointment.t) : Prop :=
  a' = a \/ exists now : datetime, a' = mark_cancelled now a.

(** An operation on the ledger that leaves the date [date_str] alone: a
    booking for another date, or the cancellation of a record of another
    date (or of no record). *)
Definition on_another_date (c : Calendly.t) (op : Op) (date_str : string) : Prop :=
  match op with
  | Book _ _ request => BookingRequest.date request <> date_str
  | Cancel _ booking_id =>
      forall a, get_booking_by_id c booking_id = Some a ->
                Appointment.date a <> date_str
  end.

(** *** Further example data *)

(** The answer for Monday 2025-01-06 on the sample ledger. *)
Definition monday_answer : AvailabilityResponse.t :=
  Eval vm_compute in
    match get_availability 100 sample_calendly sample_now "2025-01-06" "consultation" with
    | Ok r => r
    | _ => empty_response EmptyString EmptyString
    end.

(** *** Code without a loop that needs fuel *)

(** The call returns or raises: the model did not run out of fuel. *)
Definition terminates {A : Type} (r : result A) : Prop := r <> Timeout.

(** *** Sequences of calls into the agent *)

(** One call into the agent.  A chat turn carries what the language model
    and the tools do during that turn. *)
Inductive AgentOp : Type :=
  | ChatTurn (SYSTEM_PROMPT : string)
             (create_with_tools : list ApiMessage -> outcome AssistantMessage.t)
             (create_final : list ApiMessage -> outcome (option string))
             (run_tool : ToolCall.t -> outcome string)
             (message session_id : string)
  | ResetSession (session_id : string)
  | SessionInfoOf (session_id : string).

Definition agent_step (sessions : gmap string (list Message.t)) (op : AgentOp)
    : gmap string (list Message.t) :=
  match op with
  | ChatTurn SYSTEM_PROMPT create_with_tools create_final run_tool message session_id =>
      snd (chat SYSTEM_PROMPT create_with_tools create_final run_tool
             sessions message session_id)
  | ResetSession session_id => reset_session sessions session_id
  | SessionInfoOf session_id => snd (get_session_info sessions session_id)
  end.

Definition agent_run (ops : list AgentOp) (sessions : gmap string (list Message.t))
    : gmap string (list Message.t) :=
  fold_left agent_step ops sessions.

(** The session an operation is about. *)
Definition session_of (op : AgentOp) : string :=
  match op with
  | ChatTurn _ _ _ _ _ session_id => session_id
  | ResetSession session_id => session_id
  | SessionInfoOf session_id => session_id
  end.

(** The messages of the first model call of a turn. *)
Definition first_call_messages (SYSTEM_PROMPT : string)
    (history : list Message.t) (message : string) : list ApiMessage :=
  (Plain (Message.mk "system" (Some SYSTEM_PROMPT)) :: map Plain history
   ++ [Plain (Message.mk "user" (Some message))])%list.

(* ===================================================================== *)
(** * Properties *)
(* ===================================================================== *)

(** ** Strings and times *)

Lemma is_digit_cases (c : ascii) :
  is_digit c = true ->
  In c ["0"; "1"; "2"; "3"; "4"; "5"; "6"; "7"; "8"; "9"]%char.
Proof.
  destruct c as [[|] [|] [|] [|] [|] [|] [|] [|]]; vm_compute; intros H;
    try discriminate H; intuition.
Qed.

Lemma split_on_no_colon (s : string) :
  all_chars not_colon s = true -> split_on ":" s = [s].
Proof.
  induction s as [|c s IH]; simpl; [reflexivity|].
  intros H. apply andb_prop in H as [Hc Hs].
  unfold not_colon in Hc. apply negb_true_iff in Hc. rewrite Hc.
  rewrite (IH Hs). reflexivity.
Qed.

Lemma split_on_colon_app (s1 s2 : string) :
  all_chars not_colon s1 = true ->
  split_on ":" (s1 ++ String ":" s2) = s1 :: split_on ":" s2.
Proof.
  induction s1 as [|c s1 IH]; simpl; [reflexivity|].
  intros H. apply andb_prop in H as [Hc Hs].
  unfold not_colon in Hc. apply negb_true_iff in Hc. rewrite Hc.
  rewrite (IH Hs). reflexivity.
Qed.

Lemma all_chars_impl (p q : ascii -> bool) (s : string) :
  (forall c, p c = true -> q c = true) ->
  all_chars p s = true -> all_chars q s = true.
Proof.
  intros Hpq. induction s as [|c s IH]; simpl; [reflexivity|].
  intros H. apply andb_prop in H as [Hc Hs].
  rewrite (Hpq _ Hc), (IH Hs). reflexivity.
Qed.

Lemma uint_string_digits (d : Decimal.uint) :
  all_chars is_digit (NilEmpty.string_of_uint d) = true.
Proof. induction d; simpl; auto. Qed.

Lemma nilzero_uint_string_digits (d : Decimal.uint) :
  all_chars is_digit (NilZero.string_of_uint d) = true.
Proof. destruct d; try reflexivity; apply (uint_string_digits (_ _)). Qed.

Lemma nilzero_uint_string_nonempty (d : Decimal.uint) :
  (1 <= String.length (NilZero.string_of_uint d))%nat.
Proof. destruct d; simpl; lia. Qed.

Lemma py_str_chars (z : Z) : all_chars sign_or_digit (py_str z) = true.
Proof.
  unfold py_str. destruct (Z.to_int z) as [d|d]; simpl.
  - eapply all_chars_impl; [|apply nilzero_uint_string_digits].
    intros c Hc. unfold sign_or_digit. rewrite Hc. reflexivity.
  - eapply all_chars_impl; [|apply nilzero_uint_string_digits].
    intros c Hc. unfold sign_or_digit. rewrite Hc. reflexivity.
Qed.

Lemma sign_or_digit_not_colon (c : ascii) :
  sign_or_digit c = true -> not_colon c = true.
Proof.
  unfold sign_or_digit, not_colon. intros H.
  destruct (Ascii.eqb_spec c ":") as [->|]; [discriminate H | reflexivity].
Qed.

Lemma fmt02_no_colon (z : Z) : all_chars not_colon (fmt02 z) = true.
Proof.
  unfold fmt02.
  pose proof (all_chars_impl _ _ _ sign_or_digit_not_colon (py_str_chars z)) as H.
  destruct (String.length (py_str z) <? 2)%nat; simpl; auto.
Qed.

Lemma to_int_not_nil (z : Z) :
  Z.to_int z <> Decimal.Pos Decimal.Nil /\ Z.to_int z <> Decimal.Neg Decimal.Nil.
Proof.
  destruct z as [|p|p]; simpl; split; try discriminate;
    intros [= H]; revert H; apply DecimalPos.Unsigned.to_uint_nonnil.
Qed.

Lemma py_str_first (z : Z) :
  match py_str z with
  | String c _ => sign_or_digit c = true
  | EmptyString => False
  end.
Proof.
  pose proof (py_str_chars z) as H. unfold py_str in *.
  destruct (Z.to_int z) as [d|d]; simpl in *.
  - pose proof (nilzero_uint_string_nonempty d).
    destruct (NilZero.string_of_uint d); simpl in *; [lia|].
    apply andb_prop in H as [H _]. exact H.
  - reflexivity.
Qed.

Lemma py_int_py_str (z : Z) : py_int (py_str z) = Some z.
Proof.
  pose proof (py_str_first z) as Hf.
  assert (Hi : NilZero.int_of_string (py_str z) = Some (Z.to_int z)).
  { unfold py_str. destruct (to_int_not_nil z). now apply NilZero.isi. }
  unfold py_int. destruct (py_str z) as [|c s]; [destruct Hf|].
  assert (c <> "+"%char) by (intros ->; discriminate Hf).
  replace (match c with "+"%char => _ | _ => option_map Z.of_int (NilZero.int_of_string (String c s)) end)
    with (option_map Z.of_int (NilZero.int_of_string (String c s))).
  - rewrite Hi. simpl. f_equal. apply DecimalZ.of_to.
  - destruct c as [[|] [|] [|] [|] [|] [|] [|] [|]]; try reflexivity. congruence.
Qed.

Lemma py_int_fmt02 (z : Z) : py_int (fmt02 z) = Some z.
Proof.
  unfold fmt02. destruct (String.length (py_str z) <? 2)%nat eqn:Hlen;
    [|apply py_int_py_str].
  apply Nat.ltb_lt in Hlen.
  pose proof (py_int_py_str z) as Hz.
  pose proof (py_str_first z) as Hf.
  destruct (py_str z) as [|c [|c' s]]; simpl in Hlen; try lia.
  apply orb_prop in Hf as [Hd|Hm].
  - apply is_digit_cases in Hd. simpl in Hd.
    repeat (destruct Hd as [<-|Hd]; [vm_compute in Hz |- *; exact Hz|]).
    destruct Hd.
  - apply Ascii.eqb_eq in Hm. subst c. discriminate Hz.
Qed.

(** Formatting a number of minutes and reading it back is the identity,
    whatever the number. *)
Lemma time_roundtrip (m : Z) : _time_to_minutes (_minutes_to_time m) = Ok m.
Proof.
  unfold _time_to_minutes, _minutes_to_time.
  change (fmt02 (m / 60) ++ ":" ++ fmt02 (m mod 60))
    with (fmt02 (m / 60) ++ String ":" (fmt02 (m mod 60))).
  rewrite split_on_colon_app by apply fmt02_no_colon.
  rewrite split_on_no_colon by apply fmt02_no_colon.
  rewrite !py_int_fmt02. simpl. f_equal.
  pose proof (Z.div_mod m 60). lia.
Qed.

Lemma match_colon {A : Type} (c : ascii) (a b : A) :
  match c with
  | ":"%char => a
  | _ => b
  end = if Ascii.eqb c ":" then a else b.
Proof. destruct c as [[|] [|] [|] [|] [|] [|] [|] [|]]; reflexivity. Qed.

Lemma py_int_two_digits (a b : ascii) :
  is_digit a = true -> is_digit b = true ->
  py_int (String a (String b EmptyString)) = Some (10 * digit_val a + digit_val b).
Proof.
  intros Ha Hb. apply is_digit_cases in Ha, Hb. simpl in Ha, Hb.
  repeat (destruct Ha as [<-|Ha];
          [repeat (destruct Hb as [<-|Hb]; [reflexivity|]); destruct Hb|]).
  destruct Ha.
Qed.

(** A start time that passed the pattern of BookingRequest can be read,
    and is not negative. *)
Lemma matches_hhmm_parses (s : string) :
  matches_hhmm s = true ->
  exists m, _time_to_minutes s = Ok m /\ 0 <= m < 6040.
Proof.
  unfold matches_hhmm.
  destruct s as [|h1 [|h2 [|c [|m1 [|m2 [|x r]]]]]]; try discriminate;
    try (destruct c as [[|] [|] [|] [|] [|] [|] [|] [|]]; discriminate).
  rewrite match_colon.
  destruct (Ascii.eqb_spec c ":") as [->|]; [|discriminate].
  intros H. apply andb_prop in H as [H Hm2]. apply andb_prop in H as [H Hm1].
  apply andb_prop in H as [Hh1 Hh2].
  assert (Hnc : forall a b, is_digit a = true -> is_digit b = true ->
                all_chars not_colon (String a (String b EmptyString)) = true).
  { intros a b Ha Hb. simpl.
    rewrite !sign_or_digit_not_colon by (unfold sign_or_digit; rewrite ?Ha, ?Hb; reflexivity).
    reflexivity. }
  unfold _time_to_minutes.
  change (String h1 (String h2 (String ":" (String m1 (String m2 EmptyString)))))
    with (String h1 (String h2 EmptyString) ++ String ":" (String m1 (String m2 EmptyString))).
  rewrite split_on_colon_app, split_on_no_colon by auto.
  rewrite !py_int_two_digits by assumption. cbn [rbind of_option].
  eexists. split; [reflexivity|].
  assert (Hd : forall d, is_digit d = true -> 0 <= digit_val d <= 9).
  { intros d Hd. apply is_digit_cases in Hd. simpl in Hd.
    repeat (destruct Hd as [<-|Hd]; [vm_compute; split; discriminate|]). destruct Hd. }
  pose proof (Hd _ Hh1). pose proof (Hd _ Hh2). pose proof (Hd _ Hm1). pose proof (Hd _ Hm2).
  lia.
Qed.

(** ** Date strings *)

Lemma digit_val_range (c : ascii) : is_digit c = true -> 0 <= digit_val c <= 9.
Proof.
  intros H. apply is_digit_cases in H. simpl in H.
  repeat (destruct H as [<-|H]; [vm_compute; split; discriminate|]). destruct H.
Qed.





(** The comparison is literal otherwise: [strptime] also reads the date
    without its zero padding, and that spelling is another key for the
    holiday list and for the ledger. *)
Example unpadded_date_is_another_key :
  strptime_ymd "2025-1-14" = strptime_ymd "2025-01-14" /\
  _is_working_day sample_schedule "2025-01-14" = Ok false /\
  _is_working_day sample_schedule "2025-1-14" = Ok true.
Proof. repeat split; vm_compute; reflexivity. Qed.

(** ** The overlap test *)

Lemma overlap_test_eq (s e bs be : Z) :
  negb ((e <=? bs) || (s >=? be)) = overlaps (s, e) (bs, be).
Proof. unfold overlaps; simpl. lia. Qed.

Lemma overlaps_sym (a b : Z * Z) : overlaps a b = overlaps b a.
Proof. unfold overlaps. apply andb_comm. Qed.


Lemma overlaps_intersects (a b : Z * Z) :
  fst a < snd a -> fst b < snd b -> overlaps a b = true -> intersects a b.
Proof.
  unfold intersects, overlaps. intros Ha Hb H.
  exists (Z.max (fst a) (fst b)). lia.
Qed.

Lemma appt_interval_Some (a : Appointment.t) (s e : Z) :
  appt_interval a = Some (s, e) <->
  _time_to_minutes (Appointment.start_time a) = Ok s /\
  _time_to_minutes (Appointment.end_time a) = Ok e.
Proof.
  unfold appt_interval.
  destruct (_time_to_minutes (Appointment.start_time a));
    destruct (_time_to_minutes (Appointment.end_time a)); split;
    try (intros [= -> ->]; auto); try (intros [[= ->] [= ->]]; auto);
    try discriminate; intros [H1 H2]; discriminate.
Qed.

(** What a positive answer of the availability loop means: every confirmed
    appointment of the date was read, and none passes the overlap test. *)
Lemma slot_available_true (ledger : list Appointment.t)
    (date_str start_time end_time : string) (s e : Z) :
  _time_to_minutes start_time = Ok s ->
  _time_to_minutes end_time = Ok e ->
  _is_slot_available ledger date_str start_time end_time = Ok true ->
  forall a, In a ledger -> confirmed_on date_str a = true ->
    exists ia, appt_interval a = Some ia /\ overlaps (s, e) ia = false.
Proof.
  intros Hs He. unfold _is_slot_available. rewrite Hs, He. simpl.
  induction ledger as [|x l IH]; simpl; [intros _ a []|].
  unfold confirmed_on, is_confirmed.
  destruct (String.eqb (Appointment.date x) date_str &&
            String.eqb (Appointment.status x) "confirmed") eqn:Hx; simpl.
  - destruct (_time_to_minutes (Appointment.start_time x)) as [bs| |] eqn:Hbs;
      simpl; try discriminate.
    destruct (_time_to_minutes (Appointment.end_time x)) as [be| |] eqn:Hbe;
      simpl; try discriminate.
    rewrite overlap_test_eq.
    destruct (overlaps (s, e) (bs, be)) eqn:Hov; [discriminate|].
    intros H a [<-|Hin] Ha.
    + exists (bs, be). split; [|exact Hov].
      apply appt_interval_Some. auto.
    + apply (IH H a Hin Ha).
  - intros H a [<-|Hin] Ha.
    + unfold confirmed_on, is_confirmed in Ha. congruence.
    + apply (IH H a Hin Ha).
Qed.


(** ** Booking: what a successful call went through *)

Ltac bind_inv H :=
  repeat match type of H with
  | rbind ?r _ = _ =>
      let E := fresh "E" in
      destruct r eqn:E; simpl in H; try discriminate H
  | (if ?b then _ else _) = _ =>
      let E := fresh "E" in
      destruct b eqn:E; simpl in H; try discriminate H
  end.

Lemma book_appointment_inv (c : Calendly.t) (now : datetime) (draws : nat -> nat)
    (request : BookingRequest.t) (response : BookingResponse.t) (c' : Calendly.t) :
  book_appointment c now draws request = Ok (response, c') ->
  exists (date_obj : dt_date) (duration start_mins : Z) (sessions : list Session.t),
    let sch := Calendly.schedule c in
    let date_str := BookingRequest.date request in
    let start_time := BookingRequest.start_time request in
    let end_time := _minutes_to_time (start_mins + duration) in
    strptime_ymd date_str = Some date_obj /\
    date_lt date_obj (date_part now) = false /\
    _is_working_day sch date_str = Ok true /\
    _get_appointment_duration sch
      (AppointmentType_value (BookingRequest.appointment_type request)) = Ok duration /\
    _time_to_minutes start_time = Ok start_mins /\
    _is_slot_available (Calendly.bookings c) date_str start_time end_time = Ok true /\
    _get_working_sessions sch date_str = Ok sessions /\
    in_some_session start_mins end_time sessions = Ok true /\
    BookingResponse.booking_id response = _generate_booking_id now draws /\
    BookingResponse.confirmation_code response
      = _generate_confirmation_code (fun i => draws (4 + i)%nat) /\
    BookingResponse.status response = "confirmed" /\
    c' = Calendly.mk sch
           (Calendly.bookings c ++ [booked_record now draws request end_time])
           (Calendly.bookings c ++ [booked_record now draws request end_time]).
Proof.
  unfold book_appointment. intros H.
  destruct (strptime_ymd (BookingRequest.date request)) as [date_obj|] eqn:Hd;
    simpl in H; [|discriminate H].
  bind_inv H.
  injection H as <- <-.
  match goal with
  | H1 : _get_appointment_duration _ _ = Ok ?d,
    H2 : _time_to_minutes _ = Ok ?s,
    H3 : _get_working_sessions _ _ = Ok ?l |- _ =>
      exists date_obj, d, s, l
  end.
  repeat match goal with
  | Hn : negb ?b = false |- _ => apply negb_false_iff in Hn; subst b
  end.
  simpl. repeat split; auto.
Qed.

(** ** The ledger invariant *)

Lemma lookup_snoc_cases {A : Type} (l : list A) (x : A) (i : nat) (a : A) :
  (l ++ [x])%list !! i = Some a ->
  (l !! i = Some a /\ (i < length l)%nat) \/ (i = length l /\ a = x).
Proof.
  intros H. destruct (decide (i < length l)%nat) as [Hlt|Hge].
  - rewrite lookup_app_l in H by exact Hlt. auto.
  - rewrite lookup_app_r in H by lia.
    destruct (i - length l)%nat eqn:Hk; simpl in H; [|discriminate H].
    injection H as <-. right. split; [lia | reflexivity].
Qed.

Lemma pairwise_free_snoc (conflict : Z * Z -> Z * Z -> Prop)
    (ledger : list Appointment.t) (x : Appointment.t) :
  (forall a b, conflict a b -> overlaps a b = true) ->
  pairwise_free conflict ledger ->
  (forall a ia ix, In a ledger -> is_confirmed a = true ->
     Appointment.date a = Appointment.date x ->
     appt_interval a = Some ia -> appt_interval x = Some ix ->
     overlaps ix ia = false) ->
  pairwise_free conflict (ledger ++ [x]).
Proof.
  intros Hc Hinv Hnew i j a b ia ib Hij Hi Hj Ca Cb Hd Ia Ib Hconf.
  pose proof (Hc _ _ Hconf) as Hov.
  apply lookup_snoc_cases in Hi as [[Hi _]|[Hi ->]];
    apply lookup_snoc_cases in Hj as [[Hj _]|[Hj ->]].
  - apply (Hinv i j a b ia ib); auto.
  - rewrite overlaps_sym in Hov.
    rewrite (Hnew a ia ib) in Hov; auto; [discriminate|].
    apply list_elem_of_In. eapply list_elem_of_lookup_2; eauto.
  - rewrite (Hnew b ib ia) in Hov; auto; [discriminate|].
    apply list_elem_of_In. eapply list_elem_of_lookup_2; eauto.
  - lia.
Qed.

Lemma mark_cancelled_not_confirmed (now : datetime) (a : Appointment.t) :
  is_confirmed (mark_cancelled now a) = false.
Proof. reflexivity. Qed.

Lemma cancel_first_Some (now : datetime) (booking_id : string)
    (ledger ledger' : list Appointment.t) :
  cancel_first now booking_id ledger = Some ledger' ->
  exists (k : nat) (a : Appointment.t),
    ledger !! k = Some a /\
    Appointment.booking_id a = booking_id /\
    (forall j b, (j < k)%nat -> ledger !! j = Some b ->
       Appointment.booking_id b <> booking_id) /\
    ledger' = <[k := mark_cancelled now a]> ledger.
Proof.
  revert ledger'. induction ledger as [|x l IH]; simpl; intros l' H; [discriminate|].
  destruct (String.eqb_spec (Appointment.booking_id x) booking_id) as [Heq|Hne].
  - injection H as <-. exists O, x. repeat split; auto. intros j b Hj; lia.
  - destruct (cancel_first now booking_id l) as [l0|] eqn:Hc; [|discriminate H].
    injection H as <-.
    destruct (IH l0 eq_refl) as (k & a & Hk & Ha & Hbefore & ->).
    exists (S k), a. repeat split; auto.
    intros [|j] b Hj Hb; simpl in Hb.
    + injection Hb as <-. exact Hne.
    + apply (Hbefore j b); [lia | exact Hb].
Qed.

Lemma cancel_first_None (now : datetime) (booking_id : string)
    (ledger : list Appointment.t) :
  cancel_first now booking_id ledger = None <->
  (forall a, In a ledger -> Appointment.booking_id a <> booking_id).
Proof.
  induction ledger as [|x l IH]; simpl.
  - split; [intros _ a [] | reflexivity].
  - destruct (String.eqb_spec (Appointment.booking_id x) booking_id) as [Heq|Hne].
    + split; [discriminate|]. intros H. exfalso. apply (H x); auto.
    + destruct (cancel_first now booking_id l) as [l0|]; simpl.
      * split; [discriminate|]. intros H.
        destruct IH as [_ IH]. discriminate IH.
        intros a Ha. apply H. auto.
      * split; [|reflexivity]. intros _ a [<-|Ha]; [exact Hne|].
        destruct IH as [IH _]. apply (IH eq_refl a Ha).
Qed.

Lemma pairwise_free_cancel (conflict : Z * Z -> Z * Z -> Prop)
    (ledger : list Appointment.t) (k : nat) (now : datetime) (a : Appointment.t) :
  pairwise_free conflict ledger ->
  pairwise_free conflict (<[k := mark_cancelled now a]> ledger).
Proof.
  intros Hinv i j x y ix iy Hij Hi Hj Cx Cy Hd Ix Iy.
  destruct (decide (k = i)) as [->|Hki].
  - apply list_lookup_insert_Some in Hi as [(_ & <- & _)|[Hne _]];
      [rewrite mark_cancelled_not_confirmed in Cx; discriminate | congruence].
  - destruct (decide (k = j)) as [->|Hkj].
    + apply list_lookup_insert_Some in Hj as [(_ & <- & _)|[Hne _]];
        [rewrite mark_cancelled_not_confirmed in Cy; discriminate | congruence].
    + rewrite list_lookup_insert_ne in Hi by exact Hki.
      rewrite list_lookup_insert_ne in Hj by exact Hkj.
      apply (Hinv i j x y ix iy); auto.
Qed.

Lemma confirmed_on_split (date_str : string) (a : Appointment.t) :
  confirmed_on date_str a = true <->
  Appointment.date a = date_str /\ is_confirmed a = true.
Proof.
  unfold confirmed_on. rewrite andb_true_iff, String.eqb_eq. reflexivity.
Qed.

Lemma pairwise_free_apply_op (conflict : Z * Z -> Z * Z -> Prop)
    (c : Calendly.t) (op : Op) :
  (forall a b, conflict a b -> overlaps a b = true) ->
  pairwise_free conflict (Calendly.bookings c) ->
  pairwise_free conflict (Calendly.bookings (apply_op c op)).
Proof.
  intros Hc Hinv. destruct op as [now draws request|now booking_id]; simpl.
  - destruct (book_appointment c now draws request) as [[response c']| |] eqn:Hb;
      try exact Hinv.
    apply book_appointment_inv in Hb
      as (date_obj & duration & start_mins & sessions & _ & _ & _ & _ & Hs & Hfree & _
          & _ & _ & _ & _ & ->).
    simpl. apply pairwise_free_snoc; auto.
    intros a ia [xs xe] Hin Ca Hd Ia Ix.
    apply appt_interval_Some in Ix as [Ixs Ixe]. simpl in Ixs, Ixe.
    rewrite time_roundtrip in Ixe. injection Ixe as <-.
    assert (xs = start_mins) as -> by congruence.
    destruct (slot_available_true _ _ _ _ start_mins (start_mins + duration) Hs
                (time_roundtrip _) Hfree a Hin) as (ia' & Ia' & Hov).
    { apply confirmed_on_split. auto. }
    congruence.
  - unfold cancel_booking.
    destruct (cancel_first now booking_id (Calendly.bookings c)) as [l|] eqn:Hcf;
      simpl; [|exact Hinv].
    apply cancel_first_Some in Hcf as (k & a & _ & _ & _ & ->).
    apply pairwise_free_cancel. exact Hinv.
Qed.


Lemma pairwise_free_run (conflict : Z * Z -> Z * Z -> Prop)
    (ops : list Op) (c : Calendly.t) :
  (forall a b, conflict a b -> overlaps a b = true) ->
  pairwise_free conflict (Calendly.bookings c) ->
  pairwise_free conflict (Calendly.bookings (run ops c)).
Proof.
  intros Hc. revert c. unfold run.
  induction ops as [|op ops IH]; simpl; intros c Hinv; [exact Hinv|].
  apply IH. apply pairwise_free_apply_op; assumption.
Qed.

(** The same invariant, stated with the overlap test of the code. *)
Lemma overlap_free_run (ops : list Op) (c : Calendly.t) :
  overlap_free (Calendly.bookings c) ->
  overlap_free (Calendly.bookings (run ops c)).
Proof. apply pairwise_free_run. auto. Qed.




(** ** Cancellation *)

(** C7.  Cancellation contract: cancel_booking returns true exactly when
    some record of the ledger carries the booking id.  It then rewrites
    the first such record in place, with status "cancelled" and
    cancelled_at stamped with the current time and every other field as
    it was, and saves the ledger.  Otherwise it returns false and the
    state, ledger and file, is unchanged. *)
Theorem cancel_booking_contract (c : Calendly.t) (now : datetime)
    (booking_id : string) :
  let (ok, c') := cancel_booking c now booking_id in
  (ok = true <->
   exists a, In a (Calendly.bookings c) /\ Appointment.booking_id a = booking_id) /\
  (ok = true ->
   exists (k : nat) (a a' : Appointment.t),
     Calendly.bookings c !! k = Some a /\
     Appointment.booking_id a = booking_id /\
     (forall j b, (j < k)%nat -> Calendly.bookings c !! j = Some b ->
        Appointment.booking_id b <> booking_id) /\
     Calendly.bookings c' = <[k := a']> (Calendly.bookings c) /\
     Appointment.status a' = "cancelled" /\
     Appointment.cancelled_at a' = Some now /\
     a' = Appointment.mk (Appointment.booking_id a) (Appointment.confirmation_code a)
            (Appointment.status a') (Appointment.appointment_type a)
            (Appointment.date a) (Appointment.start_time a) (Appointment.end_time a)
            (Appointment.patient a) (Appointment.reason a) (Appointment.created_at a)
            (Appointment.cancelled_at a') (Appointment.clinic a) (Appointment.doctor a) /\
     Calendly.bookings_file c' = Calendly.bookings c' /\
     Calendly.schedule c' = Calendly.schedule c) /\
  (ok = false -> c' = c).
Proof.
  unfold cancel_booking.
  destruct (cancel_first now booking_id (Calendly.bookings c)) as [l|] eqn:Hc.
  - pose proof (cancel_first_Some _ _ _ _ Hc) as (k & a & Hk & Ha & Hbefore & ->).
    split; [|split]; [split; [intros _|reflexivity] | intros _ | discriminate].
    + exists a. split; [|exact Ha].
      apply list_elem_of_In. eapply list_elem_of_lookup_2; eauto.
    + exists k, a, (mark_cancelled now a). simpl. repeat split; auto.
  - split; [|split]; [split; [discriminate|] | discriminate | reflexivity].
    intros (a & Hin & Ha). exfalso.
    apply (proj1 (cancel_first_None _ _ _) Hc a Hin Ha).
Qed.

(** ** Availability: the invalid date and the empty answers *)











Lemma get_day_name_parsed (date_str : string) (date_obj : dt_date) :
  strptime_ymd date_str = Some date_obj ->
  _get_day_name date_str = Ok (strftime_A_lower date_obj).
Proof. intros H. unfold _get_day_name. rewrite H. reflexivity. Qed.


Lemma existsb_eqb_In_r (x : string) (l : list string) :
  existsb (fun y => String.eqb y x) l = true <-> In x l.
Proof.
  rewrite existsb_exists. split.
  - intros (y & Hy & Heq). apply String.eqb_eq in Heq. congruence.
  - intros H. exists x. split; [exact H | apply String.eqb_refl].
Qed.






(** ** Booking: the order of the checks *)










(** ** Slot generation *)

Lemma fmt02_two_digit_table :
  forallb (fun n => match fmt02 (Z.of_nat n) with
                    | String a (String b EmptyString) => is_digit a && is_digit b
                    | _ => false
                    end) (seq 0 100) = true.
Proof. vm_compute. reflexivity. Qed.

Lemma fmt02_two_digits (z : Z) :
  0 <= z < 100 ->
  exists a b, fmt02 z = String a (String b EmptyString) /\
              is_digit a = true /\ is_digit b = true.
Proof.
  intros Hz. pose proof fmt02_two_digit_table as H.
  rewrite forallb_forall in H. specialize (H (Z.to_nat z)).
  rewrite Z2Nat.id in H by lia.
  assert (Hin : In (Z.to_nat z) (seq 0 100)) by (apply in_seq; lia).
  specialize (H Hin).
  destruct (fmt02 z) as [|a [|b [|x r]]]; try discriminate H.
  apply andb_prop in H as [Ha Hb]. eauto.
Qed.

(** Up to 99:59 a formatted time fits the pattern of TimeSlot. *)
Lemma minutes_to_time_matches (m : Z) :
  0 <= m < 6000 -> matches_hhmm (_minutes_to_time m) = true.
Proof.
  intros Hm. unfold _minutes_to_time.
  destruct (fmt02_two_digits (m / 60)) as (a & b & -> & Ha & Hb).
  { split; [apply Z.div_pos; lia | apply Z.div_lt_upper_bound; lia]. }
  destruct (fmt02_two_digits (m mod 60)) as (x & y & -> & Hx & Hy).
  { pose proof (Z.mod_pos_bound m 60). lia. }
  simpl. rewrite Ha, Hb, Hx, Hy. reflexivity.
Qed.













(** The scenario of the specification: a Monday session 09:00-13:00,
    consultations of 30 minutes, a buffer of 10. *)
Example monday_first_three_slots :
  match get_availability 100 empty_calendly sample_now "2025-01-06" "consultation" with
  | Ok r => map (fun s => (TimeSlot.start_time s, TimeSlot.end_time s))
                (firstn 3 (AvailabilityResponse.available_slots r))
  | _ => []
  end = [("09:00", "09:30"); ("09:40", "10:10"); ("10:20", "10:50")].
Proof. vm_compute. reflexivity. Qed.

(** With the two consultations of the sample ledger, the candidates at
    09:00 and 11:00 are the ones flagged unavailable. *)
Example monday_flags :
  match get_availability 100 sample_calendly sample_now "2025-01-06" "consultation" with
  | Ok r => map (fun s => (TimeSlot.start_time s, TimeSlot.available s))
                (firstn 6 (AvailabilityResponse.available_slots r))
  | _ => []
  end = [("09:00", false); ("09:40", true); ("10:20", true);
         ("11:00", false); ("11:40", true); ("12:20", true)].
Proof. vm_compute. reflexivity. Qed.

(** ** Booking: what a successful call leaves behind *)

Lemma all_chars_get (p : ascii -> bool) (s : string) (k : nat) (d : ascii) :
  all_chars p s = true -> p d = true -> p (default d (String.get k s)) = true.
Proof.
  revert k. induction s as [|c s IH]; intros k Hs Hd; simpl; [exact Hd|].
  simpl in Hs. apply andb_prop in Hs as [Hc Hs].
  destruct k as [|k]; simpl; [exact Hc | apply IH; assumption].
Qed.

Lemma all_chars_of_list (p : ascii -> bool) (l : list ascii) :
  Forall (fun c => p c = true) l ->
  all_chars p (string_of_list_ascii l) = true.
Proof.
  induction 1 as [|c l Hc Hl IH]; simpl; [reflexivity|]. rewrite Hc, IH. reflexivity.
Qed.

Lemma length_of_list (l : list ascii) :
  String.length (string_of_list_ascii l) = length l.
Proof. induction l as [|c l IH]; simpl; congruence. Qed.

(** [k] picks from a population give [k] characters of the population. *)
Lemma random_choices_chars (p : ascii -> bool) (draws : nat -> nat)
    (population : string) (k : nat) :
  all_chars p population = true -> p "0"%char = true ->
  String.length (random_choices draws population k) = k /\
  all_chars p (random_choices draws population k) = true.
Proof.
  intros Hp H0. unfold random_choices. split.
  - rewrite length_of_list, length_map, length_seq. reflexivity.
  - apply all_chars_of_list. apply Forall_map. apply Forall_forall. intros i _.
    unfold choice. apply all_chars_get; assumption.
Qed.

Lemma confirmation_code_format (draws : nat -> nat) :
  matches_confirmation_code (_generate_confirmation_code draws) = true.
Proof.
  unfold matches_confirmation_code, _generate_confirmation_code.
  destruct (random_choices_chars (fun c => is_upper c || is_digit c) draws
              (ascii_uppercase ++ digits) 6 eq_refl eq_refl) as [-> ->].
  reflexivity.
Qed.

Lemma zero_pad_table :
  forallb (fun n => is_digits 4 (zero_pad 4 (py_str (Z.of_nat n))) &&
                    ((99 <? n)%nat || is_digits 2 (zero_pad 2 (py_str (Z.of_nat n)))))
          (seq 0 (Z.to_nat 10000)) = true.
Proof. vm_compute. reflexivity. Qed.

Lemma zero_pad_4 (z : Z) : 0 <= z <= 9999 -> is_digits 4 (zero_pad 4 (py_str z)) = true.
Proof.
  intros Hz. pose proof zero_pad_table as H.
  rewrite forallb_forall in H. specialize (H (Z.to_nat z)).
  rewrite Z2Nat.id in H by lia.
  assert (Hin : In (Z.to_nat z) (seq 0 (Z.to_nat 10000))) by (apply in_seq; lia).
  apply H in Hin. apply andb_prop in Hin as [Hin _]. exact Hin.
Qed.

Lemma zero_pad_2 (z : Z) : 0 <= z <= 99 -> is_digits 2 (zero_pad 2 (py_str z)) = true.
Proof.
  intros Hz. pose proof zero_pad_table as H.
  rewrite forallb_forall in H. specialize (H (Z.to_nat z)).
  rewrite Z2Nat.id in H by lia.
  assert (Hin : In (Z.to_nat z) (seq 0 (Z.to_nat 10000))) by (apply in_seq; lia).
  apply H in Hin. apply andb_prop in Hin as [_ Hin].
  apply orb_prop in Hin as [Hin|Hin]; [|exact Hin].
  apply Nat.ltb_lt in Hin. lia.
Qed.

Lemma is_digits_app (n m : nat) (s t : string) :
  is_digits n s = true -> is_digits m t = true -> is_digits (n + m) (s ++ t) = true.
Proof.
  unfold is_digits. intros Hs Ht.
  apply andb_prop in Hs as [Hn Hs]. apply andb_prop in Ht as [Hm Ht].
  apply Nat.eqb_eq in Hn, Hm. subst n m.
  apply andb_true_intro. split.
  - apply Nat.eqb_eq. clear. induction s as [|c s IH]; simpl; [reflexivity|].
    f_equal. exact IH.
  - clear -Hs Ht. induction s as [|c s IH]; simpl in *; [exact Ht|].
    apply andb_prop in Hs as [-> Hs]. simpl. auto.
Qed.

Lemma days_in_month_le (y m : Z) : days_in_month y m <= 31.
Proof.
  unfold days_in_month.
  destruct (m =? 2); [destruct (is_leap y); lia|].
  destruct ((m =? 4) || (m =? 6) || (m =? 9) || (m =? 11)); lia.
Qed.

Lemma strftime_Ymd_digits (d : dt_date) :
  date_valid d = true -> is_digits 8 (strftime_Ymd d) = true.
Proof.
  unfold date_valid, strftime_Ymd. intros H.
  pose proof (days_in_month_le (year d) (month d)).
  change 8%nat with (4 + (2 + 2))%nat.
  apply is_digits_app; [apply zero_pad_4; lia|].
  apply is_digits_app; [apply zero_pad_2; lia | apply zero_pad_2; lia].
Qed.

Lemma digits8_dash_digits4 (a b : string) :
  is_digits 8 a = true -> is_digits 4 b = true ->
  matches_booking_id ("APPT-" ++ a ++ "-" ++ b) = true.
Proof.
  unfold is_digits at 1 2. intros Ha Hb.
  apply andb_prop in Ha as [La Ha]. apply andb_prop in Hb as [Lb Hb].
  apply Nat.eqb_eq in La, Lb.
  destruct a as [|a1 [|a2 [|a3 [|a4 [|a5 [|a6 [|a7 [|a8 [|x a]]]]]]]]];
    try discriminate La.
  destruct b as [|b1 [|b2 [|b3 [|b4 [|y b]]]]]; try discriminate Lb.
  simpl in Ha, Hb. unfold matches_booking_id, is_digits. simpl.
  repeat match goal with
  | H : _ && _ = true |- _ => apply andb_prop in H as [? H]
  end.
  repeat match goal with
  | H : is_digit _ = true |- _ => rewrite H; clear H
  end.
  reflexivity.
Qed.

(** The booking id has the format APPT-<YYYYMMDD>-<4 digits> whenever the
    clock shows a date of the calendar. *)
Lemma booking_id_format (now : datetime) (draws : nat -> nat) :
  date_valid (date_part now) = true ->
  matches_booking_id (_generate_booking_id now draws) = true.
Proof.
  intros Hv. unfold _generate_booking_id.
  apply digits8_dash_digits4; [apply strftime_Ymd_digits; exact Hv|].
  unfold is_digits.
  destruct (random_choices_chars is_digit draws digits 4 eq_refl eq_refl) as [-> ->].
  reflexivity.
Qed.

Lemma find_booking_snoc (ledger : list Appointment.t) (x : Appointment.t)
    (booking_id : string) :
  find_booking (ledger ++ [x]) booking_id
  = match find_booking ledger booking_id with
    | Some a => Some a
    | None => if String.eqb (Appointment.booking_id x) booking_id then Some x else None
    end.
Proof.
  induction ledger as [|a l IH]; simpl; [reflexivity|].
  destruct (String.eqb (Appointment.booking_id a) booking_id); [reflexivity | exact IH].
Qed.

(** X25: what a successful booking guarantees: the two formats, the stored
    record (confirmed, ending [duration] after its start), the ledger
    extended by it and saved, and what a lookup of the new id returns: the
    new record, unless an older record already carries that id. *)
Lemma book_appointment_postcondition (c : Calendly.t) (now : datetime)
    (draws : nat -> nat) (request : BookingRequest.t)
    (response : BookingResponse.t) (c' : Calendly.t) :
  date_valid (date_part now) = true ->
  book_appointment c now draws request = Ok (response, c') ->
  matches_booking_id (BookingResponse.booking_id response) = true /\
  matches_confirmation_code (BookingResponse.confirmation_code response) = true /\
  exists (record : Appointment.t) (s duration : Z),
    Calendly.bookings c' = (Calendly.bookings c ++ [record])%list /\
    Calendly.bookings_file c' = Calendly.bookings c' /\
    Appointment.booking_id record = BookingResponse.booking_id response /\
    Appointment.confirmation_code record = BookingResponse.confirmation_code response /\
    Appointment.status record = "confirmed" /\
    Appointment.date record = BookingRequest.date request /\
    Appointment.start_time record = BookingRequest.start_time request /\
    _get_appointment_duration (Calendly.schedule c)
      (AppointmentType_value (BookingRequest.appointment_type request)) = Ok duration /\
    _time_to_minutes (Appointment.start_time record) = Ok s /\
    _time_to_minutes (Appointment.end_time record) = Ok (s + duration) /\
    get_booking_by_id c' (BookingResponse.booking_id response)
    = match find_booking (Calendly.bookings c) (BookingResponse.booking_id response) with
      | Some older => Some older
      | None => Some record
      end.
Proof.
  intros Hv Hb.
  apply book_appointment_inv in Hb
    as (date_obj & duration & s & sessions & _ & _ & _ & Hdur & Hs & _ & _ & _
        & Hid & Hcode & _ & ->).
  rewrite Hid, Hcode.
  split; [apply booking_id_format; exact Hv|].
  split; [apply confirmation_code_format|].
  exists (booked_record now draws request (_minutes_to_time (s + duration))), s, duration.
  simpl. repeat split; auto using time_roundtrip.
  unfold get_booking_by_id. simpl. rewrite find_booking_snoc. simpl.
  rewrite String.eqb_refl. reflexivity.
Qed.

(** With an id that no older record carries, the lookup returns the
    record just stored. *)
Lemma lookup_after_booking_fresh (c : Calendly.t) (now : datetime)
    (draws : nat -> nat) (request : BookingRequest.t)
    (response : BookingResponse.t) (c' : Calendly.t) :
  book_appointment c now draws request = Ok (response, c') ->
  find_booking (Calendly.bookings c) (BookingResponse.booking_id response) = None ->
  exists record, get_booking_by_id c' (BookingResponse.booking_id response) = Some record /\
                 Appointment.status record = "confirmed".
Proof.
  intros Hb Hfresh.
  apply book_appointment_inv in Hb
    as (date_obj & duration & s & sessions & _ & _ & _ & _ & _ & _ & _ & _
        & Hid & _ & _ & ->).
  rewrite Hid in *. unfold get_booking_by_id. simpl.
  rewrite find_booking_snoc, Hfresh. simpl. rewrite String.eqb_refl. eauto.
Qed.

(** C5, at the input where it fails.  The id APPT-20250106-0000 is held by
    a cancelled record; the generator draws 0000 again.  The booking
    succeeds and returns that id, and the lookup of the returned id gives
    the older record, whose status is "cancelled". *)
Theorem booking_id_collision_lookup :
  match book_appointment taken_cancelled sample_now zero_draws
          (sample_request "2025-01-06" "10:00") with
  | Ok (response, c') =>
      (BookingResponse.booking_id response,
       length (Calendly.bookings c'),
       option_map Appointment.status
         (get_booking_by_id c' (BookingResponse.booking_id response)))
  | _ => (EmptyString, O, None)
  end = ("APPT-20250106-0000", 2%nat, Some "cancelled").
Proof. vm_compute. reflexivity. Qed.

(** ** Booking, cancelling and the availability answer *)

Lemma session_slots_inv (fuel : nat) (ledger : list Appointment.t)
    (date_str : string) (duration step session_end current : Z)
    (slots : list TimeSlot.t) :
  session_slots fuel ledger date_str duration step session_end current = Ok slots ->
  Forall (fun slot => exists cur,
            TimeSlot.start_time slot = _minutes_to_time cur /\
            TimeSlot.end_time slot = _minutes_to_time (cur + duration) /\
            _is_slot_available ledger date_str (_minutes_to_time cur)
              (_minutes_to_time (cur + duration)) = Ok (TimeSlot.available slot))
         slots.
Proof.
  revert current slots. induction fuel as [|fuel IH]; intros current slots; simpl;
    destruct (current + duration <=? session_end); try discriminate;
    try (intros [= <-]; constructor).
  intros H.
  destruct (_is_slot_available _ _ _ _) as [flag| |] eqn:E; simpl in H;
    try discriminate H.
  destruct (TimeSlot.new _ _ _ _) as [slot| |] eqn:E0; simpl in H;
    try discriminate H.
  destruct (session_slots _ _ _ _ _ _ _) as [more| |] eqn:E1; simpl in H;
    try discriminate H.
  injection H as <-.
  unfold TimeSlot.new in E0.
  destruct (matches_hhmm _ && matches_hhmm _) in E0; [|discriminate E0].
  injection E0 as <-.
  constructor; [|eapply IH; eassumption].
  exists current. simpl. auto.
Qed.

Lemma all_session_slots_inv (fuel : nat) (ledger : list Appointment.t)
    (date_str : string) (duration step : Z) (sessions : list Session.t)
    (slots : list TimeSlot.t) :
  all_session_slots fuel ledger date_str duration step sessions = Ok slots ->
  Forall (fun slot => exists cur,
            TimeSlot.start_time slot = _minutes_to_time cur /\
            TimeSlot.end_time slot = _minutes_to_time (cur + duration) /\
            _is_slot_available ledger date_str (_minutes_to_time cur)
              (_minutes_to_time (cur + duration)) = Ok (TimeSlot.available slot))
         slots.
Proof.
  revert slots. induction sessions as [|x l IH]; simpl; intros slots H.
  - injection H as <-. constructor.
  - bind_inv H. injection H as <-.
    apply Forall_app. split; [eapply session_slots_inv; eassumption | apply IH; reflexivity].
Qed.

(** Every slot of an answer carries the verdict of [_is_slot_available]
    on the ledger of that moment, for the duration of the type asked. *)
Lemma get_availability_inv (fuel : nat) (c : Calendly.t) (now : datetime)
    (date_str appointment_type : string) (r : AvailabilityResponse.t)
    (slot : TimeSlot.t) :
  get_availability fuel c now date_str appointment_type = Ok r ->
  In slot (AvailabilityResponse.available_slots r) ->
  exists duration cur,
    _get_appointment_duration (Calendly.schedule c) appointment_type = Ok duration /\
    TimeSlot.start_time slot = _minutes_to_time cur /\
    TimeSlot.end_time slot = _minutes_to_time (cur + duration) /\
    _is_slot_available (Calendly.bookings c) date_str (_minutes_to_time cur)
      (_minutes_to_time (cur + duration)) = Ok (TimeSlot.available slot).
Proof.
  unfold get_availability. intros H Hin.
  destruct (strptime_ymd date_str) as [date_obj|] eqn:Hd; simpl in H; [|discriminate H].
  rewrite (get_day_name_parsed _ _ Hd) in H. simpl in H.
  destruct (date_lt date_obj (date_part now)); simpl in H.
  { injection H as <-. destruct Hin. }
  destruct (_is_working_day (Calendly.schedule c) date_str) as [w| |];
    simpl in H; try discriminate H.
  destruct w; simpl in H; [|injection H as <-; destruct Hin].
  bind_inv H. injection H as <-. simpl in Hin.
  match goal with
  | E : all_session_slots _ _ _ _ _ _ = Ok _ |- _ =>
      apply all_session_slots_inv in E; rewrite List.Forall_forall in E;
      destruct (E slot Hin) as (cur & H1 & H2 & H3)
  end.
  eauto 10.
Qed.

(** The verdict depends on the ledger through the booked slots only, and
    on the two strings through their minutes only. *)
Lemma is_slot_available_minutes (ledger : list Appointment.t)
    (date_str st et st' et' : string) (s e : Z) :
  _time_to_minutes st = Ok s -> _time_to_minutes et = Ok e ->
  _time_to_minutes st' = Ok s -> _time_to_minutes et' = Ok e ->
  _is_slot_available ledger date_str st et = _is_slot_available ledger date_str st' et'.
Proof.
  intros H1 H2 H3 H4. unfold _is_slot_available. rewrite H1, H2, H3, H4. reflexivity.
Qed.

Lemma booked_slots_snoc (ledger : list Appointment.t) (x : Appointment.t)
    (date_str : string) :
  _get_booked_slots (ledger ++ [x]) date_str
  = (_get_booked_slots ledger date_str ++ _get_booked_slots [x] date_str)%list.
Proof.
  induction ledger as [|a l IH]; [reflexivity|].
  change ((a :: l) ++ [x])%list with (a :: (l ++ [x]))%list.
  cbn [_get_booked_slots]. rewrite IH.
  destruct (String.eqb (Appointment.date a) date_str &&
            String.eqb (Appointment.status a) "confirmed"); reflexivity.
Qed.


Lemma find_booking_None (ledger : list Appointment.t) (booking_id : string) :
  find_booking ledger booking_id = None ->
  forall a, In a ledger -> Appointment.booking_id a <> booking_id.
Proof.
  induction ledger as [|x l IH]; simpl; [intros _ a []|].
  destruct (String.eqb_spec (Appointment.booking_id x) booking_id) as [|Hne];
    [discriminate|].
  intros H a [<-|Ha]; [exact Hne | apply (IH H a Ha)].
Qed.

Lemma cancel_first_snoc_fresh (now : datetime) (ledger : list Appointment.t)
    (x : Appointment.t) :
  find_booking ledger (Appointment.booking_id x) = None ->
  cancel_first now (Appointment.booking_id x) (ledger ++ [x])
  = Some (ledger ++ [mark_cancelled now x])%list.
Proof.
  induction ledger as [|a l IH]; simpl; intros H.
  - rewrite String.eqb_refl. reflexivity.
  - destruct (String.eqb (Appointment.booking_id a) (Appointment.booking_id x));
      [discriminate H|].
    rewrite (IH H). reflexivity.
Qed.

Lemma booked_slots_cancelled (now : datetime) (ledger : list Appointment.t)
    (x : Appointment.t) (date_str : string) :
  _get_booked_slots (ledger ++ [mark_cancelled now x]) date_str
  = _get_booked_slots ledger date_str.
Proof.
  rewrite booked_slots_snoc. simpl. rewrite andb_false_r. apply app_nil_r.
Qed.

Lemma session_slots_ext (fuel : nat) (l1 l2 : list Appointment.t)
    (date_str : string) (duration step session_end current : Z) :
  _get_booked_slots l1 date_str = _get_booked_slots l2 date_str ->
  session_slots fuel l1 date_str duration step session_end current
  = session_slots fuel l2 date_str duration step session_end current.
Proof.
  intros H. revert current. induction fuel as [|fuel IH]; intros current; simpl;
    [reflexivity|].
  destruct (current + duration <=? session_end); [|reflexivity].
  unfold _is_slot_available. rewrite H, IH. reflexivity.
Qed.

Lemma all_session_slots_ext (fuel : nat) (l1 l2 : list Appointment.t)
    (date_str : string) (duration step : Z) (sessions : list Session.t) :
  _get_booked_slots l1 date_str = _get_booked_slots l2 date_str ->
  all_session_slots fuel l1 date_str duration step sessions
  = all_session_slots fuel l2 date_str duration step sessions.
Proof.
  intros H. induction sessions as [|x l IH]; simpl; [reflexivity|].
  destruct (_time_to_minutes (Session.start x)); simpl; try reflexivity.
  destruct (_time_to_minutes (Session.end_ x)); simpl; try reflexivity.
  rewrite (session_slots_ext fuel l1 l2 _ _ _ _ _ H), IH. reflexivity.
Qed.

(** The answer depends on the ledger through the confirmed appointments of
    the date only. *)
Lemma get_availability_ext (fuel : nat) (c1 c2 : Calendly.t) (now : datetime)
    (date_str appointment_type : string) :
  Calendly.schedule c1 = Calendly.schedule c2 ->
  _get_booked_slots (Calendly.bookings c1) date_str
  = _get_booked_slots (Calendly.bookings c2) date_str ->
  get_availability fuel c1 now date_str appointment_type
  = get_availability fuel c2 now date_str appointment_type.
Proof.
  intros Hs Hb. unfold get_availability. rewrite Hs.
  destruct (except_ValueError _ _) as [[resp|]| |]; simpl; try reflexivity.
  destruct (_is_working_day _ _) as [[|]| |]; simpl; try reflexivity.
  destruct (_get_appointment_duration _ _); simpl; try reflexivity.
  destruct (_get_working_sessions _ _); simpl; try reflexivity.
  rewrite (all_session_slots_ext fuel _ _ _ _ _ _ Hb). reflexivity.
Qed.

(** X24: when no older record carries the id that a booking returns,
    cancelling that id succeeds and every answer is again what it was
    before the booking. *)
Lemma book_cancel_restores_fresh (c c' : Calendly.t) (now now2 : datetime)
    (draws : nat -> nat) (request : BookingRequest.t) (response : BookingResponse.t) :
  book_appointment c now draws request = Ok (response, c') ->
  find_booking (Calendly.bookings c) (BookingResponse.booking_id response) = None ->
  fst (cancel_booking c' now2 (BookingResponse.booking_id response)) = true /\
  forall fuel now' date_str appointment_type,
    get_availability fuel
      (snd (cancel_booking c' now2 (BookingResponse.booking_id response)))
      now' date_str appointment_type
    = get_availability fuel c now' date_str appointment_type.
Proof.
  intros Hb Hfresh.
  apply book_appointment_inv in Hb
    as (date_obj & duration & s & sessions & _ & _ & _ & _ & _ & _ & _ & _
        & Hid & _ & _ & ->).
  rewrite Hid in *. unfold cancel_booking. simpl.
  set (record := booked_record now draws request (_minutes_to_time (s + duration))).
  change (_generate_booking_id now draws) with (Appointment.booking_id record) in *.
  rewrite (cancel_first_snoc_fresh now2 _ record Hfresh). simpl.
  split; [reflexivity|]. intros fuel now' date_str appointment_type.
  apply get_availability_ext; [reflexivity|]. simpl.
  apply booked_slots_cancelled.
Qed.

(** A slot that starts at the time of a booking that was accepted on [c]
    is flagged available in the answers computed on [c]. *)
Lemma bookable_slot_available (fuel : nat) (c c' : Calendly.t) (now now' : datetime)
    (draws : nat -> nat) (request : BookingRequest.t)
    (response : BookingResponse.t) (r : AvailabilityResponse.t) (slot : TimeSlot.t) :
  book_appointment c now draws request = Ok (response, c') ->
  get_availability fuel c now' (BookingRequest.date request)
    (AppointmentType_value (BookingRequest.appointment_type request)) = Ok r ->
  In slot (AvailabilityResponse.available_slots r) ->
  _time_to_minutes (TimeSlot.start_time slot)
  = _time_to_minutes (BookingRequest.start_time request) ->
  TimeSlot.available slot = true.
Proof.
  intros Hb Hq Hin Hstart.
  apply book_appointment_inv in Hb
    as (date_obj & duration & s & sessions & _ & _ & _ & Hdur & Hs & Hfree & _).
  destruct (get_availability_inv _ _ _ _ _ _ _ Hq Hin)
    as (d & cur & Hd & Hst & Het & Hav).
  assert (d = duration) as -> by congruence.
  rewrite Hs, Hst, time_roundtrip in Hstart. injection Hstart as ->.
  rewrite (is_slot_available_minutes _ _ _ _ (BookingRequest.start_time request)
             (_minutes_to_time (s + duration)) s (s + duration)) in Hav
    by auto using time_roundtrip.
  congruence.
Qed.

(** C6, at the input where it fails.  The sample ledger holds a confirmed
    09:00 consultation under the id APPT-20250106-0000.  The 09:40 slot is
    booked and the generator draws 0000 again; the booking id returned is
    then cancelled.  The cancellation hits the 09:00 record: afterwards
    the 09:40 slot is still flagged unavailable, and the 09:00 one is
    flagged available. *)
Theorem book_cancel_collision_keeps_slot_unavailable :
  match get_availability 100 (run collision_ops sample_calendly) sample_now
          "2025-01-06" "consultation" with
  | Ok r => map (fun s => (TimeSlot.start_time s, TimeSlot.available s))
                (firstn 2 (AvailabilityResponse.available_slots r))
  | _ => []
  end = [("09:00", true); ("09:40", false)] /\
  map (fun a => (Appointment.booking_id a, Appointment.start_time a, Appointment.status a))
      (Calendly.bookings (run collision_ops sample_calendly))
  = [("APPT-20250106-0000", "09:00", "cancelled");
     ("APPT-20250106-0123", "11:00", "confirmed");
     ("APPT-20250106-0000", "09:40", "confirmed")].
Proof. split; vm_compute; reflexivity. Qed.

(** ** Ledgers the program builds can be read *)

Lemma readable_apply_op (c : Calendly.t) (op : Op) :
  Forall (fun a => is_Some (appt_interval a)) (Calendly.bookings c) ->
  Forall (fun a => is_Some (appt_interval a)) (Calendly.bookings (apply_op c op)).
Proof.
  intros Hr. destruct op as [now draws request|now booking_id]; simpl.
  - destruct (book_appointment c now draws request) as [[response c']| |] eqn:Hb;
      try exact Hr.
    apply book_appointment_inv in Hb
      as (date_obj & duration & s & sessions & _ & _ & _ & _ & Hs & _ & _ & _
          & _ & _ & _ & ->).
    simpl. apply Forall_app. split; [exact Hr|]. repeat constructor.
    exists (s, s + duration). apply appt_interval_Some. simpl.
    auto using time_roundtrip.
  - unfold cancel_booking.
    destruct (cancel_first now booking_id (Calendly.bookings c)) as [l|] eqn:Hc;
      simpl; [|exact Hr].
    apply cancel_first_Some in Hc as (k & a & Hk & _ & _ & ->).
    apply Forall_insert; [exact Hr|].
    rewrite Forall_lookup in Hr. apply (Hr k a Hk).
Qed.

(** X27: every ledger reached from a readable one, the empty one for instance,
    is readable: the hypothesis [times_parse] of the statements on
    bookings and slots holds along every run. *)
Lemma readable_run (ops : list Op) (c : Calendly.t) :
  Forall (fun a => is_Some (appt_interval a)) (Calendly.bookings c) ->
  forall date_str, times_parse (Calendly.bookings (run ops c)) date_str.
Proof.
  intros Hr date_str.
  assert (H : Forall (fun a => is_Some (appt_interval a)) (Calendly.bookings (run ops c))).
  { revert c Hr. unfold run. induction ops as [|op ops IH]; simpl; intros c Hr;
      [exact Hr|]. apply IH. apply readable_apply_op. exact Hr. }
  unfold times_parse. eapply Forall_impl; [exact H|]. simpl. auto.
Qed.

(** A request that passed the constructor has a start time that can be
    read. *)
Lemma validated_request_start (ty : AppointmentType)
    (date start_time reason : string) (patient : PatientInfo.t)
    (request : BookingRequest.t) :
  BookingRequest_new ty date start_time patient reason = Ok request ->
  matches_ymd (BookingRequest.date request) = true /\
  exists m, _time_to_minutes (BookingRequest.start_time request) = Ok m /\ 0 <= m < 6040.
Proof.
  unfold BookingRequest_new. intros H.
  destruct (matches_ymd date) eqn:Hd; cbn [andb] in H; [|discriminate H].
  destruct (matches_hhmm start_time) eqn:Ht; cbn [andb] in H; [|discriminate H].
  destruct (5 <=? String.length reason)%nat; cbn [andb] in H; [|discriminate H].
  destruct (String.length reason <=? 500)%nat; [|discriminate H].
  injection H as <-. simpl. split; [exact Hd | apply matches_hhmm_parses; exact Ht].
Qed.

(** ** The past-date guard compares calendar days *)





(** At 15:30 on that Monday the morning candidates are still listed, and
    those not booked are still flagged available. *)
Example elapsed_slots_still_available :
  dt_minutes sample_now = 930 /\
  match get_availability 100 sample_calendly sample_now "2025-01-06" "consultation" with
  | Ok r => map (fun s => (TimeSlot.start_time s, TimeSlot.available s))
                (firstn 3 (AvailabilityResponse.available_slots r))
  | _ => []
  end = [("09:00", false); ("09:40", true); ("10:20", true)].
Proof. split; vm_compute; reflexivity. Qed.

(** ** The phone number of a patient *)

Lemma match_plus {A : Type} (c : ascii) (a b : A) :
  match c with
  | "+"%char => a
  | _ => b
  end = if Ascii.eqb c "+" then a else b.
Proof. destruct c as [[|] [|] [|] [|] [|] [|] [|] [|]]; reflexivity. Qed.

Lemma phone_char_split (c : ascii) : phone_char c = is_digit c || is_separator c.
Proof.
  unfold phone_char, is_separator.
  destruct (is_digit c), (is_space c), (Ascii.eqb c "-"), (Ascii.eqb c "("),
    (Ascii.eqb c ")"); reflexivity.
Qed.

Lemma digit_not_separator (c : ascii) : is_digit c = true -> is_separator c = false.
Proof.
  intros H. apply is_digit_cases in H. simpl in H.
  repeat (destruct H as [<-|H]; [reflexivity|]). destruct H.
Qed.

Lemma phone_char_not_plus (c : ascii) : phone_char c = true -> Ascii.eqb c "+" = false.
Proof.
  intros H. destruct (Ascii.eqb_spec c "+") as [->|]; [discriminate H | reflexivity].
Qed.

(** On a string of the character class: stripping leaves the digits. *)
Lemma strip_phone_chars (r : string) :
  all_chars phone_char r = all_chars is_digit (strip_separators r).
Proof.
  induction r as [|c r IH]; simpl; [reflexivity|].
  rewrite phone_char_split.
  destruct (is_separator c) eqn:Hs; simpl.
  - rewrite orb_true_r. exact IH.
  - rewrite orb_false_r, IH. reflexivity.
Qed.

Lemma strip_length (r : string) :
  all_chars phone_char r = true ->
  String.length (strip_separators r) = count_chars is_digit r /\
  count_chars (fun c => is_digit c || Ascii.eqb c "+") r = count_chars is_digit r.
Proof.
  induction r as [|c r IH]; simpl; [auto|].
  intros H. apply andb_prop in H as [Hc Hr]. destruct (IH Hr) as [IH1 IH2].
  rewrite (phone_char_not_plus _ Hc), orb_false_r, IH2.
  rewrite phone_char_split in Hc.
  destruct (is_digit c) eqn:Hd.
  - rewrite (digit_not_separator _ Hd). simpl. auto.
  - simpl in Hc. rewrite Hc. auto.
Qed.

Lemma count_le_length (p : ascii -> bool) (r : string) :
  (count_chars p r <= String.length r)%nat.
Proof. induction r as [|c r IH]; simpl; [lia|]. destruct (p c); lia. Qed.

(** The accepted numbers: those the specification describes, and those
    made of a plus sign and exactly nine digits. *)
Lemma phone_accepted_iff (v : string) :
  phone_accepted v = true <->
  spec_phone_ok v = true \/
  exists r, v = String "+" r /\ all_chars phone_char r = true /\
            count_chars is_digit r = 9%nat.
Proof.
  unfold phone_accepted, spec_phone_ok, phone_pattern, validate_phone.
  destruct v as [|c r]; [simpl; split; [discriminate | intros [H|(r & H & _)]; discriminate]|].
  rewrite !match_plus.
  destruct (Ascii.eqb_spec c "+") as [->|Hne].
  - change (count_chars (fun c => is_digit c || Ascii.eqb c "+") (String "+" r))
      with (S (count_chars (fun c => is_digit c || Ascii.eqb c "+") r)).
    rewrite <- strip_phone_chars.
    destruct (all_chars phone_char r) eqn:Hr.
    + destruct (strip_length r Hr) as [-> ->].
      pose proof (count_le_length is_digit r) as Hle.
      destruct (S (count_chars is_digit r) <? 10)%nat eqn:Hlt.
      * apply Nat.ltb_lt in Hlt. rewrite andb_false_r.
        split; [discriminate|]. intros [H|(r' & [= <-] & _ & H)]; [|lia].
        apply andb_prop in H as [_ H]. apply Nat.leb_le in H. lia.
      * apply Nat.ltb_ge in Hlt. split; intros _.
        -- destruct (Nat.eq_dec (count_chars is_digit r) 9%nat) as [H9|H9];
             [right; eauto|left].
           apply andb_true_intro. split.
           ++ destruct r; [simpl in Hlt; lia | reflexivity].
           ++ apply Nat.leb_le. lia.
        -- destruct r; [simpl in Hlt; lia | reflexivity].
    + rewrite andb_false_r. simpl.
      split; [discriminate|]. intros [H|(r' & [= <-] & H & _)]; [|congruence].
      discriminate H.
  - split.
    + intros H. left. apply andb_prop in H as [Hp Hv].
      apply andb_prop in Hp as [_ Hp].
      destruct (strip_length _ Hp) as [Hlen Hcnt].
      rewrite <- strip_phone_chars, Hp, Hlen. cbn [nonempty andb].
      rewrite Hcnt in Hv.
      destruct (count_chars is_digit (String c r) <? 10)%nat eqn:Hlt;
        [discriminate Hv|].
      apply Nat.ltb_ge in Hlt. apply Nat.leb_le. exact Hlt.
    + intros [H|(r' & [= -> _] & _)]; [|congruence].
      rewrite <- strip_phone_chars in H.
      apply andb_prop in H as [H Hlen]. apply andb_prop in H as [_ Hp].
      destruct (strip_length _ Hp) as [Hl Hcnt].
      rewrite Hl in Hlen. apply Nat.leb_le in Hlen.
      simpl nonempty. cbv iota. rewrite Hp, Hcnt.
      destruct (count_chars is_digit (String c r) <? 10)%nat eqn:Hlt;
        [apply Nat.ltb_lt in Hlt; lia | reflexivity].
Qed.

(** C9, at the input where it fails.  A plus sign and nine digits: the
    pattern accepts the string, the validator counts ten characters, and
    the patient record is built, although the number has nine digits. *)
Theorem phone_plus_nine_digits_accepted :
  phone_accepted "+123456789" = true /\
  count_chars is_digit "+123456789" = 9%nat /\
  spec_phone_ok "+123456789" = false /\
  PatientInfo_new (fun _ => true) "Test Patient" "test@example.com" "+123456789"
  = Ok (PatientInfo.mk "Test Patient" "test@example.com" "+123456789").
Proof. repeat split; vm_compute; reflexivity. Qed.

(** ** A chat turn that fails *)

Lemma get_session_history_spec (sessions : gmap string (list Message.t))
    (session_id : string) :
  fst (_get_session_history sessions session_id) = history_of sessions session_id /\
  history_of (snd (_get_session_history sessions session_id)) session_id
  = history_of sessions session_id.
Proof.
  unfold _get_session_history, history_of.
  destruct (sessions !! session_id) as [h|] eqn:Hs; simpl.
  - rewrite Hs. auto.
  - rewrite lookup_insert_eq. auto.
Qed.

Lemma history_of_add (sessions : gmap string (list Message.t))
    (session_id role : string) (content : option string) :
  history_of (_add_to_session sessions session_id role content) session_id
  = appended (history_of sessions session_id) (Message.mk role content).
Proof.
  unfold _add_to_session, history_of, appended.
  destruct (sessions !! session_id) as [h|] eqn:Hs; simpl.
  - rewrite Hs. simpl.
    destruct (20 <? length (h ++ [Message.mk role content]))%nat;
      rewrite !lookup_insert_eq; reflexivity.
  - rewrite lookup_insert_eq. simpl. rewrite !lookup_insert_eq. reflexivity.
Qed.

(** The apology names the telephone number of the clinic. *)
Lemma apology_has_phone :
  substring 102 (String.length CLINIC_PHONE) APOLOGY = CLINIC_PHONE.
Proof. vm_compute. reflexivity. Qed.

(** C8, as it holds.  A turn in which a model call raises returns the
    fixed apology, which names the clinic's telephone number.  When the
    first call raises, the history of the session is what it was before
    the turn.  When the second call raises, the history is what it was
    immediately before that call: the history from before the turn with
    the assistant's tool-call placeholder appended (under the window of 20
    messages); neither the user's message nor a final reply is kept. *)
Theorem chat_failure_history (SYSTEM_PROMPT : string)
    (create_with_tools : list ApiMessage -> outcome AssistantMessage.t)
    (create_final : list ApiMessage -> outcome (option string))
    (run_tool : ToolCall.t -> outcome string)
    (sessions : gmap string (list Message.t)) (message session_id : string) :
  let result := chat SYSTEM_PROMPT create_with_tools create_final run_tool
                  sessions message session_id in
  let messages :=
    (Plain (Message.mk "system" (Some SYSTEM_PROMPT))
     :: map Plain (history_of sessions session_id)
     ++ [Plain (Message.mk "user" (Some message))])%list in
  substring 102 (String.length CLINIC_PHONE) APOLOGY = CLINIC_PHONE /\
  (forall e, create_with_tools messages = Raised e ->
     ChatReply.response (fst result) = Some APOLOGY /\
     history_of (snd result) session_id = history_of sessions session_id) /\
  (forall assistant_message tool_results e,
     create_with_tools messages = Returned assistant_message ->
     AssistantMessage.tool_calls assistant_message <> [] ->
     run_tools run_tool (AssistantMessage.tool_calls assistant_message)
     = Returned tool_results ->
     create_final
       (messages
        ++ [WithToolCalls (AssistantMessage.content assistant_message)
              (AssistantMessage.tool_calls assistant_message)]
        ++ tool_results)%list = Raised e ->
     ChatReply.response (fst result) = Some APOLOGY /\
     history_of (snd result) session_id
     = appended (history_of sessions session_id)
         (Message.mk "assistant"
            (Some (or_empty (AssistantMessage.content assistant_message))))).
Proof.
  intros result messages. split; [exact apology_has_phone|].
  destruct (get_session_history_spec sessions session_id) as [Hh Hs].
  subst result. unfold chat, chat_body.
  destruct (_get_session_history sessions session_id) as [history sessions1].
  simpl in Hh, Hs. subst history. fold messages. split.
  - intros e He. rewrite He. simpl. auto.
  - intros am results e Ham Hcalls Htools Hfinal. rewrite Ham.
    destruct (AssistantMessage.tool_calls am) as [|tc calls] eqn:Hc; [congruence|].
    rewrite Htools, Hfinal. simpl. split; [reflexivity|].
    rewrite history_of_add, Hs. reflexivity.
Qed.

(** C8 as the claim words it fails: with an empty history, a first call
    that asks for a tool and a second call that raises, the turn returns
    the apology and the session keeps one message of that turn. *)
Lemma chat_second_call_failure_keeps_message :
  let result := chat "You are a scheduling assistant." first_call_asks_tool
                  second_call_down tool_returns ∅ "Book me for Monday" "s1" in
  ChatReply.response (fst result) = Some APOLOGY /\
  history_of ∅ "s1" = [] /\
  history_of (snd result) "s1" = [Message.mk "assistant" (Some EmptyString)] /\
  history_of (snd result) "s1" <> history_of ∅ "s1".
Proof.
  vm_compute. repeat split; try reflexivity. discriminate.
Qed.

Lemma chat_failure_history_witness :
  let result := chat "You are a scheduling assistant." first_call_asks_tool
                  second_call_down tool_returns ∅ "Book me for Monday" "s1" in
  ChatReply.response (fst result) = Some APOLOGY /\
  history_of (snd result) "s1"
  = appended (history_of ∅ "s1") (Message.mk "assistant" (Some EmptyString)).
Proof.
  apply (proj2 (proj2 (chat_failure_history "You are a scheduling assistant."
                         first_call_asks_tool second_call_down tool_returns ∅
                         "Book me for Monday" "s1"))
           (AssistantMessage.mk None [sample_tool_call])
           [ToolResult "call_1" "check_availability" "{}"] "Connection error.");
    [reflexivity | discriminate | reflexivity | reflexivity].
Defined.
(* ===================================================================== *)
(** ** Further properties of the ledger *)
(* ===================================================================== *)

(** *** Minutes and clock strings *)

Lemma split_on_two_digits (a b : ascii) (r : string) :
  is_digit a = true -> is_digit b = true ->
  split_on ":" (String a (String b (String ":" r)))
  = String a (String b EmptyString) :: split_on ":" r.
Proof.
  intros Ha Hb.
  change (String a (String b (String ":" r)))
    with (String a (String b EmptyString) ++ String ":" r).
  apply split_on_colon_app. cbn [all_chars].
  rewrite !andb_true_iff. repeat split.
  - apply is_digit_cases in Ha. simpl in Ha.
    repeat (destruct Ha as [<-|Ha]; [reflexivity|]). destruct Ha.
  - apply is_digit_cases in Hb. simpl in Hb.
    repeat (destruct Hb as [<-|Hb]; [reflexivity|]). destruct Hb.
Qed.

Lemma minutes_to_time_hours (m : Z) :
  split_on ":" (_minutes_to_time m) = [fmt02 (m / 60); fmt02 (m mod 60)].
Proof.
  unfold _minutes_to_time. cbn zeta.
  change (fmt02 (m / 60) ++ ":" ++ fmt02 (m mod 60))
    with (fmt02 (m / 60) ++ String ":" (fmt02 (m mod 60))).
  rewrite split_on_colon_app by apply fmt02_no_colon.
  rewrite split_on_no_colon by apply fmt02_no_colon. reflexivity.
Qed.

Lemma matches_hhmm_minutes (m : Z) :
  matches_hhmm (_minutes_to_time m) = true -> 0 <= m < 6000.
Proof.
  intros H. pose proof (minutes_to_time_hours m) as Hs.
  destruct (_minutes_to_time m) as [|a [|b [|c r]]]; try discriminate H.
  cbn [matches_hhmm] in H. rewrite match_colon in H.
  destruct (Ascii.eqb_spec c ":") as [->|]; [|discriminate H].
  destruct r as [|d [|e [|]]]; try discriminate H.
  apply andb_prop in H as [H He]. apply andb_prop in H as [H Hd].
  apply andb_prop in H as [Ha Hb].
  rewrite (split_on_two_digits a b _ Ha Hb) in Hs.
  injection Hs as Hh _.
  pose proof (py_int_fmt02 (m / 60)) as Hp. rewrite <- Hh in Hp.
  rewrite (py_int_two_digits a b Ha Hb) in Hp. injection Hp as Hp.
  pose proof (digit_val_range a Ha). pose proof (digit_val_range b Hb).
  pose proof (Z.mod_pos_bound m 60 ltac:(lia)).
  pose proof (Z.div_mod m 60 ltac:(lia)). lia.
Qed.

(** X1: the two conversions between minutes and clock strings.  Reading
    back the string written for any number of minutes, negative ones
    included, gives that number; the string written has the shape
    [dd:dd] that a time slot requires exactly for the minutes from 00:00
    up to 99:59. *)
Theorem minutes_time_round_trip (m : Z) :
  _time_to_minutes (_minutes_to_time m) = Ok m /\
  (matches_hhmm (_minutes_to_time m) = true <-> 0 <= m < 6000).
Proof.
  split; [apply time_roundtrip|].
  split; [apply matches_hhmm_minutes | apply minutes_to_time_matches].
Qed.

(** *** A listed slot can be booked *)

(** With a step that does not advance, the loop of a session never ends. *)
Lemma session_slots_stuck (fuel : nat) (ledger : list Appointment.t)
    (date_str : string) (duration step session_end current : Z)
    (slots : list TimeSlot.t) :
  step <= 0 -> current + duration <= session_end ->
  session_slots fuel ledger date_str duration step session_end current <> Ok slots.
Proof.
  intros Hstep. revert current slots.
  induction fuel as [|fuel IH]; intros current slots Hle; simpl;
    destruct (Z.leb_spec (current + duration) session_end) as [Hl|Hl];
    try lia; try discriminate.
  intros H.
  destruct (_is_slot_available _ _ _ _) as [flag| |]; simpl in H; try discriminate H.
  destruct (TimeSlot.new _ _ _ _) as [slot| |]; simpl in H; try discriminate H.
  destruct (session_slots _ _ _ _ _ _ _) as [more| |] eqn:E1; simpl in H;
    try discriminate H.
  apply IH in E1; [exact E1 | lia].
Qed.

(** Where the slots of one session start, and what they carry. *)
Lemma session_slots_bounds (fuel : nat) (ledger : list Appointment.t)
    (date_str : string) (duration step session_end current : Z)
    (slots : list TimeSlot.t) :
  session_slots fuel ledger date_str duration step session_end current = Ok slots ->
  Forall (fun slot => exists cur,
            current <= cur /\ cur + duration <= session_end /\
            slot = TimeSlot.mk (_minutes_to_time cur) (_minutes_to_time (cur + duration))
                     (TimeSlot.available slot) None /\
            matches_hhmm (_minutes_to_time cur) = true /\
            matches_hhmm (_minutes_to_time (cur + duration)) = true /\
            _is_slot_available ledger date_str (_minutes_to_time cur)
              (_minutes_to_time (cur + duration)) = Ok (TimeSlot.available slot))
         slots.
Proof.
  revert current slots. induction fuel as [|fuel IH]; intros current slots; simpl;
    destruct (Z.leb_spec (current + duration) session_end) as [Hl|Hl];
    try discriminate; try (intros [= <-]; constructor).
  intros H.
  destruct (_is_slot_available _ _ _ _) as [flag| |] eqn:E; simpl in H;
    try discriminate H.
  destruct (TimeSlot.new _ _ _ _) as [slot| |] eqn:E0; simpl in H;
    try discriminate H.
  destruct (session_slots _ _ _ _ _ _ _) as [more| |] eqn:E1; simpl in H;
    try discriminate H.
  injection H as <-.
  unfold TimeSlot.new in E0.
  destruct (matches_hhmm _ && matches_hhmm _) eqn:Em in E0; [|discriminate E0].
  injection E0 as <-. apply andb_prop in Em as [Em1 Em2].
  constructor.
  - exists current. simpl. repeat split; auto; lia.
  - destruct (Z_le_gt_dec step 0) as [Hs|Hs].
    + destruct more as [|s more]; [constructor|].
      destruct (Z_le_gt_dec (current + step + duration) session_end) as [Hc|Hc].
      * exfalso. eapply session_slots_stuck; [exact Hs | exact Hc | exact E1].
      * exfalso. destruct fuel; simpl in E1;
          destruct (Z.leb_spec (current + step + duration) session_end) as [Hl'|Hl'];
          try lia; discriminate E1.
    + apply IH in E1. eapply Forall_impl; [exact E1|].
      intros s (cur & H1 & H2 & H3). exists cur. split; [lia|]. auto.
Qed.

(** Every listed slot lies inside one of the sessions, in the sense of
    the loop of [book_appointment]. *)
Lemma all_session_slots_bounds (fuel : nat) (ledger : list Appointment.t)
    (date_str : string) (duration step : Z) (sessions : list Session.t)
    (slots : list TimeSlot.t) :
  all_session_slots fuel ledger date_str duration step sessions = Ok slots ->
  Forall (fun slot => exists cur,
            slot = TimeSlot.mk (_minutes_to_time cur) (_minutes_to_time (cur + duration))
                     (TimeSlot.available slot) None /\
            matches_hhmm (_minutes_to_time cur) = true /\
            matches_hhmm (_minutes_to_time (cur + duration)) = true /\
            _is_slot_available ledger date_str (_minutes_to_time cur)
              (_minutes_to_time (cur + duration)) = Ok (TimeSlot.available slot) /\
            in_some_session cur (_minutes_to_time (cur + duration)) sessions = Ok true)
         slots.
Proof.
  revert slots. induction sessions as [|x l IH]; simpl; intros slots H.
  - injection H as <-. constructor.
  - destruct (_time_to_minutes (Session.start x)) as [ss| |] eqn:Ess; simpl in H;
      try discriminate H.
    destruct (_time_to_minutes (Session.end_ x)) as [se| |] eqn:Ese; simpl in H;
      try discriminate H.
    destruct (session_slots _ _ _ _ _ _ _) as [here| |] eqn:Eh; simpl in H;
      try discriminate H.
    destruct (all_session_slots _ _ _ _ _ _) as [more| |] eqn:Em; simpl in H;
      try discriminate H.
    injection H as <-. apply Forall_app. split.
    + apply session_slots_bounds in Eh. eapply Forall_impl; [exact Eh|].
      intros s (cur & H1 & H2 & H3 & H4 & H5 & H6). exists cur.
      repeat split; auto.
      rewrite time_roundtrip. simpl.
      destruct (Z.leb_spec ss cur) as [Hl1|Hl1]; [|lia].
      destruct (Z.leb_spec (cur + duration) se) as [Hl2|Hl2]; [|lia]. reflexivity.
    + specialize (IH more eq_refl). eapply Forall_impl; [exact IH|].
      intros s (cur & H3 & H4 & H5 & H6 & H7). exists cur.
      repeat split; auto.
      rewrite time_roundtrip. simpl. rewrite H7.
      destruct ((ss <=? cur) && (cur + duration <=? se)); reflexivity.
Qed.

(** What an answer with at least one slot tells about the day. *)
Lemma get_availability_listing (fuel : nat) (c : Calendly.t) (now : datetime)
    (date_str appointment_type : string) (r : AvailabilityResponse.t)
    (slot : TimeSlot.t) :
  get_availability fuel c now date_str appointment_type = Ok r ->
  In slot (AvailabilityResponse.available_slots r) ->
  exists (date_obj : dt_date) (duration : Z) (sessions : list Session.t),
    let sch := Calendly.schedule c in
    strptime_ymd date_str = Some date_obj /\
    date_lt date_obj (date_part now) = false /\
    _is_working_day sch date_str = Ok true /\
    _get_appointment_duration sch appointment_type = Ok duration /\
    _get_working_sessions sch date_str = Ok sessions /\
    all_session_slots fuel (Calendly.bookings c) date_str duration
      (duration + Schedule.buffer_minutes sch) sessions
    = Ok (AvailabilityResponse.available_slots r).
Proof.
  unfold get_availability. intros H Hin.
  destruct (strptime_ymd date_str) as [date_obj|] eqn:Hd; simpl in H; [|discriminate H].
  rewrite (get_day_name_parsed _ _ Hd) in H. simpl in H.
  destruct (date_lt date_obj (date_part now)) eqn:Hlt; simpl in H.
  { injection H as <-. destruct Hin. }
  destruct (_is_working_day (Calendly.schedule c) date_str) as [w| |] eqn:Hw;
    simpl in H; try discriminate H.
  destruct w; simpl in H; [|injection H as <-; destruct Hin].
  destruct (_get_appointment_duration _ _) as [d| |] eqn:Hdur; simpl in H;
    try discriminate H.
  destruct (_get_working_sessions _ _) as [sessions| |] eqn:Hs; simpl in H;
    try discriminate H.
  destruct (all_session_slots _ _ _ _ _ _) as [all_slots| |] eqn:Ha; simpl in H;
    try discriminate H.
  injection H as <-. simpl.
  exists date_obj, d, sessions. auto 10.
Qed.

(** The booking of a slot that an answer lists, on the ledger the answer
    was computed from and on the same day. *)
Lemma book_listed_slot (fuel : nat) (c : Calendly.t) (now now' : datetime)
    (draws : nat -> nat) (request : BookingRequest.t)
    (r : AvailabilityResponse.t) (slot : TimeSlot.t) :
  get_availability fuel c now (BookingRequest.date request)
    (AppointmentType_value (BookingRequest.appointment_type request)) = Ok r ->
  In slot (AvailabilityResponse.available_slots r) ->
  BookingRequest.start_time request = TimeSlot.start_time slot ->
  date_part now' = date_part now ->
  if TimeSlot.available slot
  then exists response,
         book_appointment c now' draws request
         = Ok (response,
               Calendly.mk (Calendly.schedule c)
                 (Calendly.bookings c
                  ++ [booked_record now' draws request (TimeSlot.end_time slot)])
                 (Calendly.bookings c
                  ++ [booked_record now' draws request (TimeSlot.end_time slot)]))
  else book_appointment c now' draws request = Raise SlotUnavailableError.
Proof.
  intros Hget Hin Hstart Hnow.
  destruct (get_availability_listing _ _ _ _ _ _ _ Hget Hin)
    as (date_obj & d & sessions & Hd & Hlt & Hw & Hdur & Hs & Hall).
  cbn zeta in *.
  apply all_session_slots_bounds in Hall. rewrite List.Forall_forall in Hall.
  destruct (Hall slot Hin) as (cur & Hslot & Hm1 & Hm2 & Hav & Hin_s).
  unfold book_appointment. cbn zeta.
  rewrite Hd. simpl. rewrite Hnow, Hlt, Hw. simpl. rewrite Hdur. simpl.
  rewrite Hstart. rewrite Hslot. simpl.
  rewrite time_roundtrip. simpl. rewrite Hav. simpl.
  destruct (TimeSlot.available slot); simpl; [|reflexivity].
  rewrite Hs. simpl. rewrite Hin_s. simpl.
  unfold _get_appointment_duration in Hdur.
  destruct (Schedule.appointment_types (Calendly.schedule c) !! _) as [info|] eqn:Hi;
    simpl in Hdur; [|discriminate Hdur].
  simpl. rewrite (get_day_name_parsed _ _ Hd). simpl.
  eexists. unfold _save_bookings, booked_record. simpl.
  rewrite Hstart, Hslot. simpl. reflexivity.
Qed.

(** X2: a slot of an availability answer, booked on the ledger the
    answer was computed from and on the same day.  When the answer marks
    the slot available the booking succeeds and appends one record, which
    ends where the slot ends; when it marks the slot taken the booking is
    refused as not available.  No listed slot is refused for lying outside
    the working hours or for any other reason. *)
Theorem listed_slot_is_bookable (fuel : nat) (c : Calendly.t) (now now' : datetime)
    (draws : nat -> nat) (request : BookingRequest.t)
    (r : AvailabilityResponse.t) (slot : TimeSlot.t) :
  get_availability fuel c now (BookingRequest.date request)
    (AppointmentType_value (BookingRequest.appointment_type request)) = Ok r ->
  In slot (AvailabilityResponse.available_slots r) ->
  BookingRequest.start_time request = TimeSlot.start_time slot ->
  date_part now' = date_part now ->
  match book_appointment c now' draws request with
  | Ok (response, c') =>
      TimeSlot.available slot = true /\
      exists record,
        Calendly.bookings c' = (Calendly.bookings c ++ [record])%list /\
        Appointment.status record = "confirmed" /\
        Appointment.date record = BookingRequest.date request /\
        Appointment.start_time record = TimeSlot.start_time slot /\
        Appointment.end_time record = TimeSlot.end_time slot
  | Raise e => TimeSlot.available slot = false /\ e = SlotUnavailableError
  | Timeout => False
  end.
Proof.
  intros Hget Hin Hstart Hnow.
  pose proof (book_listed_slot fuel c now now' draws request r slot
                Hget Hin Hstart Hnow) as H.
  destruct (TimeSlot.available slot).
  - destruct H as (response & ->). split; [reflexivity|].
    eexists. split; [reflexivity|]. simpl. auto.
  - rewrite H. auto.
Qed.

Lemma listed_slot_is_bookable_witness :
  get_availability 100 sample_calendly sample_now "2025-01-06" "consultation"
  = Ok monday_answer /\
  match book_appointment sample_calendly sample_now zero_draws
          (sample_request "2025-01-06" "09:40") with
  | Ok (response, c') =>
      true = true /\
      exists record,
        Calendly.bookings c' = (sample_ledger ++ [record])%list /\
        Appointment.status record = "confirmed" /\
        Appointment.date record = "2025-01-06" /\
        Appointment.start_time record = "09:40" /\
        Appointment.end_time record = "10:10"
  | Raise e => true = false /\ e = SlotUnavailableError
  | Timeout => False
  end.
Proof.
  assert (Hget : get_availability 100 sample_calendly sample_now "2025-01-06"
                   "consultation" = Ok monday_answer) by (vm_compute; reflexivity).
  split; [exact Hget|].
  apply (listed_slot_is_bookable 100 sample_calendly sample_now sample_now
           zero_draws (sample_request "2025-01-06" "09:40") monday_answer
           (TimeSlot.mk "09:40" "10:10" true None)).
  - exact Hget.
  - simpl. auto.
  - reflexivity.
  - reflexivity.
Defined.

(** *** One date does not disturb another *)

Lemma booked_slots_other_date (x : Appointment.t) (date_str : string) :
  Appointment.date x <> date_str -> _get_booked_slots [x] date_str = [].
Proof.
  intros Hne. simpl.
  destruct (String.eqb_spec (Appointment.date x) date_str); [contradiction|reflexivity].
Qed.

Lemma cancel_first_other_date (now : datetime) (booking_id date_str : string)
    (ledger ledger' : list Appointment.t) :
  cancel_first now booking_id ledger = Some ledger' ->
  (forall a, find_booking ledger booking_id = Some a -> Appointment.date a <> date_str) ->
  _get_booked_slots ledger' date_str = _get_booked_slots ledger date_str.
Proof.
  revert ledger'. induction ledger as [|x l IH]; simpl; intros ledger' H Hd;
    [discriminate H|].
  destruct (String.eqb (Appointment.booking_id x) booking_id).
  - injection H as <-. specialize (Hd x eq_refl). simpl.
    destruct (String.eqb_spec (Appointment.date x) date_str); [contradiction|].
    reflexivity.
  - destruct (cancel_first now booking_id l) as [l'|]; [|discriminate H].
    injection H as <-. simpl. rewrite (IH l' eq_refl Hd). reflexivity.
Qed.

(** X3: a booking for another date, or the cancellation of a record of
    another date, whether it succeeds or not, leaves the availability
    answer for this date as it was, for every appointment type and at
    every time of asking. *)
Theorem other_dates_do_not_interfere (fuel : nat) (c : Calendly.t) (op : Op)
    (now' : datetime) (date_str appointment_type : string) :
  on_another_date c op date_str ->
  get_availability fuel (apply_op c op) now' date_str appointment_type
  = get_availability fuel c now' date_str appointment_type.
Proof.
  intros Hop. destruct op as [now draws request | now booking_id]; simpl in *.
  - destruct (book_appointment c now draws request) as [[response c']| |] eqn:Hb;
      try reflexivity.
    destruct (book_appointment_inv _ _ _ _ _ _ Hb)
      as (date_obj & duration & start_mins & sessions & H). cbn zeta in H.
    destruct H as (_ & _ & _ & _ & _ & _ & _ & _ & _ & _ & _ & ->).
    apply get_availability_ext; [reflexivity|]. simpl.
    rewrite booked_slots_snoc, booked_slots_other_date by exact Hop.
    apply app_nil_r.
  - unfold cancel_booking.
    destruct (cancel_first now booking_id (Calendly.bookings c)) as [l'|] eqn:Hc;
      [|reflexivity].
    apply get_availability_ext; [reflexivity|]. simpl.
    eapply cancel_first_other_date; [exact Hc | exact Hop].
Qed.

Lemma other_dates_do_not_interfere_witness :
  get_availability 100
    (apply_op sample_calendly
       (Book sample_now zero_draws (sample_request "2025-01-07" "09:40")))
    sample_now "2025-01-06" "consultation"
  = get_availability 100 sample_calendly sample_now "2025-01-06" "consultation".
Proof.
  apply (other_dates_do_not_interfere 100 sample_calendly
           (Book sample_now zero_draws (sample_request "2025-01-07" "09:40"))
           sample_now "2025-01-06" "consultation").
  simpl. discriminate.
Defined.

(** *** The ledger only grows *)

Lemma kept_or_cancelled_refl (a : Appointment.t) : kept_or_cancelled a a.
Proof. left. reflexivity. Qed.

Lemma kept_or_cancelled_trans (a b c : Appointment.t) :
  kept_or_cancelled a b -> kept_or_cancelled b c -> kept_or_cancelled a c.
Proof.
  intros [->|[n1 ->]] [->|[n2 ->]].
  - left. reflexivity.
  - right. exists n2. reflexivity.
  - right. exists n1. reflexivity.
  - right. exists n2. reflexivity.
Qed.

Lemma apply_op_grows (c : Calendly.t) (op : Op) :
  (length (Calendly.bookings c) <= length (Calendly.bookings (apply_op c op)))%nat /\
  forall k a, Calendly.bookings c !! k = Some a ->
    exists a', Calendly.bookings (apply_op c op) !! k = Some a' /\
               kept_or_cancelled a a'.
Proof.
  destruct op as [now draws request | now booking_id]; simpl.
  - destruct (book_appointment c now draws request) as [[response c']| |] eqn:Hb;
      try (split; [lia | intros k a Hk; exists a; split;
                          [exact Hk | apply kept_or_cancelled_refl]]).
    destruct (book_appointment_inv _ _ _ _ _ _ Hb)
      as (date_obj & duration & start_mins & sessions & H). cbn zeta in H.
    destruct H as (_ & _ & _ & _ & _ & _ & _ & _ & _ & _ & _ & ->). simpl.
    split; [rewrite length_app; lia|].
    intros k a Hk. exists a. split; [|apply kept_or_cancelled_refl].
    apply lookup_app_l_Some. exact Hk.
  - unfold cancel_booking.
    destruct (cancel_first now booking_id (Calendly.bookings c)) as [l'|] eqn:Hc; simpl.
    + destruct (cancel_first_Some _ _ _ _ Hc) as (k0 & a0 & Hk0 & _ & _ & ->).
      split; [rewrite length_insert; lia|].
      intros k a Hk. destruct (decide (k0 = k)) as [->|Hne].
      * exists (mark_cancelled now a0). split.
        -- apply list_lookup_insert_eq. apply lookup_lt_Some in Hk. exact Hk.
        -- right. exists now. congruence.
      * exists a. split; [|apply kept_or_cancelled_refl].
        rewrite list_lookup_insert_ne by exact Hne. exact Hk.
    + split; [lia|]. intros k a Hk. exists a.
      split; [exact Hk | apply kept_or_cancelled_refl].
Qed.

(** X4: the ledger is append-only.  Along any sequence of bookings and
    cancellations no record is removed or moved: the record at a position
    stays at that position and is either untouched or carries the two
    fields a cancellation assigns (status and time of cancellation); all
    its other fields are as stored.  A record that is still confirmed is
    exactly the record that was stored. *)
Theorem ledger_append_only (ops : list Op) (c : Calendly.t) :
  (length (Calendly.bookings c) <= length (Calendly.bookings (run ops c)))%nat /\
  forall k a, Calendly.bookings c !! k = Some a ->
    exists a', Calendly.bookings (run ops c) !! k = Some a' /\
               kept_or_cancelled a a' /\
               (is_confirmed a' = true -> a' = a).
Proof.
  assert (Hrun : (length (Calendly.bookings c)
                  <= length (Calendly.bookings (run ops c)))%nat /\
                 forall k a, Calendly.bookings c !! k = Some a ->
                   exists a', Calendly.bookings (run ops c) !! k = Some a' /\
                              kept_or_cancelled a a').
  { unfold run. revert c. induction ops as [|op ops IH]; intros c; simpl.
    - split; [lia|]. intros k a Hk. exists a.
      split; [exact Hk | apply kept_or_cancelled_refl].
    - destruct (apply_op_grows c op) as [Hlen Hkeep].
      destruct (IH (apply_op c op)) as [Hlen' Hkeep'].
      split; [lia|]. intros k a Hk.
      destruct (Hkeep k a Hk) as (a1 & Hk1 & H1).
      destruct (Hkeep' k a1 Hk1) as (a2 & Hk2 & H2).
      exists a2. split; [exact Hk2 | eapply kept_or_cancelled_trans; eassumption]. }
  destruct Hrun as [Hlen Hkeep]. split; [exact Hlen|].
  intros k a Hk. destruct (Hkeep k a Hk) as (a' & Hk' & H).
  exists a'. repeat split; auto.
  intros Hconf. destruct H as [->|[now ->]]; [reflexivity|].
  rewrite mark_cancelled_not_confirmed in Hconf. discriminate Hconf.
Qed.

(** *** The file follows the ledger *)

Lemma apply_op_synced (c : Calendly.t) (op : Op) :
  Calendly.bookings_file c = Calendly.bookings c ->
  Calendly.bookings_file (apply_op c op) = Calendly.bookings (apply_op c op).
Proof.
  intros Hs. destruct op as [now draws request | now booking_id]; simpl.
  - destruct (book_appointment c now draws request) as [[response c']| |] eqn:Hb;
      try exact Hs.
    destruct (book_appointment_inv _ _ _ _ _ _ Hb)
      as (date_obj & duration & start_mins & sessions & H). cbn zeta in H.
    destruct H as (_ & _ & _ & _ & _ & _ & _ & _ & _ & _ & _ & ->). reflexivity.
  - unfold cancel_booking.
    destruct (cancel_first now booking_id (Calendly.bookings c)); simpl;
      [reflexivity | exact Hs].
Qed.

Lemma apply_op_schedule (c : Calendly.t) (op : Op) :
  Calendly.schedule (apply_op c op) = Calendly.schedule c.
Proof.
  destruct op as [now draws request | now booking_id]; simpl.
  - destruct (book_appointment c now draws request) as [[response c']| |] eqn:Hb;
      try reflexivity.
    destruct (book_appointment_inv _ _ _ _ _ _ Hb)
      as (date_obj & duration & start_mins & sessions & H). cbn zeta in H.
    destruct H as (_ & _ & _ & _ & _ & _ & _ & _ & _ & _ & _ & ->). reflexivity.
  - unfold cancel_booking.
    destruct (cancel_first now booking_id (Calendly.bookings c)); reflexivity.
Qed.

Lemma run_synced (ops : list Op) (c : Calendly.t) :
  Calendly.bookings_file c = Calendly.bookings c ->
  Calendly.bookings_file (run ops c) = Calendly.bookings (run ops c) /\
  Calendly.schedule (run ops c) = Calendly.schedule c.
Proof.
  unfold run. revert c. induction ops as [|op ops IH]; intros c Hs; simpl; [auto|].
  destruct (IH (apply_op c op) (apply_op_synced c op Hs)) as [H1 H2].
  split; [exact H1|]. rewrite H2. apply apply_op_schedule.
Qed.

(** X5: the bookings file mirrors the ledger.  Starting from what
    [_load_bookings] builds (from the file, or empty when there is none),
    after any sequence of bookings and cancellations the file holds
    exactly the ledger in memory and the schedule is the one loaded, so
    that loading again from the file gives back the same state. *)
Theorem ledger_survives_restart (sch : Schedule.t)
    (file : option (list Appointment.t)) (ops : list Op) :
  let c := run ops (_load_bookings sch file) in
  Calendly.bookings_file c = Calendly.bookings c /\
  Calendly.schedule c = sch /\
  _load_bookings sch (Some (Calendly.bookings_file c)) = c.
Proof.
  cbn zeta.
  assert (H0 : Calendly.bookings_file (_load_bookings sch file)
               = Calendly.bookings (_load_bookings sch file))
    by (destruct file; reflexivity).
  destruct (run_synced ops _ H0) as [H1 H2].
  assert (H3 : Calendly.schedule (run ops (_load_bookings sch file)) = sch)
    by (rewrite H2; destruct file; reflexivity).
  repeat split; auto. clear H0 H2.
  destruct (run ops (_load_bookings sch file)) as [s b f]. simpl in *.
  subst. reflexivity.
Qed.

(** *** Cancelling and looking up *)

Lemma cancel_first_find (now : datetime) (booking_id : string)
    (ledger : list Appointment.t) :
  match find_booking ledger booking_id with
  | Some a =>
      exists ledger', cancel_first now booking_id ledger = Some ledger' /\
                      find_booking ledger' booking_id = Some (mark_cancelled now a) /\
                      forall other, other <> booking_id ->
                        find_booking ledger' other = find_booking ledger other
  | None => cancel_first now booking_id ledger = None
  end.
Proof.
  induction ledger as [|x l IH]; simpl; [reflexivity|].
  destruct (String.eqb_spec (Appointment.booking_id x) booking_id) as [He|Hne].
  - eexists. split; [reflexivity|]. simpl. rewrite He, String.eqb_refl.
    split; [reflexivity|]. intros other Ho.
    destruct (String.eqb_spec booking_id other); [congruence|reflexivity].
  - destruct (find_booking l booking_id) as [a|].
    + destruct IH as (l' & -> & Hf & Ho). eexists. split; [reflexivity|]. simpl.
      destruct (String.eqb_spec (Appointment.booking_id x) booking_id);
        [contradiction|].
      split; [exact Hf|]. intros other Hother. rewrite (Ho other Hother). reflexivity.
    + rewrite IH. reflexivity.
Qed.

(** X6: cancelling acts on the record a lookup returns.  A cancellation
    succeeds exactly when [get_booking_by_id] finds the id; afterwards
    the lookup of that id returns the same record marked cancelled at the
    time of the call, a second cancellation of the id succeeds again, and
    the lookup of every other id is unchanged.  When the id is unknown the
    state is untouched. *)
Theorem cancel_then_lookup (c : Calendly.t) (now : datetime) (booking_id : string) :
  let result := cancel_booking c now booking_id in
  match get_booking_by_id c booking_id with
  | Some a =>
      fst result = true /\
      get_booking_by_id (snd result) booking_id = Some (mark_cancelled now a) /\
      forall now2, fst (cancel_booking (snd result) now2 booking_id) = true
  | None => result = (false, c)
  end /\
  forall other, other <> booking_id ->
    get_booking_by_id (snd result) other = get_booking_by_id c other.
Proof.
  cbn zeta. unfold get_booking_by_id, cancel_booking.
  pose proof (cancel_first_find now booking_id (Calendly.bookings c)) as H.
  destruct (find_booking (Calendly.bookings c) booking_id) as [a|] eqn:Hf.
  - destruct H as (l' & -> & Hf' & Ho). simpl. repeat split; auto.
    intros now2. pose proof (cancel_first_find now2 booking_id l') as H2.
    rewrite Hf' in H2. destruct H2 as (l2 & -> & _). reflexivity.
  - rewrite H. simpl. auto.
Qed.

(** *** The shape of an availability answer *)

(** The counters of an answer, and the absence of appointment ids. *)
Lemma availability_answer_listing_facts (fuel : nat) (c : Calendly.t)
    (now : datetime) (date_str appointment_type : string)
    (r : AvailabilityResponse.t) :
  get_availability fuel c now date_str appointment_type = Ok r ->
  AvailabilityResponse.date r = date_str /\
  AvailabilityResponse.total_slots r = length (AvailabilityResponse.available_slots r) /\
  AvailabilityResponse.available_count r
  = length (List.filter TimeSlot.available (AvailabilityResponse.available_slots r)) /\
  Forall (fun slot => TimeSlot.appointment_id slot = None)
         (AvailabilityResponse.available_slots r).
Proof.
  intros H.
  assert (Hhead : AvailabilityResponse.date r = date_str /\
                  AvailabilityResponse.total_slots r
                  = length (AvailabilityResponse.available_slots r) /\
                  AvailabilityResponse.available_count r
                  = length (List.filter TimeSlot.available
                              (AvailabilityResponse.available_slots r))).
  { unfold get_availability in H.
    destruct (strptime_ymd date_str) as [date_obj|] eqn:Hd; simpl in H;
      [|discriminate H].
    rewrite (get_day_name_parsed _ _ Hd) in H. simpl in H.
    destruct (date_lt date_obj (date_part now)); simpl in H.
    { injection H as <-. simpl. auto. }
    destruct (_is_working_day (Calendly.schedule c) date_str) as [w| |];
      simpl in H; try discriminate H.
    destruct w; simpl in H; [|injection H as <-; simpl; auto].
    bind_inv H. injection H as <-. simpl. auto. }
  destruct Hhead as (H1 & H2 & H3). repeat split; auto.
  rewrite List.Forall_forall. intros slot Hin.
  destruct (get_availability_listing _ _ _ _ _ _ _ H Hin)
    as (date_obj & d & sessions & _ & _ & _ & _ & _ & Hall).
  cbn zeta in Hall.
  apply all_session_slots_bounds in Hall. rewrite List.Forall_forall in Hall.
  destruct (Hall slot Hin) as (cur & -> & _). reflexivity.
Qed.

(** X7: whatever [get_availability] returns is consistent with itself.
    The answer echoes the date asked for; [total_slots] is the number of
    slots listed and [available_count] the number of those marked
    available, hence never more than the total; every slot has both times
    in the shape [dd:dd], carries no appointment id, starts between 00:00
    and 99:59 and ends exactly one appointment duration after its start. *)
Theorem availability_answer_well_formed (fuel : nat) (c : Calendly.t)
    (now : datetime) (date_str appointment_type : string)
    (r : AvailabilityResponse.t) :
  get_availability fuel c now date_str appointment_type = Ok r ->
  AvailabilityResponse.date r = date_str /\
  AvailabilityResponse.total_slots r = length (AvailabilityResponse.available_slots r) /\
  AvailabilityResponse.available_count r
  = length (List.filter TimeSlot.available (AvailabilityResponse.available_slots r)) /\
  (AvailabilityResponse.available_count r <= AvailabilityResponse.total_slots r)%nat /\
  Forall (fun slot =>
            matches_hhmm (TimeSlot.start_time slot) = true /\
            matches_hhmm (TimeSlot.end_time slot) = true /\
            TimeSlot.appointment_id slot = None /\
            exists s d,
              _get_appointment_duration (Calendly.schedule c) appointment_type = Ok d /\
              _time_to_minutes (TimeSlot.start_time slot) = Ok s /\
              _time_to_minutes (TimeSlot.end_time slot) = Ok (s + d) /\
              0 <= s < 6000)
         (AvailabilityResponse.available_slots r).
Proof.
  intros H.
  destruct (availability_answer_listing_facts _ _ _ _ _ _ H) as (H1 & H2 & H3 & _).
  repeat split; auto.
  - rewrite H2, H3. apply filter_length_le.
  - rewrite List.Forall_forall. intros slot Hin.
    destruct (get_availability_listing _ _ _ _ _ _ _ H Hin)
      as (date_obj & d & sessions & _ & _ & _ & Hdur & _ & Hall).
    cbn zeta in Hall.
    apply all_session_slots_bounds in Hall. rewrite List.Forall_forall in Hall.
    destruct (Hall slot Hin) as (cur & -> & Hm1 & Hm2 & _). simpl.
    repeat split; auto.
    exists cur, d. rewrite !time_roundtrip. repeat split; auto;
      apply matches_hhmm_minutes in Hm1; lia.
Qed.

Lemma availability_answer_well_formed_witness :
  AvailabilityResponse.total_slots monday_answer = 12%nat /\
  AvailabilityResponse.available_count monday_answer = 10%nat /\
  AvailabilityResponse.date monday_answer = "2025-01-06" /\
  (AvailabilityResponse.available_count monday_answer
   <= AvailabilityResponse.total_slots monday_answer)%nat.
Proof.
  assert (Hget : get_availability 100 sample_calendly sample_now "2025-01-06"
                   "consultation" = Ok monday_answer) by (vm_compute; reflexivity).
  destruct (availability_answer_well_formed 100 sample_calendly sample_now
              "2025-01-06" "consultation" monday_answer Hget)
    as (H1 & _ & _ & H4 & _).
  split; [reflexivity|]. split; [reflexivity|].
  split; [exact H1 | exact H4].
Defined.

(** *** Only slot generation needs fuel *)

Lemma terminates_bind {A B : Type} (r : result A) (k : A -> result B) :
  terminates r -> (forall a, terminates (k a)) -> terminates (rbind r k).
Proof.
  unfold terminates. destruct r as [a|e|]; simpl; intros H Hk;
    [apply Hk | discriminate | contradiction].
Qed.

Lemma terminates_of_option {A : Type} (e : PyError) (o : option A) :
  terminates (of_option e o).
Proof. destruct o; discriminate. Qed.

Lemma terminates_Ok {A : Type} (a : A) : terminates (Ok a).
Proof. discriminate. Qed.

Lemma terminates_Raise {A : Type} (e : PyError) : terminates (@Raise A e).
Proof. discriminate. Qed.

Lemma terminates_if {A : Type} (b : bool) (r1 r2 : result A) :
  terminates r1 -> terminates r2 -> terminates (if b then r1 else r2).
Proof. destruct b; auto. Qed.

Ltac terminating :=
  repeat first
    [ apply terminates_Ok
    | apply terminates_Raise
    | apply terminates_of_option
    | apply terminates_bind; [|intros ?]
    | apply terminates_if
    | assumption ].

Lemma time_to_minutes_terminates (s : string) : terminates (_time_to_minutes s).
Proof.
  unfold _time_to_minutes.
  destruct (split_on ":" s) as [|h [|m [|]]]; terminating.
Qed.

Lemma no_overlap_terminates (s e : Z) (booked : list BookedSlot.t) :
  terminates (no_overlap s e booked).
Proof.
  induction booked as [|x l IH]; simpl; terminating;
    try apply time_to_minutes_terminates.
Qed.

Lemma is_slot_available_terminates (ledger : list Appointment.t)
    (date_str st et : string) :
  terminates (_is_slot_available ledger date_str st et).
Proof.
  unfold _is_slot_available. terminating;
    try first [apply time_to_minutes_terminates | apply no_overlap_terminates].
Qed.

Lemma get_day_name_terminates (date_str : string) : terminates (_get_day_name date_str).
Proof. unfold _get_day_name. terminating. Qed.

Lemma is_working_day_terminates (sch : Schedule.t) (date_str : string) :
  terminates (_is_working_day sch date_str).
Proof. unfold _is_working_day. terminating; try apply get_day_name_terminates. Qed.

Lemma get_working_sessions_terminates (sch : Schedule.t) (date_str : string) :
  terminates (_get_working_sessions sch date_str).
Proof.
  unfold _get_working_sessions. terminating;
    try first [apply is_working_day_terminates | apply get_day_name_terminates].
Qed.

Lemma in_some_session_terminates (s : Z) (et : string) (sessions : list Session.t) :
  terminates (in_some_session s et sessions).
Proof.
  induction sessions as [|x l IH]; simpl; terminating;
    try apply time_to_minutes_terminates.
Qed.

Lemma book_appointment_terminates (c : Calendly.t) (now : datetime)
    (draws : nat -> nat) (request : BookingRequest.t) :
  terminates (book_appointment c now draws request).
Proof.
  unfold book_appointment. cbn zeta. unfold _get_appointment_duration.
  terminating;
    try first [ apply is_working_day_terminates
          | apply time_to_minutes_terminates
          | apply is_slot_available_terminates
          | apply no_overlap_terminates
          | apply get_working_sessions_terminates
          | apply in_some_session_terminates
          | apply get_day_name_terminates ].
Qed.

(** *** Fuel and the loop of a session *)

Lemma session_slots_terminates (fuel : nat) (ledger : list Appointment.t)
    (date_str : string) (duration step session_end current : Z) :
  0 < step ->
  Z.max 0 (6000 - Z.max 0 current) < Z.of_nat fuel ->
  terminates (session_slots fuel ledger date_str duration step session_end current).
Proof.
  intros Hstep. revert current.
  induction fuel as [|fuel IH]; intros current Hfuel; [lia|].
  simpl. destruct (current + duration <=? session_end); [|apply terminates_Ok].
  apply terminates_bind; [apply is_slot_available_terminates|intros flag].
  unfold TimeSlot.new.
  destruct (matches_hhmm (_minutes_to_time current)) eqn:Hm; simpl;
    [|apply terminates_Raise].
  destruct (matches_hhmm (_minutes_to_time (current + duration))); simpl;
    [|apply terminates_Raise].
  apply matches_hhmm_minutes in Hm.
  apply terminates_bind; [apply IH; lia | intros more; apply terminates_Ok].
Qed.

Lemma all_session_slots_terminates (fuel : nat) (ledger : list Appointment.t)
    (date_str : string) (duration step : Z) (sessions : list Session.t) :
  0 < step -> 6000 < Z.of_nat fuel ->
  terminates (all_session_slots fuel ledger date_str duration step sessions).
Proof.
  intros Hstep Hfuel. induction sessions as [|x l IH]; simpl; [apply terminates_Ok|].
  apply terminates_bind; [apply time_to_minutes_terminates|intros ss].
  apply terminates_bind; [apply time_to_minutes_terminates|intros se].
  apply terminates_bind; [apply session_slots_terminates; lia|intros here].
  apply terminates_bind; [exact IH | intros more; apply terminates_Ok].
Qed.

Lemma session_slots_no_step (fuel : nat) (ledger : list Appointment.t)
    (date_str : string) (duration step session_end current : Z)
    (slots : list TimeSlot.t) :
  step <= 0 ->
  session_slots fuel ledger date_str duration step session_end current = Ok slots ->
  slots = [].
Proof.
  intros Hstep H.
  destruct (Z_le_gt_dec (current + duration) session_end) as [Hc|Hc].
  - exfalso. eapply session_slots_stuck; [exact Hstep | exact Hc | exact H].
  - destruct fuel; simpl in H;
      destruct (Z.leb_spec (current + duration) session_end) as [Hl|Hl];
      try lia; congruence.
Qed.

Lemma all_session_slots_no_step (fuel : nat) (ledger : list Appointment.t)
    (date_str : string) (duration step : Z) (sessions : list Session.t)
    (slots : list TimeSlot.t) :
  step <= 0 ->
  all_session_slots fuel ledger date_str duration step sessions = Ok slots ->
  slots = [].
Proof.
  intros Hstep. revert slots.
  induction sessions as [|x l IH]; simpl; intros slots H; [congruence|].
  destruct (_time_to_minutes (Session.start x)) as [ss| |]; simpl in H;
    try discriminate H.
  destruct (_time_to_minutes (Session.end_ x)) as [se| |]; simpl in H;
    try discriminate H.
  destruct (session_slots _ _ _ _ _ _ _) as [here| |] eqn:Eh; simpl in H;
    try discriminate H.
  destruct (all_session_slots _ _ _ _ _ _) as [more| |] eqn:Em; simpl in H;
    try discriminate H.
  injection H as <-.
  rewrite (session_slots_no_step _ _ _ _ _ _ _ _ Hstep Eh), (IH more eq_refl).
  reflexivity.
Qed.

(** X11: when slot generation ends.  If the duration of the type plus the
    buffer is positive, [get_availability] returns or raises within 6000
    iterations of its loop, whatever the schedule and the ledger hold
    (a slot must start before 100:00 to pass validation).  If that step is
    zero or negative the call never returns a listing with a slot in it:
    as soon as one slot fits a session the loop cannot end. *)
Theorem get_availability_needs_positive_step (fuel : nat) (c : Calendly.t)
    (now : datetime) (date_str appointment_type : string) :
  let sch := Calendly.schedule c in
  ((forall d, _get_appointment_duration sch appointment_type = Ok d ->
              0 < d + Schedule.buffer_minutes sch) ->
   6000 < Z.of_nat fuel ->
   terminates (get_availability fuel c now date_str appointment_type)) /\
  (forall d r,
     _get_appointment_duration sch appointment_type = Ok d ->
     d + Schedule.buffer_minutes sch <= 0 ->
     get_availability fuel c now date_str appointment_type = Ok r ->
     AvailabilityResponse.available_slots r = []).
Proof.
  cbn zeta. split.
  - intros Hstep Hfuel. unfold get_availability. cbn zeta.
    destruct (strptime_ymd date_str) as [date_obj|] eqn:Hd; simpl;
      [|apply terminates_Raise].
    rewrite (get_day_name_parsed _ _ Hd). simpl.
    destruct (date_lt date_obj (date_part now)); simpl; [apply terminates_Ok|].
    apply terminates_bind; [apply is_working_day_terminates|intros w].
    destruct w; simpl; [|apply terminates_Ok].
    destruct (_get_appointment_duration (Calendly.schedule c) appointment_type)
      as [d| |] eqn:Hdur; simpl; [|apply terminates_Raise|].
    + apply terminates_bind; [apply get_working_sessions_terminates|intros sessions].
      apply terminates_bind;
        [apply all_session_slots_terminates; [apply Hstep; reflexivity | exact Hfuel]
        |intros slots; apply terminates_Ok].
    + exfalso. unfold _get_appointment_duration in Hdur.
      destruct (Schedule.appointment_types (Calendly.schedule c) !! appointment_type);
        discriminate Hdur.
  - intros d r Hdur Hstep H.
    destruct (AvailabilityResponse.available_slots r) as [|slot rest] eqn:Hslots;
      [reflexivity|]. exfalso.
    destruct (get_availability_listing fuel c now date_str appointment_type r slot H)
      as (date_obj & d' & sessions & _ & _ & _ & Hdur' & _ & Hall).
    { rewrite Hslots. left. reflexivity. }
    cbn zeta in Hall. rewrite Hdur in Hdur'. injection Hdur' as <-.
    apply all_session_slots_no_step in Hall; [|exact Hstep].
    rewrite Hslots in Hall. discriminate Hall.
Qed.

Lemma get_availability_needs_positive_step_witness :
  terminates (get_availability (Z.to_nat 6001) sample_calendly sample_now
                "2025-01-06" "consultation").
Proof.
  apply (proj1 (get_availability_needs_positive_step (Z.to_nat 6001) sample_calendly
                  sample_now "2025-01-06" "consultation")).
  - intros d Hd. vm_compute in Hd. injection Hd as <-. reflexivity.
  - vm_compute. reflexivity.
Defined.

(* ===================================================================== *)
(** ** The HTTP endpoints of main.py *)
(* ===================================================================== *)





Lemma find_booking_id (ledger : list Appointment.t) (booking_id : string)
    (a : Appointment.t) :
  find_booking ledger booking_id = Some a -> Appointment.booking_id a = booking_id.
Proof.
  induction ledger as [|x l IH]; simpl; [discriminate|].
  destruct (String.eqb_spec (Appointment.booking_id x) booking_id) as [He|Hne].
  - intros [= <-]. exact He.
  - exact IH.
Qed.

(** X9: the route function of POST /api/calendly/book.  For a request
    that is refused it raises [HTTPException] with status code 400 or 500
    and leaves the ledger and the file as they were; the code is 500 for a
    [KeyError] only.  For a request that is accepted it returns the
    booking, the ledger has grown by one confirmed record carrying the
    returned id, and the route function of GET /api/calendly/booking/{id}
    returns a record for that id from then on. *)
Theorem booking_endpoint_status (c : Calendly.t) (now : datetime)
    (draws : nat -> nat) (request : BookingRequest.t) :
  match main.book_appointment_endpoint c now draws request with
  | Ok (Http.Returns booking, c') =>
      exists record,
        book_appointment c now draws request = Ok (booking, c') /\
        Calendly.bookings c' = (Calendly.bookings c ++ [record])%list /\
        Appointment.booking_id record = BookingResponse.booking_id booking /\
        Appointment.status record = "confirmed" /\
        exists found,
          main.get_booking c' (BookingResponse.booking_id booking) = Http.Returns found /\
          Appointment.booking_id found = BookingResponse.booking_id booking
  | Ok (Http.HTTPException code cause, c') =>
      c' = c /\
      exists e, book_appointment c now draws request = Raise e /\
                cause = Some e /\
                code = (if is_ValueError e then 400 else 500) /\
                (code = 500 <-> e = KeyError)
  | Raise _ => False
  | Timeout => False
  end.
Proof.
  unfold main.book_appointment_endpoint.
  destruct (book_appointment c now draws request) as [[booking c']|e|] eqn:Hb.
  - destruct (book_appointment_inv _ _ _ _ _ _ Hb)
      as (date_obj & duration & start_mins & sessions & H). cbn zeta in H.
    destruct H as (_ & _ & _ & _ & _ & _ & _ & _ & Hid & _ & _ & ->).
    eexists. split; [reflexivity|]. split; [reflexivity|].
    split; [simpl; symmetry; exact Hid|]. split; [reflexivity|].
    unfold main.get_booking, get_booking_by_id. simpl.
    rewrite find_booking_snoc.
    destruct (find_booking (Calendly.bookings c) (BookingResponse.booking_id booking))
      as [older|] eqn:Hf.
    + exists older. split; [reflexivity|]. exact (find_booking_id _ _ _ Hf).
    + change (Appointment.booking_id (booked_record now draws request
                (_minutes_to_time (start_mins + duration))))
        with (_generate_booking_id now draws).
      rewrite Hid, String.eqb_refl. eexists. split; reflexivity.
  - split; [reflexivity|]. exists e. repeat split; auto.
    + destruct e; simpl; intros H; try discriminate H; reflexivity.
    + intros ->. reflexivity.
  - exact (book_appointment_terminates c now draws request Hb).
Qed.

(** X10: the route functions of GET and DELETE
    /api/calendly/booking/{id}.  DELETE raises [HTTPException] with status
    code 404 exactly when GET does, and then leaves the state as it was;
    otherwise it returns the id.  After that, GET returns the record that
    GET returned before, now with status cancelled and the time of the
    cancellation, and bookings under every other id are returned as
    before. *)
Theorem booking_endpoints_get_delete (c : Calendly.t) (now : datetime)
    (booking_id : string) :
  let result := main.cancel_booking c now booking_id in
  match main.get_booking c booking_id with
  | Http.Returns booking =>
      fst result = Http.Returns booking_id /\
      main.get_booking (snd result) booking_id
      = Http.Returns (mark_cancelled now booking)
  | Http.HTTPException code _ =>
      code = 404 /\ result = (Http.HTTPException 404 None, c)
  end /\
  forall other, other <> booking_id ->
    main.get_booking (snd result) other = main.get_booking c other.
Proof.
  cbn zeta. unfold main.cancel_booking, main.get_booking, get_booking_by_id,
    cancel_booking.
  pose proof (cancel_first_find now booking_id (Calendly.bookings c)) as H.
  destruct (find_booking (Calendly.bookings c) booking_id) as [a|] eqn:Hf.
  - destruct H as (l' & -> & Hf' & Ho). simpl. rewrite Hf'.
    split; [auto|]. intros other Hother. rewrite (Ho other Hother). reflexivity.
  - rewrite H. simpl. auto.
Qed.

(* ===================================================================== *)
(** ** The agent's tools *)
(* ===================================================================== *)

(** *** The 12-hour display of a slot *)

Lemma display_clock_table :
  forallb (fun n =>
             let k := Z.of_nat n in
             String.eqb (_format_time_12hr (_minutes_to_time k))
               (py_str (if (k / 60) mod 12 =? 0 then 12 else (k / 60) mod 12)
                ++ ":" ++ fmt02 (k mod 60) ++ (if k <? 720 then " AM" else " PM")))
          (seq 0 1440) = true.
Proof. vm_compute. reflexivity. Qed.

Lemma display_beyond_midnight_table :
  forallb (fun n =>
             let k := Z.of_nat n in
             String.eqb (_format_time_12hr (_minutes_to_time k)) (_minutes_to_time k))
          (seq 1440 4560) = true.
Proof. vm_compute. reflexivity. Qed.

Lemma display_distinct_table :
  bool_decide (NoDup ((fun n => _format_time_12hr (_minutes_to_time (Z.of_nat n)))
                      <$> seq 0 1440)) = true.
Proof. vm_compute. reflexivity. Qed.

(** X12: what [_format_time_12hr] shows for the start of a slot.  For a
    time of day (00:00 to 23:59) it is the 12-hour reading: the hour from
    1 to 12 without a leading zero, the minutes on two digits, then AM
    before noon and PM from noon on; two different times of day never
    read the same.  A slot that starts at 24:00 or later (a session may
    run that far) is shown by its 24-hour string unchanged. *)
Theorem format_time_12hr_display :
  (forall k, 0 <= k < 1440 ->
     _format_time_12hr (_minutes_to_time k)
     = py_str (if (k / 60) mod 12 =? 0 then 12 else (k / 60) mod 12)
       ++ ":" ++ fmt02 (k mod 60) ++ (if k <? 720 then " AM" else " PM")) /\
  (forall k1 k2, 0 <= k1 < 1440 -> 0 <= k2 < 1440 ->
     _format_time_12hr (_minutes_to_time k1) = _format_time_12hr (_minutes_to_time k2) ->
     k1 = k2) /\
  (forall k, 1440 <= k < 6000 ->
     _format_time_12hr (_minutes_to_time k) = _minutes_to_time k).
Proof.
  split; [|split].
  - intros k Hk. pose proof display_clock_table as H.
    rewrite forallb_forall in H. specialize (H (Z.to_nat k)).
    cbn zeta in H. rewrite Z2Nat.id in H by lia.
    apply String.eqb_eq. apply H. apply in_seq. lia.
  - intros k1 k2 H1 H2 Heq.
    pose proof display_distinct_table as H. apply bool_decide_eq_true in H.
    set (f := fun n => _format_time_12hr (_minutes_to_time (Z.of_nat n))) in H.
    assert (Hn : Z.to_nat k1 = Z.to_nat k2).
    { apply (proj1 (NoDup_alt (f <$> seq 0 1440)) H _ _
               (_format_time_12hr (_minutes_to_time k1)));
        rewrite list_lookup_fmap, lookup_seq_lt by lia; simpl; unfold f;
        rewrite Z2Nat.id by lia; congruence. }
    lia.
  - intros k Hk. pose proof display_beyond_midnight_table as H.
    rewrite forallb_forall in H. specialize (H (Z.to_nat k)).
    cbn zeta in H. rewrite Z2Nat.id in H by lia.
    apply String.eqb_eq. apply H. apply in_seq. lia.
Qed.

Lemma format_time_12hr_display_witness :
  _format_time_12hr (_minutes_to_time 870) = "2:30 PM" /\
  _format_time_12hr (_minutes_to_time 1500) = "25:00".
Proof.
  split.
  - apply (proj1 format_time_12hr_display 870). lia.
  - apply (proj2 (proj2 format_time_12hr_display) 1500). lia.
Defined.

(** *** check_availability *)

Lemma filter_available_In (slots : list TimeSlot.t) (slot : TimeSlot.t) :
  In slot (List.filter TimeSlot.available slots) ->
  In slot slots /\ TimeSlot.available slot = true.
Proof. intros H. apply filter_In in H. exact H. Qed.


(** X13: the answer of the availability tool.  The tool never raises.
    When the calendar answers, the tool lists the slots the calendar
    marks available, in the calendar's order and with the calendar's
    times, and no other slot; its count is the length of its list and
    equals the calendar's [available_count], hence is at most
    [total_slots]; each entry is displayed by [_format_time_12hr] of its
    start.  When the calendar raises, the tool reports the failure for the
    date asked, as unexpected exactly for a [KeyError]. *)
Theorem check_availability_answer (fuel : nat) (c : Calendly.t) (now : datetime)
    (date appointment_type : string) :
  match availability_tool.check_availability fuel c now date appointment_type with
  | Ok (AvailabilityAnswer.Found d day total n views message) =>
      exists r,
        get_availability fuel c now date appointment_type = Ok r /\
        d = date /\
        total = AvailabilityResponse.total_slots r /\
        n = length views /\
        n = AvailabilityResponse.available_count r /\
        (n <= total)%nat /\
        map (fun v => (SlotView.start_time v, SlotView.end_time v)) views
        = map (fun s => (TimeSlot.start_time s, TimeSlot.end_time s))
              (List.filter TimeSlot.available (AvailabilityResponse.available_slots r)) /\
        Forall (fun v =>
                  In (TimeSlot.mk (SlotView.start_time v) (SlotView.end_time v) true None)
                     (AvailabilityResponse.available_slots r) /\
                  SlotView.display_time v = _format_time_12hr (SlotView.start_time v))
               views
  | Ok (AvailabilityAnswer.Failed unexpected e d) =>
      get_availability fuel c now date appointment_type = Raise e /\
      d = date /\
      (unexpected = true <-> e = KeyError)
  | Raise _ => False
  | Timeout => get_availability fuel c now date appointment_type = Timeout
  end.
Proof.
  unfold availability_tool.check_availability.
  destruct (get_availability fuel c now date appointment_type) as [r|e|] eqn:Hget;
    [| |reflexivity].
  - destruct (availability_answer_listing_facts fuel c now date appointment_type r Hget)
      as (Hdate & Htotal & Hcount & Hnone).
    exists r. split; [reflexivity|]. split; [exact Hdate|]. split; [reflexivity|].
    rewrite length_map. split; [reflexivity|]. split; [symmetry; exact Hcount|].
    split; [rewrite Htotal; apply filter_length_le|].
    split; [rewrite map_map; reflexivity|].
    rewrite List.Forall_forall. intros v Hv. apply in_map_iff in Hv.
    destruct Hv as (slot & <- & Hin). simpl.
    apply filter_available_In in Hin as [Hin Hav].
    split; [|reflexivity].
    rewrite List.Forall_forall in Hnone. specialize (Hnone slot Hin).
    destruct slot as [st et av aid]. simpl in *. subst. exact Hin.
  - split; [reflexivity|]. split; [reflexivity|].
    destruct e; simpl; split; intros H; try discriminate H; reflexivity.
Qed.

(** *** The booking tool *)





(** *** From a slot shown to a booking *)



(* ===================================================================== *)
(** ** Further properties of the agent's sessions *)
(* ===================================================================== *)

(** *** The window of twenty messages *)

Lemma last_n_length {A : Type} (n : nat) (l : list A) :
  length (last_n n l) = Nat.min n (length l).
Proof. unfold last_n. rewrite length_drop. lia. Qed.

Lemma last_n_suffix {A : Type} (n : nat) (l : list A) :
  l = (take (length l - n) l ++ last_n n l)%list.
Proof. unfold last_n. symmetry. apply take_drop. Qed.

Lemma appended_length (h : list Message.t) (m : Message.t) :
  (length (appended h m) <= 20)%nat.
Proof.
  unfold appended. cbn zeta.
  destruct (Nat.ltb_spec 20 (length (h ++ [m]))) as [Hl|Hl]; [|exact Hl].
  rewrite last_n_length. lia.
Qed.

Lemma appended_short (h : list Message.t) (m : Message.t) :
  (length h < 20)%nat -> appended h m = (h ++ [m])%list.
Proof.
  intros Hl. unfold appended. cbn zeta.
  destruct (Nat.ltb_spec 20 (length (h ++ [m]))) as [Hl'|Hl']; [|reflexivity].
  rewrite length_app in Hl'. simpl in Hl'. lia.
Qed.

Lemma appended_last (h : list Message.t) (m : Message.t) :
  last (appended h m) = Some m.
Proof.
  unfold appended. cbn zeta.
  destruct (Nat.ltb_spec 20 (length (h ++ [m]))) as [Hl|Hl]; [|apply last_snoc].
  unfold last_n. rewrite length_app in *. simpl in *.
  rewrite drop_app_le by lia. apply last_snoc.
Qed.

Lemma add_to_session_other (sessions : gmap string (list Message.t))
    (session_id role : string) (content : option string) (other : string) :
  other <> session_id ->
  _add_to_session sessions session_id role content !! other = sessions !! other.
Proof.
  intros Hne. unfold _add_to_session. cbn zeta.
  destruct (sessions !! session_id) as [h|] eqn:Hs;
    destruct (20 <? length _)%nat;
    rewrite ?lookup_insert_ne by congruence; reflexivity.
Qed.

(** X16: what [_add_to_session] keeps.  After the call the history of
    the session ends with the message added and holds at most 20
    messages, whatever it held before; it is a final segment of the old
    history followed by the new message, and nothing is dropped while the
    old history is shorter than 20.  No other session is touched. *)
Theorem add_to_session_window (sessions : gmap string (list Message.t))
    (session_id role : string) (content : option string) :
  let before := history_of sessions session_id in
  let sessions' := _add_to_session sessions session_id role content in
  let after := history_of sessions' session_id in
  (length after <= 20)%nat /\
  last after = Some (Message.mk role content) /\
  (exists dropped, (before ++ [Message.mk role content] = dropped ++ after)%list) /\
  ((length before < 20)%nat -> after = (before ++ [Message.mk role content])%list) /\
  (forall other, other <> session_id -> sessions' !! other = sessions !! other).
Proof.
  cbn zeta. rewrite history_of_add.
  split; [apply appended_length|]. split; [apply appended_last|].
  split; [|split; [apply appended_short | intros other; apply add_to_session_other]].
  unfold appended. cbn zeta.
  destruct (20 <? length _)%nat.
  - eexists. apply last_n_suffix.
  - exists []. reflexivity.
Qed.

(** *** A turn that succeeds *)

(** X17: the reply and the history of a turn in which no call fails.
    Without tool calls the reply is the model's text, and the history
    gains the user's message and then the assistant's text.  With tool
    calls the reply is the text of the second model call together with the
    names of the tools in the order called, and the history gains three
    messages in this order: the assistant's text of the first call (empty
    when there was none), then the user's message, then the final text.
    Every addition is subject to the window of 20 messages. *)
Theorem chat_success_history (SYSTEM_PROMPT : string)
    (create_with_tools : list ApiMessage -> outcome AssistantMessage.t)
    (create_final : list ApiMessage -> outcome (option string))
    (run_tool : ToolCall.t -> outcome string)
    (sessions : gmap string (list Message.t)) (message session_id : string) :
  let result := chat SYSTEM_PROMPT create_with_tools create_final run_tool
                  sessions message session_id in
  let before := history_of sessions session_id in
  let messages := first_call_messages SYSTEM_PROMPT before message in
  (forall assistant_message,
     create_with_tools messages = Returned assistant_message ->
     AssistantMessage.tool_calls assistant_message = [] ->
     fst result = ChatReply.mk (AssistantMessage.content assistant_message)
                    session_id (Some []) None /\
     history_of (snd result) session_id
     = appended (appended before (Message.mk "user" (Some message)))
         (Message.mk "assistant" (AssistantMessage.content assistant_message))) /\
  (forall assistant_message tool_results final_message,
     create_with_tools messages = Returned assistant_message ->
     AssistantMessage.tool_calls assistant_message <> [] ->
     run_tools run_tool (AssistantMessage.tool_calls assistant_message)
     = Returned tool_results ->
     create_final
       (messages
        ++ [WithToolCalls (AssistantMessage.content assistant_message)
              (AssistantMessage.tool_calls assistant_message)]
        ++ tool_results)%list = Returned final_message ->
     fst result = ChatReply.mk final_message session_id
                    (Some (map ToolCall.name
                             (AssistantMessage.tool_calls assistant_message))) None /\
     history_of (snd result) session_id
     = appended
         (appended
            (appended before
               (Message.mk "assistant"
                  (Some (or_empty (AssistantMessage.content assistant_message)))))
            (Message.mk "user" (Some message)))
         (Message.mk "assistant" final_message)).
Proof.
  intros result before messages.
  destruct (get_session_history_spec sessions session_id) as [Hh Hs].
  subst result. unfold chat, chat_body.
  destruct (_get_session_history sessions session_id) as [history sessions1].
  simpl in Hh, Hs. subst history. fold before.
  change (Plain (Message.mk "system" (Some SYSTEM_PROMPT)) :: map Plain before
          ++ [Plain (Message.mk "user" (Some message))])%list with messages.
  split.
  - intros am Ham Hcalls. rewrite Ham, Hcalls. simpl. split; [reflexivity|].
    rewrite !history_of_add, Hs. reflexivity.
  - intros am results final Ham Hcalls Htools Hfinal. rewrite Ham.
    destruct (AssistantMessage.tool_calls am) as [|tc calls] eqn:Hc; [congruence|].
    rewrite Htools, Hfinal. simpl. split; [reflexivity|].
    rewrite !history_of_add, Hs. reflexivity.
Qed.

Lemma chat_success_history_witness :
  let result := chat "You are a scheduling assistant." first_call_asks_tool
                  (fun _ => Returned (Some "You are booked.")) tool_returns ∅
                  "Book me for Monday" "s1" in
  fst result = ChatReply.mk (Some "You are booked.") "s1"
                 (Some ["check_availability"]) None /\
  history_of (snd result) "s1"
  = [Message.mk "assistant" (Some EmptyString);
     Message.mk "user" (Some "Book me for Monday");
     Message.mk "assistant" (Some "You are booked.")].
Proof.
  exact (proj2 (chat_success_history "You are a scheduling assistant."
                  first_call_asks_tool (fun _ => Returned (Some "You are booked."))
                  tool_returns ∅ "Book me for Monday" "s1")
           (AssistantMessage.mk None [sample_tool_call])
           [ToolResult "call_1" "check_availability" "{}"] (Some "You are booked.")
           eq_refl ltac:(discriminate) eq_refl eq_refl).
Defined.

(** *** Sessions do not leak into each other *)

(** The session map after a turn: the map read by [_get_session_history]
    with some messages added to the session of the turn. *)
Lemma chat_sessions_shape (SYSTEM_PROMPT : string)
    (create_with_tools : list ApiMessage -> outcome AssistantMessage.t)
    (create_final : list ApiMessage -> outcome (option string))
    (run_tool : ToolCall.t -> outcome string)
    (sessions : gmap string (list Message.t)) (message session_id : string) :
  exists added : list Message.t,
    snd (chat SYSTEM_PROMPT create_with_tools create_final run_tool
           sessions message session_id)
    = fold_left (fun s m => _add_to_session s session_id (Message.role m)
                              (Message.content m))
        added (snd (_get_session_history sessions session_id)).
Proof.
  unfold chat, chat_body.
  destruct (_get_session_history sessions session_id) as [history sessions1]. simpl.
  destruct (create_with_tools _) as [am|e]; [|exists []; reflexivity].
  destruct (AssistantMessage.tool_calls am) as [|tc calls].
  - exists [Message.mk "user" (Some message);
            Message.mk "assistant" (AssistantMessage.content am)]. reflexivity.
  - destruct (run_tools run_tool (tc :: calls)) as [results|e].
    + destruct (create_final _) as [final|e].
      * exists [Message.mk "assistant" (Some (or_empty (AssistantMessage.content am)));
                Message.mk "user" (Some message);
                Message.mk "assistant" final]. reflexivity.
      * exists [Message.mk "assistant" (Some (or_empty (AssistantMessage.content am)))].
        reflexivity.
    + exists [Message.mk "assistant" (Some (or_empty (AssistantMessage.content am)))].
      reflexivity.
Qed.

Lemma get_session_history_other (sessions : gmap string (list Message.t))
    (session_id other : string) :
  other <> session_id ->
  snd (_get_session_history sessions session_id) !! other = sessions !! other.
Proof.
  intros Hne. unfold _get_session_history.
  destruct (sessions !! session_id); simpl; [reflexivity|].
  apply lookup_insert_ne. congruence.
Qed.

Lemma add_many_other (added : list Message.t)
    (sessions : gmap string (list Message.t)) (session_id other : string) :
  other <> session_id ->
  fold_left (fun s m => _add_to_session s session_id (Message.role m)
                          (Message.content m)) added sessions !! other
  = sessions !! other.
Proof.
  intros Hne. revert sessions.
  induction added as [|m l IH]; intros sessions; simpl; [reflexivity|].
  rewrite IH. apply add_to_session_other. exact Hne.
Qed.

Lemma agent_step_other (sessions : gmap string (list Message.t)) (op : AgentOp)
    (other : string) :
  other <> session_of op -> agent_step sessions op !! other = sessions !! other.
Proof.
  destruct op as [sp cwt cf rt message sid | sid | sid]; simpl; intros Hne.
  - destruct (chat_sessions_shape sp cwt cf rt sessions message sid) as [added ->].
    rewrite add_many_other by exact Hne. apply get_session_history_other. exact Hne.
  - unfold reset_session. destruct (sessions !! sid); [|reflexivity].
    apply lookup_delete_ne. congruence.
  - unfold get_session_info.
    pose proof (get_session_history_other sessions sid other Hne) as H.
    destruct (_get_session_history sessions sid) as [h s]. exact H.
Qed.

(** X18: sessions are isolated.  Whatever a sequence of chat turns,
    resets and session queries does, and whatever the model and the tools
    answer, a session that none of the calls names is left exactly as it
    was: present or absent, with the same history. *)
Theorem sessions_are_isolated (ops : list AgentOp)
    (sessions : gmap string (list Message.t)) (other : string) :
  Forall (fun op => session_of op <> other) ops ->
  agent_run ops sessions !! other = sessions !! other.
Proof.
  unfold agent_run. revert sessions.
  induction ops as [|op ops IH]; intros sessions Hops; simpl; [reflexivity|].
  inversion Hops as [|? ? Hop Hrest]; subst.
  rewrite (IH _ Hrest). apply agent_step_other. congruence.
Qed.

Lemma sessions_are_isolated_witness :
  agent_run [ChatTurn "You are a scheduling assistant." first_call_asks_tool
               second_call_down tool_returns "Book me for Monday" "s1";
             ResetSession "s1"]
    (<["s2" := [Message.mk "user" (Some "Hello")]]> ∅) !! "s2"
  = Some [Message.mk "user" (Some "Hello")].
Proof.
  rewrite (sessions_are_isolated
             [ChatTurn "You are a scheduling assistant." first_call_asks_tool
                second_call_down tool_returns "Book me for Monday" "s1";
              ResetSession "s1"]
             (<["s2" := [Message.mk "user" (Some "Hello")]]> ∅) "s2").
  - reflexivity.
  - repeat constructor; simpl; discriminate.
Defined.

(** *** No history outgrows the window *)

Lemma add_to_session_bounded (sessions : gmap string (list Message.t))
    (session_id role : string) (content : option string) :
  map_Forall (fun _ h => (length h <= 20)%nat) sessions ->
  map_Forall (fun _ h => (length h <= 20)%nat)
    (_add_to_session sessions session_id role content).
Proof.
  intros Hb sid h Hl.
  destruct (decide (sid = session_id)) as [->|Hne].
  - pose proof (history_of_add sessions session_id role content) as Hh.
    unfold history_of in Hh. rewrite Hl in Hh. simpl in Hh. subst h.
    apply appended_length.
  - rewrite add_to_session_other in Hl by exact Hne. exact (Hb sid h Hl).
Qed.

Lemma get_session_history_bounded (sessions : gmap string (list Message.t))
    (session_id : string) :
  map_Forall (fun _ h => (length h <= 20)%nat) sessions ->
  map_Forall (fun _ h => (length h <= 20)%nat)
    (snd (_get_session_history sessions session_id)).
Proof.
  intros Hb. unfold _get_session_history.
  destruct (sessions !! session_id); simpl; [exact Hb|].
  apply map_Forall_insert_2; [simpl; lia | exact Hb].
Qed.

Lemma agent_step_bounded (sessions : gmap string (list Message.t)) (op : AgentOp) :
  map_Forall (fun _ h => (length h <= 20)%nat) sessions ->
  map_Forall (fun _ h => (length h <= 20)%nat) (agent_step sessions op).
Proof.
  intros Hb. destruct op as [sp cwt cf rt message sid | sid | sid]; simpl.
  - destruct (chat_sessions_shape sp cwt cf rt sessions message sid) as [added ->].
    pose proof (get_session_history_bounded sessions sid Hb) as H.
    generalize dependent (snd (_get_session_history sessions sid)).
    induction added as [|m l IH]; intros s Hs; simpl; [exact Hs|].
    apply IH. apply add_to_session_bounded. exact Hs.
  - unfold reset_session. destruct (sessions !! sid); [|exact Hb].
    apply map_Forall_delete. exact Hb.
  - unfold get_session_info.
    pose proof (get_session_history_bounded sessions sid Hb) as H.
    destruct (_get_session_history sessions sid) as [h s]. exact H.
Qed.

(** X19: no history outgrows the window.  Starting from an agent whose
    histories hold at most 20 messages each, a new agent for instance,
    every history still holds at most 20 messages after any sequence of
    chat turns, resets and session queries, whether the turns succeed or
    fail; so a turn never sends the model more than 20 earlier messages. *)
Theorem histories_stay_within_window (ops : list AgentOp)
    (sessions : gmap string (list Message.t)) :
  map_Forall (fun _ h => (length h <= 20)%nat) sessions ->
  forall session_id,
    (length (history_of (agent_run ops sessions) session_id) <= 20)%nat.
Proof.
  intros Hb session_id.
  assert (H : map_Forall (fun _ h => (length h <= 20)%nat) (agent_run ops sessions)).
  { unfold agent_run. revert sessions Hb.
    induction ops as [|op ops IH]; intros sessions Hb; simpl; [exact Hb|].
    apply IH. apply agent_step_bounded. exact Hb. }
  unfold history_of.
  destruct (agent_run ops sessions !! session_id) as [h|] eqn:Hl; simpl; [|lia].
  exact (H session_id h Hl).
Qed.

Lemma histories_stay_within_window_witness :
  (length (history_of
             (agent_run [ChatTurn "You are a scheduling assistant."
                           first_call_asks_tool second_call_down tool_returns
                           "Book me for Monday" "s1"] ∅) "s1") <= 20)%nat.
Proof.
  apply (histories_stay_within_window
           [ChatTurn "You are a scheduling assistant." first_call_asks_tool
              second_call_down tool_returns "Book me for Monday" "s1"] ∅).
  apply map_Forall_empty.
Defined.

(** *** Session queries and resets *)

(** A turn reads nothing of the session map but the history of its
    session. *)
Lemma chat_depends_on_history (SYSTEM_PROMPT : string)
    (create_with_tools : list ApiMessage -> outcome AssistantMessage.t)
    (create_final : list ApiMessage -> outcome (option string))
    (run_tool : ToolCall.t -> outcome string)
    (s1 s2 : gmap string (list Message.t)) (message session_id : string) :
  history_of s1 session_id = history_of s2 session_id ->
  fst (chat SYSTEM_PROMPT create_with_tools create_final run_tool s1 message session_id)
  = fst (chat SYSTEM_PROMPT create_with_tools create_final run_tool s2 message session_id)
  /\
  history_of
    (snd (chat SYSTEM_PROMPT create_with_tools create_final run_tool s1 message
            session_id)) session_id
  = history_of
      (snd (chat SYSTEM_PROMPT create_with_tools create_final run_tool s2 message
              session_id)) session_id.
Proof.
  intros Heq.
  destruct (get_session_history_spec s1 session_id) as [Hh1 Hs1].
  destruct (get_session_history_spec s2 session_id) as [Hh2 Hs2].
  unfold chat, chat_body.
  destruct (_get_session_history s1 session_id) as [h1 t1].
  destruct (_get_session_history s2 session_id) as [h2 t2].
  simpl in Hh1, Hs1, Hh2, Hs2. rewrite <- Heq in Hh2, Hs2. subst h1 h2.
  destruct (create_with_tools _) as [am|e]; simpl; [|split; congruence].
  destruct (AssistantMessage.tool_calls am) as [|tc calls].
  - simpl. rewrite !history_of_add. split; congruence.
  - destruct (run_tools run_tool (tc :: calls)) as [results|e]; simpl.
    + destruct (create_final _) as [final|e]; simpl; rewrite !history_of_add;
        split; congruence.
    + rewrite !history_of_add. split; congruence.
Qed.

(** X20: session queries and resets.  [get_session_info] reports the
    number of messages of the history and its last five (all of them when
    there are fewer), without changing the history.  After
    [reset_session] the session reports no message, and the next turn of
    the session is the turn of a session never seen before: the same
    reply and the same history afterwards as on an agent with no session
    at all. *)
Theorem session_info_and_reset (sessions : gmap string (list Message.t))
    (session_id : string) :
  let info := fst (get_session_info sessions session_id) in
  let before := history_of sessions session_id in
  SessionInfo.session_id info = session_id /\
  SessionInfo.message_count info = length before /\
  SessionInfo.last_messages info = drop (length before - 5) before /\
  length (SessionInfo.last_messages info) = Nat.min 5 (length before) /\
  history_of (snd (get_session_info sessions session_id)) session_id = before /\
  fst (get_session_info (reset_session sessions session_id) session_id)
  = SessionInfo.mk session_id 0 [] /\
  forall SYSTEM_PROMPT create_with_tools create_final run_tool message,
    let fresh := chat SYSTEM_PROMPT create_with_tools create_final run_tool
                   ∅ message session_id in
    let again := chat SYSTEM_PROMPT create_with_tools create_final run_tool
                   (reset_session sessions session_id) message session_id in
    fst again = fst fresh /\
    history_of (snd again) session_id = history_of (snd fresh) session_id.
Proof.
  cbn zeta.
  assert (Hreset : history_of (reset_session sessions session_id) session_id = []).
  { unfold reset_session, history_of.
    destruct (sessions !! session_id) eqn:Hs; [|rewrite Hs; reflexivity].
    rewrite lookup_delete_eq. reflexivity. }
  assert (Hinfo : forall s,
            fst (get_session_info s session_id)
            = SessionInfo.mk session_id (length (history_of s session_id))
                (drop (length (history_of s session_id) - 5) (history_of s session_id))
            /\ history_of (snd (get_session_info s session_id)) session_id
               = history_of s session_id).
  { intros s. destruct (get_session_history_spec s session_id) as [Hh Hs].
    unfold get_session_info.
    destruct (_get_session_history s session_id) as [h t]. simpl in *. subst h.
    split; [|exact Hs].
    destruct (history_of s session_id) as [|m l] eqn:He; reflexivity. }
  destruct (Hinfo sessions) as [-> Hkeep].
  cbn [SessionInfo.session_id SessionInfo.message_count SessionInfo.last_messages].
  repeat split; auto.
  - rewrite length_drop. lia.
  - destruct (Hinfo (reset_session sessions session_id)) as [-> _].
    rewrite Hreset. reflexivity.
  - apply chat_depends_on_history. rewrite Hreset. reflexivity.
  - apply chat_depends_on_history. rewrite Hreset. reflexivity.
Qed.

(** *** The chat endpoint *)

(** X21: the route function of POST /chat.  It returns a body or raises
    [HTTPException] with status code 500, and keeps whatever the turn did
    to the sessions.  For a turn in which the model or a tool failed it
    returns: the body is the apology with an empty list of tool calls.  It
    raises exactly when the turn ended without error but with no text
    from the model; the history of the session then already ends with the
    assistant's message without content. *)
Theorem chat_endpoint_status (SYSTEM_PROMPT : string)
    (create_with_tools : list ApiMessage -> outcome AssistantMessage.t)
    (create_final : list ApiMessage -> outcome (option string))
    (run_tool : ToolCall.t -> outcome string)
    (sessions : gmap string (list Message.t)) (now : datetime)
    (message session_id : string) :
  let result := chat SYSTEM_PROMPT create_with_tools create_final run_tool
                  sessions message session_id in
  let out := chat_endpoint SYSTEM_PROMPT create_with_tools create_final run_tool
               sessions now message session_id in
  snd out = snd result /\
  match fst out with
  | Http.Returns body =>
      ChatReply.response (fst result) = Some (ChatResponse.response body) /\
      ChatResponse.session_id body = session_id /\
      ChatResponse.timestamp body = now /\
      (ChatReply.error (fst result) <> None ->
       body = ChatResponse.mk APOLOGY session_id now [])
  | Http.HTTPException code _ =>
      code = 500 /\
      ChatReply.response (fst result) = None /\
      ChatReply.error (fst result) = None /\
      last (history_of (snd out) session_id) = Some (Message.mk "assistant" None)
  end.
Proof.
  cbn zeta. unfold chat_endpoint, chat, chat_body.
  destruct (_get_session_history sessions session_id) as [history sessions1].
  destruct (create_with_tools _) as [am|e]; simpl;
    [|split; [reflexivity|]; repeat split; auto].
  destruct (AssistantMessage.tool_calls am) as [|tc calls].
  - simpl. destruct (AssistantMessage.content am) as [text|]; simpl.
    + split; [reflexivity|]. repeat split; auto. intros H. congruence.
    + split; [reflexivity|]. repeat split; auto.
      rewrite history_of_add. apply appended_last.
  - destruct (run_tools run_tool (tc :: calls)) as [results|e]; simpl;
      [|split; [reflexivity|]; repeat split; auto].
    destruct (create_final _) as [final|e]; simpl;
      [|split; [reflexivity|]; repeat split; auto].
    destruct final as [text|]; simpl.
    + split; [reflexivity|]. repeat split; auto. intros H. congruence.
    + split; [reflexivity|]. repeat split; auto.
      rewrite history_of_add. apply appended_last.
Qed.

(** *** The loop over the tool calls *)

(** X22: the tool loop of a turn.  When it completes there is exactly one
    result per tool call, in the order of the calls, each carrying the id
    and the name of its call and what the tool returned.  When it raises,
    the error is that of the first call whose tool raises, and every call
    before it had returned. *)
Theorem run_tools_results (run_tool : ToolCall.t -> outcome string)
    (calls : list ToolCall.t) :
  match run_tools run_tool calls with
  | Returned results =>
      Forall2 (fun call result =>
                 exists content,
                   run_tool call = Returned content /\
                   result = ToolResult (ToolCall.id call) (ToolCall.name call) content)
              calls results
  | Raised e =>
      exists before call after,
        calls = (before ++ call :: after)%list /\
        Forall (fun c => exists content, run_tool c = Returned content) before /\
        run_tool call = Raised e
  end.
Proof.
  induction calls as [|tc calls IH]; simpl; [constructor|].
  destruct (run_tool tc) as [content|e] eqn:Ht.
  - destruct (run_tools run_tool calls) as [results|e].
    + constructor; [eauto | exact IH].
    + destruct IH as (before & call & after & -> & Hb & Hc).
      exists (tc :: before), call, after. repeat split; auto.
      constructor; eauto.
  - exists [], tc, calls. repeat split; auto.
Qed.

(** *** Working days and their sessions *)


(* ===================================================================== *)
(** ** Instances on the sample calendar *)
(* ===================================================================== *)


Lemma book_cancel_restores_fresh_witness :
  match book_appointment empty_calendly sample_now zero_draws
          (sample_request "2025-01-06" "09:40") with
  | Ok (response, c') =>
      BookingResponse.booking_id response = "APPT-20250106-0000" /\
      fst (cancel_booking c' sample_now "APPT-20250106-0000") = true /\
      get_availability 100 (snd (cancel_booking c' sample_now "APPT-20250106-0000"))
        sample_now "2025-01-06" "consultation"
      = get_availability 100 empty_calendly sample_now "2025-01-06" "consultation"
  | _ => False
  end.
Proof.
  destruct (book_appointment empty_calendly sample_now zero_draws
              (sample_request "2025-01-06" "09:40")) as [[response c']| |] eqn:Hb;
    try (vm_compute in Hb; discriminate Hb).
  assert (Hid : BookingResponse.booking_id response = "APPT-20250106-0000").
  { destruct (book_appointment_inv _ _ _ _ _ _ Hb)
      as (date_obj & duration & start_mins & sessions & H). cbn zeta in H.
    destruct H as (_ & _ & _ & _ & _ & _ & _ & _ & -> & _). reflexivity. }
  split; [exact Hid|]. rewrite <- Hid.
  destruct (book_cancel_restores_fresh empty_calendly c' sample_now sample_now
              zero_draws (sample_request "2025-01-06" "09:40") response Hb eq_refl)
    as [H1 H2].
  split; [exact H1 | apply H2].
Defined.

Lemma book_appointment_postcondition_witness :
  match book_appointment sample_calendly sample_now count_draws
          (sample_request "2025-01-06" "09:40") with
  | Ok (response, c') =>
      matches_booking_id (BookingResponse.booking_id response) = true /\
      matches_confirmation_code (BookingResponse.confirmation_code response) = true /\
      length (Calendly.bookings c') = 3%nat
  | _ => False
  end.
Proof.
  destruct (book_appointment sample_calendly sample_now count_draws
              (sample_request "2025-01-06" "09:40")) as [[response c']| |] eqn:Hb;
    try (vm_compute in Hb; discriminate Hb).
  destruct (book_appointment_postcondition sample_calendly sample_now count_draws
              (sample_request "2025-01-06" "09:40") response c' eq_refl Hb)
    as (H1 & H2 & record & s & duration & H3 & _).
  split; [exact H1|]. split; [exact H2|].
  rewrite H3, length_app. reflexivity.
Defined.


Lemma readable_run_witness :
  times_parse (Calendly.bookings (run sample_ops sample_calendly)) "2025-01-06".
Proof.
  apply (readable_run sample_ops sample_calendly).
  repeat constructor; vm_compute; eauto.
Defined.

Lemma ledger_append_only_witness :
  exists a',
    Calendly.bookings (run sample_ops sample_calendly) !! 0%nat = Some a' /\
    kept_or_cancelled
      (booked_record sample_now zero_draws (sample_request "2025-01-06" "09:00") "09:30")
      a' /\
    (is_confirmed a' = true ->
     a' = booked_record sample_now zero_draws (sample_request "2025-01-06" "09:00")
            "09:30").
Proof.
  apply (proj2 (ledger_append_only sample_ops sample_calendly) 0%nat).
  reflexivity.
Defined.

Lemma cancel_then_lookup_witness :
  get_booking_by_id
    (snd (cancel_booking sample_calendly sample_now "APPT-20250106-0000"))
    "APPT-20250106-0123"
  = get_booking_by_id sample_calendly "APPT-20250106-0123".
Proof.
  apply (proj2 (cancel_then_lookup sample_calendly sample_now "APPT-20250106-0000")).
  discriminate.
Defined.

Lemma booking_endpoints_get_delete_witness :
  main.get_booking
    (snd (main.cancel_booking sample_calendly sample_now "APPT-20250106-0000"))
    "APPT-20250106-0123"
  = main.get_booking sample_calendly "APPT-20250106-0123".
Proof.
  apply (proj2 (booking_endpoints_get_delete sample_calendly sample_now
                  "APPT-20250106-0000")).
  discriminate.
Defined.

Lemma add_to_session_window_witness :
  history_of (_add_to_session ∅ "s1" "user" (Some "Hello")) "s1"
  = [Message.mk "user" (Some "Hello")].
Proof.
  pose proof (add_to_session_window ∅ "s1" "user" (Some "Hello")) as H.
  cbn zeta in H. destruct H as (_ & _ & _ & H & _).
  apply H. unfold history_of. rewrite lookup_empty. simpl. lia.
Defined.

Lemma chat_endpoint_status_witness :
  fst (chat_endpoint "You are a scheduling assistant."
         (fun _ => Raised "Connection error.") second_call_down tool_returns
         ∅ sample_now "Book me for Monday" "s1")
  = Http.Returns (ChatResponse.mk APOLOGY "s1" sample_now []).
Proof.
  pose proof (chat_endpoint_status "You are a scheduling assistant."
                (fun _ => Raised "Connection error.") second_call_down tool_returns
                ∅ sample_now "Book me for Monday" "s1") as H.
  cbn zeta in H. destruct H as [_ H].
  destruct (fst (chat_endpoint "You are a scheduling assistant."
                   (fun _ => Raised "Connection error.") second_call_down
                   tool_returns ∅ sample_now "Book me for Monday" "s1"))
    as [body|code cause] eqn:He.
  - destruct H as (_ & _ & _ & H). rewrite H; [reflexivity|].
    vm_compute. discriminate.
  - vm_compute in He. discriminate He.
Defined.
